(** * The decision engine of the trading bot: ensemble signal, position
      sizing, stops and circuit breaker

    A shallow embedding of [src/adaptive_strategy.py] (class
    [AdaptiveStrategyEngine]) and [src/enhanced_risk_manager.py] (classes
    [Position] and [EnhancedRiskManager]), with the two take-profit/stop
    helpers of [src/advanced_risk_manager.py].

    Numbers.  The Python code computes with floats.  The embedding is written
    once, over an interface [PyNum] of the arithmetic and comparison
    operations the code uses, and is run at two instances:
    - [Q], exact rational arithmetic (no rounding, no NaN, no infinity), in
      which the arithmetic properties are proved;
    - [float], Rocq's primitive IEEE-754 binary64 numbers, which are Python's
      floats, in which concrete scenarios are evaluated bit for bit.
    Properties that only depend on the control flow are proved for every
    instance.

    Effects.  Methods that mutate [self] are state-passing functions in a
    small monad [M S A := S -> Res A * S]: a Python exception is the result
    [Raise e], and the state reached when it is raised is kept, as in Python.
    [datetime.now()] is an explicit argument [now] (seconds).  Of the logger
    only the circuit breaker's messages are recorded.  The coroutine
    [generate_ensemble_signal] never awaits: it is modelled as a function. *)

From Stdlib Require Import ZArith QArith Qabs Qminmax Lqa Lia Bool String List.
From Stdlib Require Import Floats Numbers.Cyclic.Int63.Uint63.
From stdpp Require Import base option gmap strings.
Import ListNotations.

Local Open Scope string_scope.

(** ** Python values: numbers *)

(** The operations on numbers that the source uses.  [lit q] is the number a
    decimal literal of the source denotes; [div] is the division of NumPy
    scalars, which never raises. *)
Class PyNum (F : Type) := {
  lit : Q -> F;
  add : F -> F -> F;
  sub : F -> F -> F;
  mul : F -> F -> F;
  div : F -> F -> F;
  opp : F -> F;
  pabs : F -> F;
  eqb : F -> F -> bool;
  ltb : F -> F -> bool;
  leb : F -> F -> bool
}.
Arguments lit {F _} q%_Q.

Declare Scope py_scope.
Delimit Scope py_scope with py.
Notation "x + y" := (add x y) : py_scope.
Notation "x - y" := (sub x y) : py_scope.
Notation "x * y" := (mul x y) : py_scope.
Notation "x / y" := (div x y) : py_scope.
Notation "- x" := (opp x) : py_scope.
Notation "x == y" := (eqb x y) (at level 70, no associativity) : py_scope.
Notation "x < y" := (ltb x y) : py_scope.
Notation "x <= y" := (leb x y) : py_scope.
Notation "x > y" := (ltb y x) : py_scope.
Notation "x >= y" := (leb y x) : py_scope.

(** Exact rational arithmetic.  [Qdiv x 0] is [0]: the instance is only
    meaningful where the code does not divide by zero. *)
#[export] Instance QNum : PyNum Q := {|
  lit := fun q => q;
  add := Qplus;
  sub := Qminus;
  mul := Qmult;
  div := Qdiv;
  opp := Qopp;
  pabs := Qabs;
  eqb := Qeq_bool;
  ltb := fun x y => negb (Qle_bool y x);
  leb := Qle_bool
|}.

Definition float_of_Z (z : Z) : float :=
  match z with
  | Z0 => PrimFloat.zero
  | Zpos _ => PrimFloat.of_uint63 (Uint63.of_Z z)
  | Zneg p => PrimFloat.opp (PrimFloat.of_uint63 (Uint63.of_Z (Zpos p)))
  end.

(** A decimal literal n/10^k is the binary64 number nearest to it: the
    correctly rounded quotient of two integers below 2^53. *)
Definition float_lit (q : Q) : float :=
  PrimFloat.div (float_of_Z (Qnum q)) (float_of_Z (Zpos (Qden q))).

(** IEEE-754 binary64, round to nearest even: Python's [float] and NumPy's
    [float64]. *)
#[export] Instance FloatNum : PyNum float := {|
  lit := float_lit;
  add := PrimFloat.add;
  sub := PrimFloat.sub;
  mul := PrimFloat.mul;
  div := PrimFloat.div;
  opp := PrimFloat.opp;
  pabs := PrimFloat.abs;
  eqb := PrimFloat.eqb;
  ltb := PrimFloat.ltb;
  leb := PrimFloat.leb
|}.

(** ** Python values: exceptions and the state monad *)

Inductive exn : Type :=
  | KeyError (key : string)
  | IndexError
  | ZeroDivisionError
  | TypeError.

Inductive Res (A : Type) : Type :=
  | Ok (a : A)
  | Raise (e : exn).
Arguments Ok {A} a.
Arguments Raise {A} e.

Definition rbind {A B} (r : Res A) (k : A -> Res B) : Res B :=
  match r with
  | Ok a => k a
  | Raise e => Raise e
  end.

Definition M (S A : Type) : Type := S -> Res A * S.

Definition retM {S A} (a : A) : M S A := fun s => (Ok a, s).

Definition bindM {S A B} (m : M S A) (k : A -> M S B) : M S B :=
  fun s => match m s with
           | (Ok a, s') => k a s'
           | (Raise e, s') => (Raise e, s')
           end.

Definition liftM {S A} (r : Res A) : M S A := fun s => (r, s).
Definition getM {S} : M S S := fun s => (Ok s, s).
Definition modifyM {S} (f : S -> S) : M S unit := fun s => (Ok tt, f s).

(** [try: m except Exception as e: h e] *)
Definition try_except {S A} (m : M S A) (h : exn -> M S A) : M S A :=
  fun s => match m s with
           | (Ok a, s') => (Ok a, s')
           | (Raise e, s') => h e s'
           end.

Definition rtry {A} (r : Res A) (h : exn -> Res A) : Res A :=
  match r with
  | Ok a => Ok a
  | Raise e => h e
  end.

Notation "'let?' x ':=' r 'in' k" := (rbind r (fun x => k))
  (at level 10, x name, r at level 100, k at level 200).
Notation "'let!' x ':=' m 'in' k" := (bindM m (fun x => k))
  (at level 10, x name, m at level 100, k at level 200).
Notation "'do!' m 'in' k" := (bindM m (fun _ => k))
  (at level 10, m at level 100, k at level 200).

(** ** Built-ins *)

Section Builtins.
Context {F : Type} {N : PyNum F}.
Local Open Scope py_scope.

(** [max(a, b)] returns [a] unless [b > a]; [min(a, b)] returns [a] unless
    [b < a]. *)
Definition py_max (a b : F) : F := if b > a then b else a.
Definition py_min (a b : F) : F := if b < a then b else a.

(** Division of two Python floats. *)
Definition py_div (x y : F) : Res F :=
  if y == lit 0 then Raise ZeroDivisionError else Ok (x / y).

(** [sum(xs)], from the integer 0 and from left to right (as CPython does up
    to 3.11; later versions compensate the rounding errors, which matters in
    binary64 only). *)
Definition py_sum (xs : list F) : F :=
  match xs with
  | [] => lit 0
  | x :: rest => fold_left add rest x
  end.

Definition of_nat (n : nat) : F := lit (inject_Z (Z.of_nat n)).

(** [series.iloc[-1]] and [series.iloc[-2]]. *)
Definition iloc_last (xs : list F) : Res F :=
  match rev xs with
  | x :: _ => Ok x
  | [] => Raise IndexError
  end.

Definition iloc_prev (xs : list F) : Res F :=
  match rev xs with
  | _ :: x :: _ => Ok x
  | _ => Raise IndexError
  end.
End Builtins.

(** ** Library functions

    NumPy and pandas functions the source calls.  They are not code of the
    repository: the embedding takes them as an interface. *)

(** [x ** 0.5] for [x >= 0], and [np.mean]. *)
Class PyMath (F : Type) := {
  pow_half : F -> F;
  np_mean : list F -> F
}.

Class Pandas (F : Type) := {
  (** [series.rolling(n).mean()] *)
  rolling_mean : nat -> list F -> list F;
  (** [series.pct_change()] *)
  pct_change : list F -> list F;
  (** [series.std()] *)
  series_std : list F -> F;
  (** [np.std(values)] *)
  np_std : list F -> F
}.

(** [series.tail(n)] *)
Definition tail_n {A} (n : nat) (xs : list A) : list A :=
  skipn (length xs - n) xs.

(** A DataFrame: its columns by name. *)
Abbreviation DataFrame F := (gmap string (list F)).

Section Frames.
Context {F : Type}.

(** [name in df.columns] *)
Definition has_col (df : DataFrame F) (name : string) : bool :=
  match df !! name with
  | Some _ => true
  | None => false
  end.

(** [df[name]] *)
Definition col (df : DataFrame F) (name : string) : Res (list F) :=
  match df !! name with
  | Some xs => Ok xs
  | None => Raise (KeyError name)
  end.
End Frames.

(** A [dict] with string keys, in insertion order. *)
Abbreviation dict V := (list (string * V)).

Section Dicts.
Context {V : Type}.

(** [d.get(k)] *)
Fixpoint dict_get (k : string) (d : dict V) : option V :=
  match d with
  | [] => None
  | (k', v) :: rest => if String.eqb k k' then Some v else dict_get k rest
  end.

(** [d[k] = f(d[k])], a [KeyError] when [k] is absent. *)
Fixpoint dict_update (k : string) (f : V -> V) (d : dict V) : Res (dict V) :=
  match d with
  | [] => Raise (KeyError k)
  | (k', v) :: rest =>
      if String.eqb k k' then Ok ((k', f v) :: rest)
      else rbind (dict_update k f rest) (fun rest' => Ok ((k', v) :: rest'))
  end.

Definition dict_values (d : dict V) : list V := map snd d.
End Dicts.

(** ** [adaptive_strategy.py] *)

Record MarketRegime (F : Type) := {
  volatility : string;
  trend : string;
  volume : string;
  confidence : F
}.
Arguments volatility {F} _.
Arguments trend {F} _.
Arguments volume {F} _.
Arguments confidence {F} _.

(** The human-readable explanations, with the numbers they print. *)
Inductive reason (F : Type) : Type :=
  | RsiNotAvailable
  | RsiOversold (rsi oversold : F)
  | RsiOverbought (rsi overbought : F)
  | RsiNeutral (rsi : F)
  | MacdNotAvailable
  | MacdBullishCrossover
  | MacdBearishCrossover
  | MacdBullish (diff : F)
  | MacdBearish (diff : F)
  | BollingerNotAvailable
  | BollingerCollapsed
  | PriceNearLowerBB (position : F)
  | PriceNearUpperBB (position : F)
  | PriceBelowMiddleBB (position : F)
  | PriceAboveMiddleBB (position : F)
  | PriceInBBMiddle (position : F)
  | EmaNotAvailable
  | EmaBullishCrossover
  | EmaBearishCrossover
  | EmaBullish (diff_pct : F)
  | EmaBearish (diff_pct : F)
  | VolumeNotAvailable
  | NoVolumeData
  | HighVolumePriceUp (volume_ratio : F)
  | HighVolumePriceDown (volume_ratio : F)
  | LowVolume (volume_ratio : F)
  | NormalVolume (volume_ratio : F)
  | MlReason (ml_signal ml_confidence : F)
  | ErrorReason (e : exn).
Arguments RsiNotAvailable {F}.
Arguments RsiOversold {F}.
Arguments RsiOverbought {F}.
Arguments RsiNeutral {F}.
Arguments MacdNotAvailable {F}.
Arguments MacdBullishCrossover {F}.
Arguments MacdBearishCrossover {F}.
Arguments MacdBullish {F}.
Arguments MacdBearish {F}.
Arguments BollingerNotAvailable {F}.
Arguments BollingerCollapsed {F}.
Arguments PriceNearLowerBB {F}.
Arguments PriceNearUpperBB {F}.
Arguments PriceBelowMiddleBB {F}.
Arguments PriceAboveMiddleBB {F}.
Arguments PriceInBBMiddle {F}.
Arguments EmaNotAvailable {F}.
Arguments EmaBullishCrossover {F}.
Arguments EmaBearishCrossover {F}.
Arguments EmaBullish {F}.
Arguments EmaBearish {F}.
Arguments VolumeNotAvailable {F}.
Arguments NoVolumeData {F}.
Arguments HighVolumePriceUp {F}.
Arguments HighVolumePriceDown {F}.
Arguments LowVolume {F}.
Arguments NormalVolume {F}.
Arguments MlReason {F}.
Arguments ErrorReason {F}.

(** The dataclass [AdaptiveSignal]; [sig_confidence] is its field
    [confidence]. *)
Record AdaptiveSignal (F : Type) := {
  action : string;
  strength : F;
  sig_confidence : F;
  regime : MarketRegime F;
  components : dict F;
  reasoning : list (reason F)
}.
Arguments action {F} _.
Arguments strength {F} _.
Arguments sig_confidence {F} _.
Arguments regime {F} _.
Arguments components {F} _.
Arguments reasoning {F} _.

(** The attributes of an [AdaptiveStrategyEngine]. *)
Record Engine (F : Type) := {
  base_rsi_oversold : F;
  base_rsi_overbought : F;
  volatility_adjustment : bool;
  ml_enabled : bool;
  base_weights : dict F;
  current_weights : dict F;
  regime_history : list (MarketRegime F)
}.
Arguments base_rsi_oversold {F} _.
Arguments base_rsi_overbought {F} _.
Arguments volatility_adjustment {F} _.
Arguments ml_enabled {F} _.
Arguments base_weights {F} _.
Arguments current_weights {F} _.
Arguments regime_history {F} _.

Section EngineState.
Context {F : Type} {N : PyNum F}.

Definition set_current_weights (w : dict F) (e : Engine F) : Engine F :=
  {| base_rsi_oversold := base_rsi_oversold e;
     base_rsi_overbought := base_rsi_overbought e;
     volatility_adjustment := volatility_adjustment e;
     ml_enabled := ml_enabled e;
     base_weights := base_weights e;
     current_weights := w;
     regime_history := regime_history e |}.

Definition set_regime_history (h : list (MarketRegime F)) (e : Engine F)
  : Engine F :=
  {| base_rsi_oversold := base_rsi_oversold e;
     base_rsi_overbought := base_rsi_overbought e;
     volatility_adjustment := volatility_adjustment e;
     ml_enabled := ml_enabled e;
     base_weights := base_weights e;
     current_weights := current_weights e;
     regime_history := h |}.

(** The dictionary [base_weights] that [__init__] builds. *)
Definition initial_weights (ml_enabled : bool) : dict F :=
  [("rsi", lit 1.0); ("macd", lit 1.5); ("bollinger", lit 1.2);
   ("ema_trend", lit 1.3); ("volume", lit 1.0); ("stochastic", lit 0.8);
   ("atr", lit 0.7);
   ("ml_prediction", if ml_enabled then lit 2.0 else lit 0.0)].

(** [AdaptiveStrategyEngine.__init__]; [current_weights] is a copy of
    [base_weights]. *)
Definition new_engine (base_rsi_oversold base_rsi_overbought : F)
    (volatility_adjustment ml_enabled : bool) : Engine F :=
  let base_weights := initial_weights ml_enabled in
  {| base_rsi_oversold := base_rsi_oversold;
     base_rsi_overbought := base_rsi_overbought;
     volatility_adjustment := volatility_adjustment;
     ml_enabled := ml_enabled;
     base_weights := base_weights;
     current_weights := base_weights;
     regime_history := [] |}.

(** The attributes that no method assigns after [__init__]. *)
Definition same_config (e1 e2 : Engine F) : Prop :=
  base_rsi_oversold e1 = base_rsi_oversold e2 /\
  base_rsi_overbought e1 = base_rsi_overbought e2 /\
  volatility_adjustment e1 = volatility_adjustment e2 /\
  ml_enabled e1 = ml_enabled e2 /\
  base_weights e1 = base_weights e2.
End EngineState.

Section Engine.
Context {F : Type} {N : PyNum F} {P : Pandas F}.
Local Open Scope py_scope.

Definition default_regime : MarketRegime F :=
  {| volatility := "medium"; trend := "ranging"; volume := "normal";
     confidence := lit 0.5 |}.

(** The [try] block of [detect_market_regime], up to the construction of
    the regime. *)
Definition classify_regime (df : DataFrame F) : Res (MarketRegime F) :=
  let? volatility :=
    if has_col df "atr" then
      let? atr_col := col df "atr" in
      let? atr := iloc_last atr_col in
      let? avg_atr := iloc_last (rolling_mean 20 atr_col) in
      let volatility_ratio :=
        if avg_atr > lit 0 then atr / avg_atr else lit 1.0 in
      Ok (if volatility_ratio > lit 1.5 then "high"
          else if volatility_ratio < lit 0.7 then "low"
          else "medium")
    else
      let? close := col df "close" in
      let returns_std := series_std (tail_n 20 (pct_change close)) in
      Ok (if returns_std > lit 0.03 then "high"
          else if returns_std < lit 0.01 then "low"
          else "medium") in
  let? trend :=
    if has_col df "ema_12" && has_col df "ema_26" then
      let? ema_12 := col df "ema_12" in
      let? ema_fast := iloc_last ema_12 in
      let? ema_26 := col df "ema_26" in
      let? ema_slow := iloc_last ema_26 in
      let ema_diff_pct := (ema_fast - ema_slow) / ema_slow * lit 100 in
      Ok (if ema_diff_pct > lit 2 then "bullish"
          else if ema_diff_pct < - lit 2 then "bearish"
          else "ranging")
    else
      let? close := col df "close" in
      let? sma_20 := iloc_last (rolling_mean 20 close) in
      let? current_price := iloc_last close in
      Ok (if current_price > sma_20 * lit 1.02 then "bullish"
          else if current_price < sma_20 * lit 0.98 then "bearish"
          else "ranging") in
  let? volume :=
    if has_col df "volume" then
      let? volume_col := col df "volume" in
      let? current_volume := iloc_last volume_col in
      let? avg_volume := iloc_last (rolling_mean 20 volume_col) in
      let volume_ratio :=
        if avg_volume > lit 0 then current_volume / avg_volume
        else lit 1.0 in
      Ok (if volume_ratio > lit 1.5 then "high"
          else if volume_ratio < lit 0.7 then "low"
          else "normal")
    else Ok "normal" in
  let available_indicators :=
    (Nat.b2n (has_col df "atr") + Nat.b2n (has_col df "ema_12") +
     Nat.b2n (has_col df "volume") + Nat.b2n (has_col df "rsi"))%nat in
  let confidence := of_nat available_indicators / lit 4.0 in
  Ok {| volatility := volatility; trend := trend; volume := volume;
        confidence := confidence |}.

Definition detect_market_regime (df : DataFrame F)
  : M (Engine F) (MarketRegime F) :=
  try_except
    (let! regime := liftM (classify_regime df) in
     do! modifyM (fun e =>
           let history := (regime_history e ++ [regime])%list in
           set_regime_history
             (if (100 <? length history)%nat then tail_n 100 history
              else history) e) in
     retM regime)
    (fun _ => retM default_regime).

Definition adjust_thresholds_for_volatility (e : Engine F)
    (regime : MarketRegime F) : F * F :=
  if negb (volatility_adjustment e) then
    (base_rsi_oversold e, base_rsi_overbought e)
  else if String.eqb (volatility regime) "high" then
    (py_max (lit 20) (base_rsi_oversold e - lit 10),
     py_min (lit 80) (base_rsi_overbought e + lit 10))
  else if String.eqb (volatility regime) "low" then
    (py_min (lit 35) (base_rsi_oversold e + lit 5),
     py_max (lit 65) (base_rsi_overbought e - lit 5))
  else
    (base_rsi_oversold e, base_rsi_overbought e).

(** [weights[key] *= c] *)
Definition scale (key : string) (c : Q) (weights : dict F)
  : Res (dict F) :=
  dict_update key (fun w => w * lit c) weights.

(** The regime rules of [adjust_weights_for_regime], before the
    normalization. *)
Definition regime_rules (regime : MarketRegime F) (weights : dict F)
  : Res (dict F) :=
  let? weights :=
    if String.eqb (volatility regime) "high" then
      let? weights := scale "macd" 1.3 weights in
      let? weights := scale "rsi" 0.8 weights in
      scale "bollinger" 1.2 weights
    else if String.eqb (volatility regime) "low" then
      let? weights := scale "rsi" 1.3 weights in
      let? weights := scale "bollinger" 1.4 weights in
      scale "macd" 0.8 weights
    else Ok weights in
  let? weights :=
    if String.eqb (trend regime) "bullish"
       || String.eqb (trend regime) "bearish" then
      let? weights := scale "ema_trend" 1.4 weights in
      scale "macd" 1.2 weights
    else if String.eqb (trend regime) "ranging" then
      let? weights := scale "rsi" 1.3 weights in
      scale "stochastic" 1.2 weights
    else Ok weights in
  if String.eqb (volume regime) "high" then
    let? weights := scale "volume" 1.5 weights in
    Ok (map (fun kv : string * F =>
               if negb (String.eqb (fst kv) "volume")
               then (fst kv, snd kv * lit 1.1) else kv) weights)
  else Ok weights.

(** [{k: v / total_weight for k, v in weights.items()}] *)
Fixpoint normalize (total_weight : F) (weights : dict F) : Res (dict F) :=
  match weights with
  | [] => Ok []
  | (k, v) :: rest =>
      let? q := py_div v total_weight in
      let? rest' := normalize total_weight rest in
      Ok ((k, q) :: rest')
  end.

Definition adjust_weights_for_regime (regime : MarketRegime F)
  : M (Engine F) unit :=
  let! e := getM in
  let! weights := liftM (regime_rules regime (base_weights e)) in
  let total_weight := py_sum (dict_values weights) in
  let! normalized := liftM (normalize total_weight weights) in
  modifyM (set_current_weights normalized).
End Engine.

Section Signals.
Context {F : Type} {N : PyNum F} {P : Pandas F}.
Local Open Scope py_scope.

Definition calculate_rsi_signal (df : DataFrame F) (oversold overbought : F)
  : Res (F * reason F) :=
  if negb (has_col df "rsi") then Ok (lit 0.0, RsiNotAvailable)
  else
    let? rsi_col := col df "rsi" in
    let? rsi := iloc_last rsi_col in
    if rsi < oversold then
      Ok ((oversold - rsi) / oversold, RsiOversold rsi oversold)
    else if rsi > overbought then
      Ok (- (rsi - overbought) / (lit 100 - overbought),
          RsiOverbought rsi overbought)
    else
      let mid := (oversold + overbought) / lit 2 in
      Ok ((mid - rsi) / (overbought - oversold) * lit 0.5, RsiNeutral rsi).

Definition calculate_macd_signal (df : DataFrame F) : Res (F * reason F) :=
  if negb (has_col df "macd") || negb (has_col df "macd_signal") then
    Ok (lit 0.0, MacdNotAvailable)
  else
    let? macd_col := col df "macd" in
    let? macd := iloc_last macd_col in
    let? signal_col := col df "macd_signal" in
    let? macd_signal := iloc_last signal_col in
    let? macd_prev := iloc_prev macd_col in
    let? signal_prev := iloc_prev signal_col in
    if (macd > macd_signal) && (macd_prev <= signal_prev) then
      Ok (lit 0.8, MacdBullishCrossover)
    else if (macd < macd_signal) && (macd_prev >= signal_prev) then
      Ok (- lit 0.8, MacdBearishCrossover)
    else if macd > macd_signal then
      let diff := pabs (macd - macd_signal) in
      Ok (py_min (lit 0.6) (diff * lit 10), MacdBullish diff)
    else
      let diff := pabs (macd - macd_signal) in
      Ok (- py_min (lit 0.6) (diff * lit 10), MacdBearish diff).

Definition calculate_bollinger_signal (df : DataFrame F)
  : Res (F * reason F) :=
  if negb (has_col df "bb_upper") || negb (has_col df "bb_lower") then
    Ok (lit 0.0, BollingerNotAvailable)
  else
    let? close_col := col df "close" in
    let? close := iloc_last close_col in
    let? upper_col := col df "bb_upper" in
    let? bb_upper := iloc_last upper_col in
    let? middle_col := col df "bb_middle" in
    let? bb_middle := iloc_last middle_col in
    let? lower_col := col df "bb_lower" in
    let? bb_lower := iloc_last lower_col in
    let bb_range := bb_upper - bb_lower in
    if bb_range == lit 0 then Ok (lit 0.0, BollingerCollapsed)
    else
      let position := (close - bb_lower) / bb_range in
      if position < lit 0.2 then Ok (lit 0.7, PriceNearLowerBB position)
      else if position > lit 0.8 then
        Ok (- lit 0.7, PriceNearUpperBB position)
      else if position < lit 0.4 then
        Ok (lit 0.3, PriceBelowMiddleBB position)
      else if position > lit 0.6 then
        Ok (- lit 0.3, PriceAboveMiddleBB position)
      else Ok (lit 0.0, PriceInBBMiddle position).

Definition calculate_ema_trend_signal (df : DataFrame F)
  : Res (F * reason F) :=
  if negb (has_col df "ema_12") || negb (has_col df "ema_26") then
    Ok (lit 0.0, EmaNotAvailable)
  else
    let? fast_col := col df "ema_12" in
    let? ema_fast := iloc_last fast_col in
    let? slow_col := col df "ema_26" in
    let? ema_slow := iloc_last slow_col in
    let? close_col := col df "close" in
    let? close := iloc_last close_col in
    let? ema_fast_prev := iloc_prev fast_col in
    let? ema_slow_prev := iloc_prev slow_col in
    if (ema_fast > ema_slow) && (ema_fast_prev <= ema_slow_prev) then
      Ok (lit 0.9, EmaBullishCrossover)
    else if (ema_fast < ema_slow) && (ema_fast_prev >= ema_slow_prev) then
      Ok (- lit 0.9, EmaBearishCrossover)
    else if ema_fast > ema_slow then
      let diff_pct := (ema_fast - ema_slow) / ema_slow * lit 100 in
      Ok (py_min (lit 0.7) (diff_pct / lit 5), EmaBullish diff_pct)
    else
      let diff_pct := (ema_slow - ema_fast) / ema_slow * lit 100 in
      Ok (- py_min (lit 0.7) (diff_pct / lit 5), EmaBearish diff_pct).

Definition calculate_volume_signal (df : DataFrame F)
  : Res (F * reason F) :=
  if negb (has_col df "volume") then Ok (lit 0.0, VolumeNotAvailable)
  else
    let? volume_col := col df "volume" in
    let? volume := iloc_last volume_col in
    let? avg_volume := iloc_last (rolling_mean 20 volume_col) in
    if avg_volume == lit 0 then Ok (lit 0.0, NoVolumeData)
    else
      let volume_ratio := volume / avg_volume in
      let? close_col := col df "close" in
      let? price_change := iloc_last (pct_change close_col) in
      if volume_ratio > lit 1.5 then
        if price_change > lit 0 then
          Ok (py_min (lit 0.8) (volume_ratio * lit 0.3),
              HighVolumePriceUp volume_ratio)
        else
          Ok (- py_min (lit 0.8) (volume_ratio * lit 0.3),
              HighVolumePriceDown volume_ratio)
      else if volume_ratio < lit 0.7 then
        Ok (lit 0.0, LowVolume volume_ratio)
      else Ok (lit 0.0, NormalVolume volume_ratio).

(** The loop that accumulates [weighted_score] and [total_weight]. *)
Definition weighted_sums (weights signals : dict F) : F * F :=
  fold_left
    (fun (acc : F * F) (cs : string * F) =>
       let weight := default (lit 0) (dict_get (fst cs) weights) in
       (fst acc + snd cs * weight, snd acc + weight))
    signals (lit 0.0, lit 0.0).

(** [weighted_score], divided by [total_weight] when that is positive. *)
Definition weighted_score (weights signals : dict F) : F :=
  let sums := weighted_sums weights signals in
  if snd sums > lit 0 then fst sums / snd sums else fst sums.

(** [if strength >= 65: 'BUY' elif strength <= 35: 'SELL' else: 'HOLD'] *)
Definition determine_action (strength : F) : string :=
  if strength >= lit 65 then "BUY"
  else if strength <= lit 35 then "SELL"
  else "HOLD".

(** The [try] block of [generate_ensemble_signal] after the weights are
    adjusted: it reads [self] and assigns nothing.  [ml_prediction] is
    [None] or a dictionary. *)
Definition combine_signals (self : Engine F) (regime : MarketRegime F)
    (df : DataFrame F) (ml_prediction : option (dict F))
  : Res (AdaptiveSignal F) :=
  let thresholds := adjust_thresholds_for_volatility self regime in
  let? rsi := calculate_rsi_signal df (fst thresholds) (snd thresholds) in
  let? macd := calculate_macd_signal df in
  let? bb := calculate_bollinger_signal df in
  let? ema := calculate_ema_trend_signal df in
  let? vol := calculate_volume_signal df in
  let ml :=
    match ml_prediction with
    | Some (entry :: rest) =>
        if ml_enabled self then
          let d := entry :: rest in
          let ml_signal := default (lit 0) (dict_get "signal" d) in
          let ml_confidence :=
            default (lit 0.5) (dict_get "confidence" d) in
          (ml_signal * ml_confidence, [MlReason ml_signal ml_confidence])
        else (lit 0.0, [])
    | _ => (lit 0.0, [])
    end in
  let signals :=
    [("rsi", fst rsi); ("macd", fst macd); ("bollinger", fst bb);
     ("ema_trend", fst ema); ("volume", fst vol);
     ("ml_prediction", fst ml)] in
  let reasons :=
    ([snd rsi; snd macd; snd bb; snd ema; snd vol] ++ snd ml)%list in
  let strength :=
    (weighted_score (current_weights self) signals + lit 1) * lit 50 in
  let action := determine_action strength in
  let signal_values :=
    List.filter (fun s => negb (s == lit 0)) (dict_values signals) in
  let agreement :=
    match signal_values with
    | [] => lit 0.5
    | _ => py_max (lit 0.5) (lit 1.0 - np_std signal_values)
    end in
  Ok {| action := action; strength := strength;
        sig_confidence := agreement * confidence regime;
        regime := regime;
        components := signals; reasoning := reasons |}.

(** The [try] block of [generate_ensemble_signal]. *)
Definition ensemble (df : DataFrame F) (ml_prediction : option (dict F))
  : M (Engine F) (AdaptiveSignal F) :=
  let! regime := detect_market_regime df in
  do! adjust_weights_for_regime regime in
  let! self := getM in
  liftM (combine_signals self regime df ml_prediction).

(** The signal of the [except] clause. *)
Definition error_signal (e : exn) : AdaptiveSignal F :=
  {| action := "HOLD"; strength := lit 50.0; sig_confidence := lit 0.0;
     regime := {| volatility := "medium"; trend := "ranging";
                  volume := "normal"; confidence := lit 0.0 |};
     components := []; reasoning := [ErrorReason e] |}.

Definition generate_ensemble_signal (df : DataFrame F)
    (ml_prediction : option (dict F)) : M (Engine F) (AdaptiveSignal F) :=
  try_except (ensemble df ml_prediction) (fun e => retM (error_signal e)).
End Signals.

(** ** [enhanced_risk_manager.py] *)

(** The dataclass [Position]; [entry_time] in seconds. *)
Record Position (F : Type) := {
  symbol : string;
  side : string;
  entry_price : F;
  size : F;
  stop_loss : F;
  take_profit : list F;
  entry_time : Z;
  unrealized_pnl : F;
  realized_pnl : F;
  trailing_stop_active : bool;
  highest_price : F;
  lowest_price : F
}.
Arguments symbol {F} _.
Arguments side {F} _.
Arguments entry_price {F} _.
Arguments size {F} _.
Arguments stop_loss {F} _.
Arguments take_profit {F} _.
Arguments entry_time {F} _.
Arguments unrealized_pnl {F} _.
Arguments realized_pnl {F} _.
Arguments trailing_stop_active {F} _.
Arguments highest_price {F} _.
Arguments lowest_price {F} _.

(** What the logger is told about the circuit breaker. *)
Inductive event : Type :=
  | BreakerActivated (reason : string) (until : Z)
  | BreakerDeactivated.

(** The attributes of an [EnhancedRiskManager] ([day_start_date] and
    [trade_history], which the methods below neither read nor write, are left
    out); [log] is the record of the logger's circuit-breaker messages, oldest
    first. *)
Record RiskManager (F : Type) := {
  initial_capital : F;
  current_capital : F;
  peak_capital : F;
  max_position_size_pct : F;
  max_daily_loss_pct : F;
  max_drawdown_pct : F;
  use_kelly_criterion : bool;
  kelly_fraction : F;
  enable_trailing_stop : bool;
  trailing_stop_pct : F;
  positions : gmap string (Position F);
  closed_positions : list (Position F);
  daily_start_capital : F;
  circuit_breaker_active : bool;
  circuit_breaker_until : option Z;
  log : list event
}.
Arguments initial_capital {F} _.
Arguments current_capital {F} _.
Arguments peak_capital {F} _.
Arguments max_position_size_pct {F} _.
Arguments max_daily_loss_pct {F} _.
Arguments max_drawdown_pct {F} _.
Arguments use_kelly_criterion {F} _.
Arguments kelly_fraction {F} _.
Arguments enable_trailing_stop {F} _.
Arguments trailing_stop_pct {F} _.
Arguments positions {F} _.
Arguments closed_positions {F} _.
Arguments daily_start_capital {F} _.
Arguments circuit_breaker_active {F} _.
Arguments circuit_breaker_until {F} _.
Arguments log {F} _.

Section RiskState.
Context {F : Type} {N : PyNum F}.
Local Open Scope py_scope.

Definition set_trailing_stop_active (b : bool) (p : Position F)
  : Position F :=
  {| symbol := symbol p; side := side p; entry_price := entry_price p;
     size := size p; stop_loss := stop_loss p;
     take_profit := take_profit p; entry_time := entry_time p;
     unrealized_pnl := unrealized_pnl p; realized_pnl := realized_pnl p;
     trailing_stop_active := b; highest_price := highest_price p;
     lowest_price := lowest_price p |}.

Definition set_stop_loss (stop : F) (p : Position F) : Position F :=
  {| symbol := symbol p; side := side p; entry_price := entry_price p;
     size := size p; stop_loss := stop;
     take_profit := take_profit p; entry_time := entry_time p;
     unrealized_pnl := unrealized_pnl p; realized_pnl := realized_pnl p;
     trailing_stop_active := trailing_stop_active p;
     highest_price := highest_price p; lowest_price := lowest_price p |}.

(** [Position.update_pnl] *)
Definition update_pnl (current_price : F) (p : Position F) : Position F :=
  if String.eqb (side p) "long" then
    {| symbol := symbol p; side := side p; entry_price := entry_price p;
       size := size p; stop_loss := stop_loss p;
       take_profit := take_profit p; entry_time := entry_time p;
       unrealized_pnl := (current_price - entry_price p) * size p;
       realized_pnl := realized_pnl p;
       trailing_stop_active := trailing_stop_active p;
       highest_price :=
         if current_price > highest_price p then current_price
         else highest_price p;
       lowest_price := lowest_price p |}
  else
    {| symbol := symbol p; side := side p; entry_price := entry_price p;
       size := size p; stop_loss := stop_loss p;
       take_profit := take_profit p; entry_time := entry_time p;
       unrealized_pnl := (entry_price p - current_price) * size p;
       realized_pnl := realized_pnl p;
       trailing_stop_active := trailing_stop_active p;
       highest_price := highest_price p;
       lowest_price :=
         if current_price < lowest_price p then current_price
         else lowest_price p |}.

(** [Position.get_pnl_pct]: the quotient of two Python floats. *)
Definition get_pnl_pct (p : Position F) : Res F :=
  if entry_price p == lit 0 then Ok (lit 0.0)
  else
    let? ratio := py_div (unrealized_pnl p) (entry_price p * size p) in
    Ok (ratio * lit 100).

Definition set_positions (ps : gmap string (Position F))
    (rm : RiskManager F) : RiskManager F :=
  {| initial_capital := initial_capital rm;
     current_capital := current_capital rm;
     peak_capital := peak_capital rm;
     max_position_size_pct := max_position_size_pct rm;
     max_daily_loss_pct := max_daily_loss_pct rm;
     max_drawdown_pct := max_drawdown_pct rm;
     use_kelly_criterion := use_kelly_criterion rm;
     kelly_fraction := kelly_fraction rm;
     enable_trailing_stop := enable_trailing_stop rm;
     trailing_stop_pct := trailing_stop_pct rm;
     positions := ps;
     closed_positions := closed_positions rm;
     daily_start_capital := daily_start_capital rm;
     circuit_breaker_active := circuit_breaker_active rm;
     circuit_breaker_until := circuit_breaker_until rm;
     log := log rm |}.

(** Assigns [circuit_breaker_active] and [circuit_breaker_until] and logs
    [ev]. *)
Definition set_breaker (active : bool) (until : option Z) (ev : event)
    (rm : RiskManager F) : RiskManager F :=
  {| initial_capital := initial_capital rm;
     current_capital := current_capital rm;
     peak_capital := peak_capital rm;
     max_position_size_pct := max_position_size_pct rm;
     max_daily_loss_pct := max_daily_loss_pct rm;
     max_drawdown_pct := max_drawdown_pct rm;
     use_kelly_criterion := use_kelly_criterion rm;
     kelly_fraction := kelly_fraction rm;
     enable_trailing_stop := enable_trailing_stop rm;
     trailing_stop_pct := trailing_stop_pct rm;
     positions := positions rm;
     closed_positions := closed_positions rm;
     daily_start_capital := daily_start_capital rm;
     circuit_breaker_active := active;
     circuit_breaker_until := until;
     log := (log rm ++ [ev])%list |}.

(** [self.positions[symbol]] refers to a mutable object: assigning to one
    of its attributes updates the entry. *)
Definition store_position (symbol : string) (p : Position F)
  : M (RiskManager F) unit :=
  modifyM (fun rm => set_positions (<[symbol := p]> (positions rm)) rm).

(** [EnhancedRiskManager.__init__] *)
Definition new_risk_manager (initial_capital max_position_size_pct
    max_daily_loss_pct max_drawdown_pct : F) (use_kelly_criterion : bool)
    (kelly_fraction : F) (enable_trailing_stop : bool)
    (trailing_stop_pct : F) : RiskManager F :=
  {| initial_capital := initial_capital;
     current_capital := initial_capital;
     peak_capital := initial_capital;
     max_position_size_pct := max_position_size_pct;
     max_daily_loss_pct := max_daily_loss_pct;
     max_drawdown_pct := max_drawdown_pct;
     use_kelly_criterion := use_kelly_criterion;
     kelly_fraction := kelly_fraction;
     enable_trailing_stop := enable_trailing_stop;
     trailing_stop_pct := trailing_stop_pct;
     positions := ∅;
     closed_positions := [];
     daily_start_capital := initial_capital;
     circuit_breaker_active := false;
     circuit_breaker_until := None;
     log := [] |}.

Definition get_daily_pnl_pct (rm : RiskManager F) : F :=
  if daily_start_capital rm == lit 0 then lit 0.0
  else (current_capital rm - daily_start_capital rm)
       / daily_start_capital rm * lit 100.

Definition get_current_drawdown_pct (rm : RiskManager F) : F :=
  if peak_capital rm == lit 0 then lit 0.0
  else (peak_capital rm - current_capital rm) / peak_capital rm * lit 100.

Definition calculate_fixed_position_size (rm : RiskManager F) : F :=
  current_capital rm * (max_position_size_pct rm / lit 100).
End RiskState.

(** An argument annotated [float] for which the caller may pass [None]. *)
Inductive pyval (F : Type) : Type :=
  | PyFloat (x : F)
  | PyNone.
Arguments PyFloat {F} x.
Arguments PyNone {F}.

(** Arithmetic on [None] raises [TypeError]. *)
Definition as_float {F} (v : pyval F) : Res F :=
  match v with
  | PyFloat x => Ok x
  | PyNone => Raise TypeError
  end.

Section Sizing.
Context {F : Type} {N : PyNum F} {L : PyMath F}.
Local Open Scope py_scope.

Definition calculate_position_size_volatility (rm : RiskManager F)
    (df : DataFrame F) (risk_per_trade_pct : F) : F :=
  let attempt : Res F :=
    if negb (has_col df "atr") then Ok (calculate_fixed_position_size rm)
    else
      let? close := col df "close" in
      let? current_price := iloc_last close in
      let? atr_col := col df "atr" in
      let? atr := iloc_last atr_col in
      if (atr == lit 0) || (current_price == lit 0) then
        Ok (calculate_fixed_position_size rm)
      else
        let risk_amount :=
          current_capital rm * (risk_per_trade_pct / lit 100) in
        let stop_distance := atr * lit 2 in
        let stop_distance_pct := stop_distance / current_price * lit 100 in
        let position_size_usd :=
          risk_amount / (stop_distance_pct / lit 100) in
        let position_size := position_size_usd / current_price in
        let max_position_usd :=
          current_capital rm * (max_position_size_pct rm / lit 100) in
        Ok (if position_size_usd > max_position_usd
            then max_position_usd / current_price
            else position_size) in
  match attempt with
  | Ok position_size => position_size
  | Raise _ => calculate_fixed_position_size rm
  end.

(** The [try] block of [calculate_kelly_position_size]; its arguments are
    Python floats. *)
Definition kelly_formula (rm : RiskManager F) (win_rate avg_win avg_loss : F)
  : Res F :=
  if (avg_loss == lit 0) || (win_rate == lit 0) then
    Ok (max_position_size_pct rm / lit 2)
  else
    let? win_loss_ratio := py_div avg_win avg_loss in
    let? kelly_pct :=
      py_div (win_loss_ratio * win_rate - (lit 1 - win_rate))
             win_loss_ratio in
    let kelly_pct := kelly_pct * kelly_fraction rm in
    Ok (py_max (lit 1.0)
               (py_min (kelly_pct * lit 100) (max_position_size_pct rm))).

Definition calculate_kelly_position_size (rm : RiskManager F)
    (win_rate avg_win avg_loss : F) : F :=
  match kelly_formula rm win_rate avg_win avg_loss with
  | Ok kelly_pct => kelly_pct
  | Raise _ => max_position_size_pct rm / lit 2
  end.

(** Returns [(win_rate, avg_win, avg_loss)]. *)
Definition calculate_win_statistics (rm : RiskManager F) : F * F * F :=
  match closed_positions rm with
  | [] => (lit 0.5, lit 0.0, lit 0.0)
  | _ =>
      let wins :=
        map realized_pnl
          (List.filter (fun p => realized_pnl p > lit 0)
                       (closed_positions rm)) in
      let losses :=
        map (fun p => pabs (realized_pnl p))
          (List.filter (fun p => realized_pnl p < lit 0)
                       (closed_positions rm)) in
      let win_rate :=
        of_nat (length wins) / of_nat (length (closed_positions rm)) in
      let avg_win :=
        match wins with [] => lit 0.0 | _ => np_mean wins end in
      let avg_loss :=
        match losses with [] => lit 0.0 | _ => np_mean losses end in
      (win_rate, avg_win, avg_loss)
  end.

(** The [try] block of [calculate_dynamic_position_size]. *)
Definition dynamic_size (rm : RiskManager F) (df : DataFrame F)
    (signal_strength signal_confidence : pyval F) : Res F :=
  let? close := col df "close" in
  let? current_price := iloc_last close in
  let base_size := calculate_position_size_volatility rm df (lit 2.0) in
  let? strength := as_float signal_strength in
  let strength_multiplier := pow_half (strength / lit 50.0) in
  let? signal_conf := as_float signal_confidence in
  let confidence_multiplier := lit 0.5 + signal_conf * lit 0.5 in
  let current_dd := get_current_drawdown_pct rm in
  let dd_multiplier :=
    if current_dd > max_drawdown_pct rm / lit 2 then lit 0.5
    else lit 1.0 in
  let daily_pnl_pct := get_daily_pnl_pct rm in
  let pnl_multiplier :=
    if daily_pnl_pct < - max_daily_loss_pct rm / lit 2 then lit 0.5
    else if daily_pnl_pct > max_daily_loss_pct rm then lit 1.2
    else lit 1.0 in
  let? kelly_multiplier :=
    if use_kelly_criterion rm
       && (10 <=? length (closed_positions rm))%nat then
      let stats := calculate_win_statistics rm in
      let kelly_pct :=
        calculate_kelly_position_size rm (fst (fst stats)) (snd (fst stats))
                                      (snd stats) in
      py_div kelly_pct (max_position_size_pct rm)
    else Ok (lit 1.0) in
  let final_multiplier :=
    strength_multiplier * confidence_multiplier * dd_multiplier
    * pnl_multiplier * kelly_multiplier in
  let position_size := base_size * final_multiplier in
  let min_size := current_capital rm * lit 0.01 / current_price in
  let max_size :=
    current_capital rm * max_position_size_pct rm / lit 100
    / current_price in
  Ok (py_max min_size (py_min position_size max_size)).

(** The [except] clause reads [df['close'].iloc[-1]] again. *)
Definition calculate_dynamic_position_size (rm : RiskManager F)
    (df : DataFrame F) (signal_strength signal_confidence : pyval F)
  : Res F :=
  rtry (dynamic_size rm df signal_strength signal_confidence)
    (fun _ =>
       let? close := col df "close" in
       let? current_price := iloc_last close in
       Ok (calculate_fixed_position_size rm / current_price)).
End Sizing.

Section Stops.
Context {F : Type} {N : PyNum F}.
Local Open Scope py_scope.

Definition calculate_stop_loss (entry_price : F) (df : DataFrame F)
    (side : string) : F :=
  let attempt : Res F :=
    let? stop_distance :=
      if has_col df "atr" then
        let? atr_col := col df "atr" in
        let? atr := iloc_last atr_col in
        Ok (atr * lit 2)
      else Ok (entry_price * lit 0.02) in
    let min_stop := entry_price * lit 0.01 in
    let max_stop := entry_price * lit 0.05 in
    let stop_distance := py_max min_stop (py_min stop_distance max_stop) in
    Ok (if String.eqb side "long" then entry_price - stop_distance
        else entry_price + stop_distance) in
  match attempt with
  | Ok stop_loss => stop_loss
  | Raise _ =>
      if String.eqb side "long" then entry_price * lit 0.98
      else entry_price * lit 1.02
  end.

(** Nothing in the [try] block can raise on numbers, so the [except]
    clause has no counterpart here. *)
Definition calculate_take_profit_levels (entry_price stop_loss : F)
    (side : string) (levels : nat) : list F :=
  let risk := pabs (entry_price - stop_loss) in
  let risk_multiples := firstn levels [lit 2; lit 3; lit 5] in
  map (fun multiple =>
         if String.eqb side "long" then entry_price + risk * multiple
         else entry_price - risk * multiple)
      risk_multiples.

(** [update_trailing_stop] does not read [current_price]: the extreme
    prices are those recorded by [Position.update_pnl]. *)
Definition update_trailing_stop (symbol : string) (current_price : F)
  : M (RiskManager F) (option F) :=
  let! self := getM in
  match positions self !! symbol with
  | None => retM None
  | Some position =>
      if negb (enable_trailing_stop self) then retM None
      else
        let! position :=
          if negb (trailing_stop_active position) then
            let! profit_pct := liftM (get_pnl_pct position) in
            if profit_pct >= lit 2.0 then
              let activated := set_trailing_stop_active true position in
              do! store_position symbol activated in
              retM activated
            else retM position
          else retM position in
        if trailing_stop_active position then
          if String.eqb (side position) "long" then
            let new_stop :=
              highest_price position
              * (lit 1 - trailing_stop_pct self / lit 100) in
            if new_stop > stop_loss position then
              do! store_position symbol (set_stop_loss new_stop position) in
              retM (Some new_stop)
            else retM None
          else
            let new_stop :=
              lowest_price position
              * (lit 1 + trailing_stop_pct self / lit 100) in
            if new_stop < stop_loss position then
              do! store_position symbol (set_stop_loss new_stop position) in
              retM (Some new_stop)
            else retM None
        else retM None
  end.
End Stops.

Section Breaker.
Context {F : Type} {N : PyNum F}.
Local Open Scope py_scope.

(** [timedelta(hours=h)] in seconds. *)
Definition hours (h : Z) : Z := (h * 3600)%Z.

(** [datetime.now()] is [now]. *)
Definition activate_circuit_breaker (now : Z) (reason : string) (h : Z)
  : M (RiskManager F) unit :=
  modifyM (fun rm =>
    let until := (now + hours h)%Z in
    set_breaker true (Some until) (BreakerActivated reason until) rm).

(** [p.realized_pnl < 0 for p in self.closed_positions[-5:]] *)
Definition consecutive_losses (rm : RiskManager F) : bool :=
  forallb (fun p => realized_pnl p < lit 0) (tail_n 5 (closed_positions rm)).

Definition check_circuit_breaker (now : Z) : M (RiskManager F) bool :=
  let! self := getM in
  let! blocked :=
    if circuit_breaker_active self then
      match circuit_breaker_until self with
      | Some until =>
          if (until <? now)%Z then
            do! modifyM (set_breaker false None BreakerDeactivated) in
            retM false
          else retM true
      | None => retM true
      end
    else retM false in
  if blocked : bool then retM true
  else
    let! self := getM in
    let daily_pnl_pct := get_daily_pnl_pct self in
    if daily_pnl_pct <= - max_daily_loss_pct self then
      do! activate_circuit_breaker now "Daily loss limit reached" 24 in
      retM true
    else
      let current_dd := get_current_drawdown_pct self in
      if current_dd >= max_drawdown_pct self then
        do! activate_circuit_breaker now "Maximum drawdown reached" 48 in
        retM true
      else if (5 <=? length (closed_positions self))%nat
              && consecutive_losses self then
        do! activate_circuit_breaker now "5 consecutive losses" 12 in
        retM true
      else retM false.

Definition can_open_position (now : Z) (symbol : string)
  : M (RiskManager F) (bool * string) :=
  let! breaker := check_circuit_breaker now in
  if breaker : bool then retM (false, "Circuit breaker active")
  else
    let! self := getM in
    if get_daily_pnl_pct self <= - max_daily_loss_pct self then
      retM (false, "Daily loss limit reached")
    else if get_current_drawdown_pct self >= max_drawdown_pct self then
      retM (false, "Maximum drawdown reached")
    else if bool_decide (is_Some (positions self !! symbol)) then
      retM (false, "Position already open for this symbol")
    else
      let max_positions := 5%nat in
      if (max_positions <=? base.size (positions self))%nat then
        retM (false, "Maximum 5 positions already open")
      else retM (true, "OK").
End Breaker.

(** ** [advanced_risk_manager.py]: the stop and target helpers *)

Section Advanced.
Context {F : Type} {N : PyNum F}.
Local Open Scope py_scope.

Definition calculate_dynamic_stop_loss (entry_price atr atr_multiplier
    min_stop_percent max_stop_percent : F) : Res F :=
  let atr_stop_distance := atr * atr_multiplier in
  let? atr_stop_percent := py_div atr_stop_distance entry_price in
  let stop_percent :=
    py_max min_stop_percent (py_min max_stop_percent atr_stop_percent) in
  Ok (entry_price * (lit 1 - stop_percent)).

Definition calculate_dynamic_take_profit (entry_price atr
    risk_reward_ratio : F) (volatility_adjusted : bool) : Res (list F) :=
  let stop_distance := atr * lit 2.0 in
  let? multipliers :=
    if volatility_adjusted then
      let? atr_percent := py_div atr entry_price in
      Ok (if atr_percent > lit 0.03 then [lit 1.5; lit 2.5; lit 4.0]
          else [lit 2.0; lit 3.0; lit 5.0])
    else
      Ok [risk_reward_ratio; risk_reward_ratio * lit 1.5;
          risk_reward_ratio * lit 2] in
  Ok (map (fun mult => entry_price + stop_distance * mult) multipliers).
End Advanced.

(** ** Instances of the library interfaces

    The theorems that involve library functions hold for every instance; the
    instances below give the functions their documented meaning, so that the
    embedding can be run.  In binary64 the library may sum in another order
    and differ in the last bits. *)

Section NaiveLibrary.
Context {F : Type} {N : PyNum F}.
Local Open Scope py_scope.

Definition mean (xs : list F) : F := py_sum xs / of_nat (length xs).

(** The sum of the squared deviations from the mean. *)
Definition squared_deviations (xs : list F) : F :=
  let m := mean xs in
  py_sum (map (fun x => (x - m) * (x - m)) xs).
End NaiveLibrary.

(** The square root of [n/d] as [sqrt (n*d) / d], rounded down to a multiple
    of [1/d]; exact on squares. *)
Definition Q_pow_half (q : Q) : Q :=
  Z.sqrt (Qnum q * Zpos (Qden q)) # Qden q.

#[export] Instance QMath : PyMath Q := {|
  pow_half := Q_pow_half;
  np_mean := mean
|}.

#[export] Instance FloatMath : PyMath float := {|
  pow_half := PrimFloat.sqrt;
  np_mean := mean
|}.

(** Windows shorter than [n] have no mean: NaN. *)
Definition float_rolling_mean (n : nat) (xs : list float) : list float :=
  map (fun i =>
         if (i + 1 <? n)%nat then PrimFloat.nan
         else mean (firstn n (skipn (i + 1 - n) xs)))
      (seq 0 (length xs)).

Fixpoint float_ratios (previous : float) (xs : list float) : list float :=
  match xs with
  | [] => []
  | x :: rest =>
      PrimFloat.sub (PrimFloat.div x previous) 1 :: float_ratios x rest
  end.

Definition float_pct_change (xs : list float) : list float :=
  match xs with
  | [] => []
  | x :: rest => PrimFloat.nan :: float_ratios x rest
  end.

(** The sample standard deviation of the values that are not NaN; NaN when
    fewer than two are left. *)
Definition float_series_std (xs : list float) : float :=
  let present := List.filter (fun x => negb (PrimFloat.is_nan x)) xs in
  if (length present <=? 1)%nat then PrimFloat.nan
  else
    PrimFloat.sqrt
      (PrimFloat.div (squared_deviations present)
                     (PrimFloat.sub (of_nat (length present)) 1)).

Definition float_np_std (xs : list float) : float :=
  PrimFloat.sqrt
    (PrimFloat.div (squared_deviations xs) (of_nat (length xs))).

#[export] Instance FloatPandas : Pandas float := {|
  rolling_mean := float_rolling_mean;
  pct_change := float_pct_change;
  series_std := float_series_std;
  np_std := float_np_std
|}.

(** ** Notions used in the statements *)

Section Notions.
Context {F : Type} {N : PyNum F}.
Local Open Scope py_scope.

(** [self.current_capital = capital], as the trading loop assigns it when a
    position is closed. *)
Definition set_current_capital (capital : F) (rm : RiskManager F)
  : RiskManager F :=
  {| initial_capital := initial_capital rm;
     current_capital := capital;
     peak_capital := peak_capital rm;
     max_position_size_pct := max_position_size_pct rm;
     max_daily_loss_pct := max_daily_loss_pct rm;
     max_drawdown_pct := max_drawdown_pct rm;
     use_kelly_criterion := use_kelly_criterion rm;
     kelly_fraction := kelly_fraction rm;
     enable_trailing_stop := enable_trailing_stop rm;
     trailing_stop_pct := trailing_stop_pct rm;
     positions := positions rm;
     closed_positions := closed_positions rm;
     daily_start_capital := daily_start_capital rm;
     circuit_breaker_active := circuit_breaker_active rm;
     circuit_breaker_until := circuit_breaker_until rm;
     log := log rm |}.

(** The breaker is active and not expired at [now]: the guard under which
    [check_circuit_breaker] returns [True] at once. *)
Definition breaker_holds (now : Z) (rm : RiskManager F) : bool :=
  circuit_breaker_active rm &&
  match circuit_breaker_until rm with
  | Some until => negb (until <? now)%Z
  | None => true
  end.

(** One price update of the position loop of [main_enhanced.py]:
    [position.update_pnl(price)], then [update_trailing_stop].  The loop
    catches an exception and goes on from the state reached. *)
Definition tick (symbol : string) (price : F) (rm : RiskManager F)
  : RiskManager F :=
  match positions rm !! symbol with
  | Some p =>
      snd (update_trailing_stop symbol price
             (set_positions (<[symbol := update_pnl price p]> (positions rm))
                            rm))
  | None => rm
  end.

(** The position of [symbol] after each price update. *)
Fixpoint position_trace (symbol : string) (prices : list F)
    (rm : RiskManager F) : list (Position F) :=
  match prices with
  | [] => []
  | price :: rest =>
      let rm' := tick symbol price rm in
      match positions rm' !! symbol with
      | Some p => p :: position_trace symbol rest rm'
      | None => []
      end
  end.

(** What one call of [update_trailing_stop] may do to a position: the stop
    is kept, or moved strictly in the favourable direction. *)
Definition trailing_step (p p' : Position F) : Prop :=
  side p' = side p /\
  (trailing_stop_active p = true -> trailing_stop_active p' = true) /\
  (trailing_stop_active p' = false -> stop_loss p' = stop_loss p) /\
  (stop_loss p' = stop_loss p \/
   if String.eqb (side p) "long"
   then (stop_loss p' > stop_loss p) = true
   else (stop_loss p' < stop_loss p) = true).
End Notions.

(** [R] relates [x] to the first element of [l], and each element to the
    next. *)
Fixpoint chain {A} (R : A -> A -> Prop) (x : A) (l : list A) : Prop :=
  match l with
  | [] => True
  | y :: rest => R x y /\ chain R y rest
  end.

(** ** [adaptive_strategy.py]: the regime statistics *)

Section MoreDicts.
Context {V : Type}.

(** [d[k] = v]: the value of a key already present is replaced in place, a
    new key goes to the end. *)
Fixpoint dict_set (k : string) (v : V) (d : dict V) : dict V :=
  match d with
  | [] => [(k, v)]
  | (k', v') :: rest =>
      if String.eqb k k' then (k', v) :: rest
      else (k', v') :: dict_set k v rest
  end.
End MoreDicts.

(** The dictionary that [get_regime_statistics] returns for a history that is
    not empty. *)
Record RegimeStatistics (F : Type) := {
  volatility_distribution : dict F;
  trend_distribution : dict F;
  volume_distribution : dict F;
  sample_size : nat
}.
Arguments volatility_distribution {F} _.
Arguments trend_distribution {F} _.
Arguments volume_distribution {F} _.
Arguments sample_size {F} _.

Section Statistics.
Context {F : Type} {N : PyNum F}.
Local Open Scope py_scope.

(** [counts[label] = counts.get(label, 0) + 1], over the labels in turn. *)
Definition count_labels (labels : list string) : dict nat :=
  fold_left
    (fun counts label =>
       dict_set label (default 0%nat (dict_get label counts) + 1)%nat counts)
    labels [].

(** [{k: v/total for k, v in counts.items()}]: the quotient of two
    integers. *)
Definition distribution (total : nat) (counts : dict nat) : dict F :=
  map (fun kv : string * nat => (fst kv, of_nat (snd kv) / of_nat total))
      counts.

(** [None] is the empty dictionary returned for an empty history. *)
Definition get_regime_statistics (e : Engine F)
  : option (RegimeStatistics F) :=
  match regime_history e with
  | [] => None
  | _ =>
      let volatility_counts := count_labels (map volatility (regime_history e)) in
      let trend_counts := count_labels (map trend (regime_history e)) in
      let volume_counts := count_labels (map volume (regime_history e)) in
      let total := length (regime_history e) in
      Some {| volatility_distribution := distribution total volatility_counts;
              trend_distribution := distribution total trend_counts;
              volume_distribution := distribution total volume_counts;
              sample_size := total |}
  end.
End Statistics.

(** ** [main_enhanced.py]: closing and updating positions

    [execute_buy] stores one [Position] object under the same key in
    [self.positions] and in [self.risk_mgr.positions], and [execute_sell]
    deletes both entries; nothing else assigns either dictionary.  The two
    dictionaries are one map here, the [positions] of the risk manager.  The
    Telegram notifications, which change nothing of the state, are left
    out. *)

Section Bot.
Context {F : Type} {N : PyNum F}.
Local Open Scope py_scope.

Definition set_realized_pnl (pnl : F) (p : Position F) : Position F :=
  {| symbol := symbol p; side := side p; entry_price := entry_price p;
     size := size p; stop_loss := stop_loss p;
     take_profit := take_profit p; entry_time := entry_time p;
     unrealized_pnl := unrealized_pnl p; realized_pnl := pnl;
     trailing_stop_active := trailing_stop_active p;
     highest_price := highest_price p; lowest_price := lowest_price p |}.

(** The paper-trading branch of [execute_sell]: the capital takes the
    realized P&L, the position goes to [closed_positions], the peak follows
    the capital, and the position is deleted. *)
Definition book_sale (symbol : string) (position : Position F)
    (rm : RiskManager F) : RiskManager F :=
  let position := set_realized_pnl (unrealized_pnl position) position in
  let capital := current_capital rm + realized_pnl position in
  {| initial_capital := initial_capital rm;
     current_capital := capital;
     peak_capital :=
       if capital > peak_capital rm then capital else peak_capital rm;
     max_position_size_pct := max_position_size_pct rm;
     max_daily_loss_pct := max_daily_loss_pct rm;
     max_drawdown_pct := max_drawdown_pct rm;
     use_kelly_criterion := use_kelly_criterion rm;
     kelly_fraction := kelly_fraction rm;
     enable_trailing_stop := enable_trailing_stop rm;
     trailing_stop_pct := trailing_stop_pct rm;
     positions := delete symbol (positions rm);
     closed_positions := (closed_positions rm ++ [position])%list;
     daily_start_capital := daily_start_capital rm;
     circuit_breaker_active := circuit_breaker_active rm;
     circuit_breaker_until := circuit_breaker_until rm;
     log := log rm |}.

(** [execute_sell]; [mode] is [self.config.trading.mode]. *)
Definition execute_sell (mode : string) (symbol : string) (current_price : F)
  : M (RiskManager F) unit :=
  try_except
    (let! self := getM in
     match positions self !! symbol with
     | None => retM tt
     | Some position =>
         let position := update_pnl current_price position in
         do! store_position symbol position in
         let! pnl_pct := liftM (get_pnl_pct position) in
         if String.eqb mode "paper" then modifyM (book_sale symbol position)
         else retM tt
     end)
    (fun _ => retM tt).

(** [update_position] *)
Definition update_position (mode : string) (symbol : string)
    (current_price : F) : M (RiskManager F) unit :=
  try_except
    (let! self := getM in
     match positions self !! symbol with
     | None => retM tt
     | Some position =>
         let position := update_pnl current_price position in
         do! store_position symbol position in
         if String.eqb (side position) "long"
            && (current_price <= stop_loss position) then
           execute_sell mode symbol current_price
         else if String.eqb (side position) "long"
                 && existsb (fun tp => current_price >= tp)
                            (take_profit position) then
           execute_sell mode symbol current_price
         else
           do! update_trailing_stop symbol current_price in
           retM tt
     end)
    (fun _ => retM tt).
End Bot.

(** ** [advanced_risk_manager.py]: sizing, limits and the circuit breaker *)

Module AdvancedRisk.

(** The attributes of an [AdvancedRiskManager] that the methods below read or
    assign (the portfolio limits, read by [check_portfolio_heat] and
    [check_correlation_risk] only, and the weekly and monthly figures, which
    are only initialised, are left out). *)
Record Manager (F : Type) := {
  max_daily_loss_percent : F;
  circuit_breaker_loss : F;
  circuit_breaker_active : bool;
  starting_balance_today : F;
  kelly_fraction : F;
  trade_history : list (dict F)
}.
Arguments max_daily_loss_percent {F} _.
Arguments circuit_breaker_loss {F} _.
Arguments circuit_breaker_active {F} _.
Arguments starting_balance_today {F} _.
Arguments kelly_fraction {F} _.
Arguments trade_history {F} _.

Section Methods.
Context {F : Type} {N : PyNum F}.
Local Open Scope py_scope.

(** [AdvancedRiskManager()] with an empty configuration. *)
Definition new_manager : Manager F :=
  {| max_daily_loss_percent := lit 0.02;
     circuit_breaker_loss := lit 0.05;
     circuit_breaker_active := false;
     starting_balance_today := lit 0.0;
     kelly_fraction := lit 0.25;
     trade_history := [] |}.

Definition set_circuit_breaker_active (b : bool) (rm : Manager F)
  : Manager F :=
  {| max_daily_loss_percent := max_daily_loss_percent rm;
     circuit_breaker_loss := circuit_breaker_loss rm;
     circuit_breaker_active := b;
     starting_balance_today := starting_balance_today rm;
     kelly_fraction := kelly_fraction rm;
     trade_history := trade_history rm |}.

Definition set_starting_balance_today (balance : F) (rm : Manager F)
  : Manager F :=
  {| max_daily_loss_percent := max_daily_loss_percent rm;
     circuit_breaker_loss := circuit_breaker_loss rm;
     circuit_breaker_active := circuit_breaker_active rm;
     starting_balance_today := balance;
     kelly_fraction := kelly_fraction rm;
     trade_history := trade_history rm |}.

Definition set_trade_history (history : list (dict F)) (rm : Manager F)
  : Manager F :=
  {| max_daily_loss_percent := max_daily_loss_percent rm;
     circuit_breaker_loss := circuit_breaker_loss rm;
     circuit_breaker_active := circuit_breaker_active rm;
     starting_balance_today := starting_balance_today rm;
     kelly_fraction := kelly_fraction rm;
     trade_history := history |}.

(** The arguments are Python floats. *)
Definition calculate_kelly_position_size (rm : Manager F)
    (win_rate avg_win avg_loss balance : F) : Res F :=
  if (avg_loss == lit 0) || (win_rate <= lit 0) || (win_rate >= lit 1) then
    Ok (balance * lit 0.02)
  else
    let? ratio := py_div avg_win avg_loss in
    let win_loss_ratio := pabs ratio in
    let? loss_share := py_div (lit 1 - win_rate) win_loss_ratio in
    let kelly_percent := win_rate - loss_share in
    let fractional_kelly := kelly_percent * kelly_fraction rm in
    let fractional_kelly :=
      py_max (lit 0.01) (py_min (lit 0.20) fractional_kelly) in
    Ok (balance * fractional_kelly).

Definition calculate_volatility_adjusted_size (atr price balance
    risk_per_trade : F) : Res F :=
  if (atr == lit 0) || (price == lit 0) then Ok (lit 0)
  else
    let risk_amount := balance * risk_per_trade in
    let? atr_percent := py_div atr price in
    let? position_value := py_div risk_amount atr_percent in
    py_div position_value price.

Definition calculate_confidence_adjusted_size (base_size confidence
    min_confidence : F) : Res F :=
  if confidence < min_confidence then Ok (lit 0)
  else
    let? share :=
      py_div (confidence - min_confidence) (lit 1 - min_confidence) in
    let confidence_multiplier := share * lit 1.5 in
    let confidence_multiplier :=
      py_max (lit 0.5) (py_min (lit 1.5) confidence_multiplier) in
    Ok (base_size * confidence_multiplier).

Definition activate_circuit_breaker : M (Manager F) unit :=
  modifyM (set_circuit_breaker_active true).

Definition check_daily_loss_limit (current_balance : F)
  : M (Manager F) bool :=
  let! self := getM in
  do! (if starting_balance_today self == lit 0
       then modifyM (set_starting_balance_today current_balance)
       else retM tt) in
  let! self := getM in
  let! daily_loss :=
    liftM (py_div (starting_balance_today self - current_balance)
                  (starting_balance_today self)) in
  if daily_loss >= max_daily_loss_percent self then
    do! activate_circuit_breaker in
    retM false
  else retM true.

Definition check_circuit_breaker (current_balance starting_balance : F)
  : M (Manager F) bool :=
  let! self := getM in
  if circuit_breaker_active self then retM false
  else
    let! intraday_loss :=
      liftM (py_div (starting_balance - current_balance) starting_balance) in
    if intraday_loss >= circuit_breaker_loss self then
      do! activate_circuit_breaker in
      retM false
    else retM true.

Definition reset_circuit_breaker (manual : bool) : M (Manager F) bool :=
  if manual then retM false
  else
    do! modifyM (set_circuit_breaker_active false) in
    retM true.

(** [trade_history.append(trade)], then [pop(0)] above 100 entries. *)
Definition update_trade_statistics (trade : dict F) : M (Manager F) unit :=
  modifyM (fun rm =>
    let history := (trade_history rm ++ [trade])%list in
    set_trade_history
      (if (100 <? length history)%nat then tl history else history) rm).
End Methods.

(** A call of one of the methods that assign attributes; [Reset] is
    [reset_circuit_breaker()] with its default argument. *)
Inductive call (F : Type) : Type :=
  | CheckDailyLossLimit (current_balance : F)
  | CheckCircuitBreaker (current_balance starting_balance : F)
  | Reset
  | UpdateTradeStatistics (trade : dict F).
Arguments CheckDailyLossLimit {F}.
Arguments CheckCircuitBreaker {F}.
Arguments Reset {F}.
Arguments UpdateTradeStatistics {F}.

Section Calls.
Context {F : Type} {N : PyNum F}.

(** The state after a call; an exception leaves the state reached. *)
Definition step (c : call F) (rm : Manager F) : Manager F :=
  match c with
  | CheckDailyLossLimit balance => snd (check_daily_loss_limit balance rm)
  | CheckCircuitBreaker current starting =>
      snd (check_circuit_breaker current starting rm)
  | Reset => snd (reset_circuit_breaker true rm)
  | UpdateTradeStatistics trade => snd (update_trade_statistics trade rm)
  end.

Definition run (calls : list (call F)) (rm : Manager F) : Manager F :=
  fold_left (fun rm c => step c rm) calls rm.
End Calls.

End AdvancedRisk.

(** ** Further notions used in the statements *)

Section BookDef.
Context {F : Type}.

(** Everything a manager holds except the circuit breaker and the log. *)
Definition book (rm : RiskManager F) :=
  (initial_capital rm, current_capital rm, peak_capital rm,
   daily_start_capital rm,
   (max_position_size_pct rm, max_daily_loss_pct rm, max_drawdown_pct rm),
   (use_kelly_criterion rm, kelly_fraction rm, enable_trailing_stop rm,
    trailing_stop_pct rm),
   positions rm, closed_positions rm).
End BookDef.

Section Triggers.
Context {F : Type} {N : PyNum F}.
Local Open Scope py_scope.

(** The three conditions that [check_circuit_breaker] tests on a manager
    whose breaker does not hold. *)
Definition daily_loss_hit (rm : RiskManager F) : bool :=
  get_daily_pnl_pct rm <= - max_daily_loss_pct rm.

Definition drawdown_hit (rm : RiskManager F) : bool :=
  get_current_drawdown_pct rm >= max_drawdown_pct rm.

Definition losing_streak (rm : RiskManager F) : bool :=
  (5 <=? length (closed_positions rm))%nat && consecutive_losses rm.
End Triggers.

(** The sum of the counts of a dictionary. *)
Definition total_count (counts : dict nat) : nat :=
  fold_right Nat.add 0%nat (dict_values counts).

Section ExactNotions.
Local Open Scope Q_scope.

(** [d] maps each label of [labels], once, to a positive share, and the
    shares add up to 1. *)
Definition distribution_of (labels : list string) (d : dict Q) : Prop :=
  py_sum (dict_values d) == 1 /\
  Forall (fun share => 0 < share <= 1) (dict_values d) /\
  List.NoDup (map fst d) /\
  (forall k, In k (map fst d) <-> In k labels).

(** The P&L of a position at a price, as [Position.update_pnl] computes
    it. *)
Definition pnl_at (price : Q) (p : Position Q) : Q :=
  if String.eqb (side p) "long" then (price - entry_price p) * size p
  else (entry_price p - price) * size p.
End ExactNotions.

(** ** Example data *)

Definition atr_frame {F} `{PyNum F} : DataFrame F := {[ "atr" := [lit 1500] ]}.

(** A regime of every kind that fires a rule. *)
Definition busy_regime {F} `{PyNum F} : MarketRegime F :=
  {| volatility := "high"; trend := "bullish"; volume := "high";
     confidence := lit 1.0 |}.

(** [EnhancedRiskManager(initial_capital=10000)], with the defaults. *)
Definition default_manager {F} `{PyNum F} : RiskManager F :=
  new_risk_manager (lit 10000) (lit 10.0) (lit 5.0) (lit 20.0) true
                   (lit 0.25) true (lit 1.0).

(** The default manager after a day that lost exactly 5% of the capital. *)
Definition losing_manager {F} `{PyNum F} : RiskManager F :=
  set_current_capital (lit 9500) default_manager.

(** A long position bought at 100 that has seen 103: 3% of profit, with the
    trailing stop not yet active. *)
Definition winning_long {F} `{PyNum F} : Position F :=
  {| symbol := "BTC/USDT"; side := "long"; entry_price := lit 100;
     size := lit 1; stop_loss := lit 95; take_profit := [lit 110];
     entry_time := 0; unrealized_pnl := lit 3; realized_pnl := lit 0;
     trailing_stop_active := false; highest_price := lit 103;
     lowest_price := lit 100 |}.

Definition holding_manager {F} `{PyNum F} : RiskManager F :=
  set_positions {[ "BTC/USDT" := winning_long ]} default_manager.

(** One bar with a close and an oversold RSI, and nothing else. *)
Definition sparse_frame {F} `{PyNum F} : DataFrame F :=
  <["close" := [lit 100]]> {[ "rsi" := [lit 25] ]}.

(** MACD columns with a single row: [iloc[-2]] raises [IndexError]. *)
Definition short_frame {F} `{PyNum F} : DataFrame F :=
  <["close" := [lit 100]]>
    (<["macd" := [lit 0.5]]> {[ "macd_signal" := [lit 0.2] ]}).

(** A frame with prices and ATR, as in the module's example usage. *)
Definition priced_frame {F} `{PyNum F} : DataFrame F :=
  <["close" := [lit 100; lit 101; lit 102; lit 103; lit 104]]>
    {[ "atr" := [lit 2; lit 2.1; lit 2.0; lit 1.9; lit 2.1] ]}.

Definition model_prediction {F} `{PyNum F} : option (dict F) :=
  Some [("signal", lit 0.6); ("confidence", lit 0.75)].

(** An engine that has run before: other weights, a regime in its history. *)
Definition used_engine {F} `{PyNum F} : Engine F :=
  set_current_weights [("rsi", lit 1.0)]
    (set_regime_history [busy_regime] (new_engine (lit 30) (lit 70) true true)).

(** A manager configured with a maximum position of 0.5% of the capital. *)
Definition tight_manager {F} `{PyNum F} : RiskManager F :=
  new_risk_manager (lit 10000) (lit 0.5) (lit 5.0) (lit 20.0) true
                   (lit 0.25) true (lit 1.0).

(** The default manager with the circuit breaker tripped until second
    1000. *)
Definition tripped_manager {F} `{PyNum F} : RiskManager F :=
  set_breaker true (Some 1000%Z)
    (BreakerActivated "Daily loss limit reached" 1000%Z) default_manager.

(** A long position closed with a loss of 5. *)
Definition lost_long {F} `{PyNum F} : Position F :=
  {| symbol := "ETH/USDT"; side := "long"; entry_price := lit 100;
     size := lit 1; stop_loss := lit 95; take_profit := [lit 110];
     entry_time := 0; unrealized_pnl := opp (lit 5);
     realized_pnl := opp (lit 5); trailing_stop_active := false;
     highest_price := lit 100; lowest_price := lit 95 |}.

(** The holding manager after four losing closes in a row. *)
Definition streak_manager {F} `{PyNum F} : RiskManager F :=
  {| initial_capital := lit 10000;
     current_capital := lit 9980;
     peak_capital := lit 10000;
     max_position_size_pct := lit 10.0;
     max_daily_loss_pct := lit 5.0;
     max_drawdown_pct := lit 20.0;
     use_kelly_criterion := true;
     kelly_fraction := lit 0.25;
     enable_trailing_stop := true;
     trailing_stop_pct := lit 1.0;
     positions := {[ "BTC/USDT" := winning_long ]};
     closed_positions := [lost_long; lost_long; lost_long; lost_long];
     daily_start_capital := lit 10000;
     circuit_breaker_active := false;
     circuit_breaker_until := None;
     log := [] |}.

(** * Properties *)

(** ** Proof tools *)

(** Case analysis on the conditions of the code. *)
Ltac split_ifs :=
  repeat match goal with
         | |- context [if ?c then _ else _] =>
             let E := fresh "E" in destruct c eqn:E
         | |- context [match ?c with Some _ => _ | None => _ end] =>
             let E := fresh "E" in destruct c eqn:E
         end.

(** The rules read the regime through six string comparisons only. *)
Ltac regime_cases v t vo :=
  unfold regime_rules; cbn [volatility trend volume];
  generalize (String.eqb v "high"), (String.eqb v "low"),
    (String.eqb t "bullish"), (String.eqb t "bearish"),
    (String.eqb t "ranging"), (String.eqb vo "high");
  intros [] [] [] [] [] [].

(** ** Exact arithmetic: the comparisons of the instance [Q] *)

Section Exact.
Local Open Scope Q_scope.

Lemma Q_ltb_iff (x y : Q) : ltb x y = true <-> x < y.
Proof.
  change (ltb x y) with (negb (Qle_bool y x)).
  rewrite negb_true_iff, <- not_true_iff_false, Qle_bool_iff. split; lra.
Qed.

Lemma Q_leb_iff (x y : Q) : leb x y = true <-> x <= y.
Proof. apply Qle_bool_iff. Qed.

Lemma Q_eqb_iff (x y : Q) : eqb x y = true <-> x == y.
Proof. apply Qeq_bool_iff. Qed.

Lemma Q_ltb_false (x y : Q) : ltb x y = false <-> y <= x.
Proof. rewrite <- not_true_iff_false, Q_ltb_iff. split; lra. Qed.

Lemma Q_leb_false (x y : Q) : leb x y = false <-> y < x.
Proof. rewrite <- not_true_iff_false, Q_leb_iff. split; lra. Qed.

Lemma Q_eqb_false (x y : Q) : eqb x y = false <-> ~ x == y.
Proof. rewrite <- not_true_iff_false, Q_eqb_iff. tauto. Qed.

Lemma py_max_Q (a b : Q) : py_max a b == Qmax a b.
Proof.
  unfold py_max. destruct (ltb a b) eqn:E.
  - apply Q_ltb_iff in E. symmetry. apply Q.max_r. lra.
  - apply Q_ltb_false in E. symmetry. apply Q.max_l. lra.
Qed.

Lemma py_min_Q (a b : Q) : py_min a b == Qmin a b.
Proof.
  unfold py_min. destruct (ltb b a) eqn:E.
  - apply Q_ltb_iff in E. symmetry. apply Q.min_r. lra.
  - apply Q_ltb_false in E. symmetry. apply Q.min_l. lra.
Qed.
End Exact.

(** ** Stop and targets (StopTargetPlanner) *)

(** C7, amended.  For entry price 50000, ATR 1500 and the long side,
    [EnhancedRiskManager.calculate_stop_loss] returns 47500 (the distance
    2 x ATR = 3000 is clamped to 5% of the entry, 2500) and
    [EnhancedRiskManager.calculate_take_profit_levels] returns exactly
    [55000; 57500; 62500], the entry plus 2, 3 and 5 times the clamped
    distance.  [AdvancedRiskManager.calculate_dynamic_take_profit] does not
    use the clamped distance: with its volatility adjustment, for the same
    entry and ATR and whatever the risk-reward ratio, it returns exactly
    [56000; 59000; 65000], the entry plus 2, 3 and 5 times the unclamped
    2 x ATR = 3000.  In exact arithmetic and in binary64 alike. *)
Theorem C7_stop_and_targets_scenario :
  (forall (df : DataFrame Q) (atr_col : list Q),
      df !! "atr" = Some atr_col ->
      iloc_last atr_col = Ok 1500%Q ->
      let stop_loss := calculate_stop_loss 50000%Q df "long" in
      stop_loss == 47500 /\
      Forall2 Qeq (calculate_take_profit_levels 50000%Q stop_loss "long" 3)
                  [55000%Q; 57500%Q; 62500%Q]) /\
  (forall (df : DataFrame float) (atr_col : list float),
      df !! "atr" = Some atr_col ->
      iloc_last atr_col = Ok 1500%float ->
      let stop_loss := calculate_stop_loss 50000%float df "long" in
      stop_loss = 47500%float /\
      calculate_take_profit_levels 50000%float stop_loss "long" 3
      = [55000%float; 57500%float; 62500%float]) /\
  (forall risk_reward_ratio : Q,
      exists targets : list Q,
        calculate_dynamic_take_profit 50000%Q 1500%Q risk_reward_ratio true
        = Ok targets /\
        Forall2 Qeq targets [56000%Q; 59000%Q; 65000%Q]) /\
  (forall risk_reward_ratio : float,
      calculate_dynamic_take_profit 50000%float 1500%float risk_reward_ratio
        true
      = Ok [56000%float; 59000%float; 65000%float]).
Proof.
  split; [|split; [|split]].
  - intros df atr_col Hcol Hlast stop.
    subst stop; unfold calculate_stop_loss, has_col, col;
      rewrite Hcol; cbn [rbind]; rewrite Hlast; cbn [rbind].
    vm_compute. split; [reflexivity | repeat constructor].
  - intros df atr_col Hcol Hlast stop.
    subst stop; unfold calculate_stop_loss, has_col, col;
      rewrite Hcol; cbn [rbind]; rewrite Hlast; cbn [rbind].
    vm_compute. split; reflexivity.
  - intros risk_reward_ratio. eexists.
    split; [vm_compute; reflexivity | repeat constructor].
  - intros risk_reward_ratio. vm_compute. reflexivity.
Qed.

Lemma C7_stop_and_targets_scenario_witness :
  calculate_stop_loss 50000%Q atr_frame "long" == 47500 /\
  calculate_stop_loss 50000%float atr_frame "long" = 47500%float.
Proof.
  split.
  - apply (proj1 C7_stop_and_targets_scenario atr_frame [1500%Q]);
      vm_compute; reflexivity.
  - apply (proj1 (proj2 C7_stop_and_targets_scenario) atr_frame
             [1500%float]);
      vm_compute; reflexivity.
Defined.

(** The targets of [AdvancedRiskManager.calculate_dynamic_take_profit] in
    the scenario, with its default arguments, are 56000, 59000 and 65000:
    not the 55000, 57500 and 62500 measured from the clamped distance. *)
Lemma C7_advanced_targets_counterexample :
  calculate_dynamic_take_profit 50000%float 1500%float 2%float true
  = Ok [56000%float; 59000%float; 65000%float] /\
  calculate_dynamic_take_profit 50000%float 1500%float 2%float true
  <> Ok [55000%float; 57500%float; 62500%float] /\
  exists targets : list Q,
    calculate_dynamic_take_profit 50000%Q 1500%Q 2%Q true = Ok targets /\
    Forall2 Qeq targets [56000%Q; 59000%Q; 65000%Q] /\
    ~ Forall2 Qeq targets [55000%Q; 57500%Q; 62500%Q].
Proof.
  split; [vm_compute; reflexivity|]. split.
  - intros H.
    apply (f_equal (fun r : Res (list float) =>
                      match r with
                      | Ok (target :: _) => PrimFloat.ltb 55500 target
                      | _ => false
                      end)) in H.
    vm_compute in H. discriminate H.
  - eexists. split; [vm_compute; reflexivity|].
    split; [repeat constructor|].
    intros H. inversion H as [|? ? ? ? Hhead _]; subst.
    vm_compute in Hhead. discriminate Hhead.
Qed.

(** [AdvancedRiskManager.calculate_dynamic_take_profit] measures its targets
    from the unclamped distance 2 x ATR: in the same scenario it returns
    56000, 59000 and 65000 (ATR / entry is exactly 0.03, which is not above
    the 3% threshold), while [calculate_dynamic_stop_loss] also gives
    47500. *)
Lemma advanced_targets_scenario :
  calculate_dynamic_take_profit 50000%float 1500%float 2%float true
  = Ok [56000%float; 59000%float; 65000%float] /\
  calculate_dynamic_stop_loss 50000%float 1500%float 2%float
    (lit 0.02) (lit 0.05) = Ok 47500%float.
Proof. vm_compute. split; reflexivity. Qed.

(** ** Weights (WeightAdapter) *)

Lemma adjust_weights_run {F} `{PyNum F} (regime : MarketRegime F)
    (e : Engine F) :
  adjust_weights_for_regime regime e =
  match regime_rules regime (base_weights e) with
  | Ok rules =>
      match normalize (py_sum (dict_values rules)) rules with
      | Ok normalized => (Ok tt, set_current_weights normalized e)
      | Raise ex => (Raise ex, e)
      end
  | Raise ex => (Raise ex, e)
  end.
Proof.
  unfold adjust_weights_for_regime, bindM, getM, liftM, modifyM.
  destruct (regime_rules regime (base_weights e)) as [rules|ex];
    [|reflexivity].
  destruct (normalize _ rules); reflexivity.
Qed.

(** C3.  For every regime (whatever the three category strings are) and an
    engine whose [base_weights] are those of [__init__],
    [adjust_weights_for_regime] succeeds; the new [current_weights] are the
    base weights after all the regime rules, divided once by their sum; every
    weight is non-negative and the weights sum to 1: exactly in exact
    arithmetic, and within 1e-9 in binary64. *)
Theorem C3_weights_normalized :
  (forall (regime : MarketRegime Q) (e : Engine Q) (ml : bool),
      base_weights e = initial_weights ml ->
      exists rules e',
        adjust_weights_for_regime regime e = (Ok tt, e') /\
        regime_rules regime (base_weights e) = Ok rules /\
        normalize (py_sum (dict_values rules)) rules
        = Ok (current_weights e') /\
        Forall (fun w => (0 <= w)%Q) (dict_values (current_weights e')) /\
        (py_sum (dict_values (current_weights e')) == 1)%Q) /\
  (forall (regime : MarketRegime float) (e : Engine float) (ml : bool),
      base_weights e = initial_weights ml ->
      exists rules e',
        adjust_weights_for_regime regime e = (Ok tt, e') /\
        regime_rules regime (base_weights e) = Ok rules /\
        normalize (py_sum (dict_values rules)) rules
        = Ok (current_weights e') /\
        forallb (fun w => lit 0 <= w)%py (dict_values (current_weights e'))
        = true /\
        (pabs (py_sum (dict_values (current_weights e')) - lit 1)
         <= lit (1 # 1000000000))%py = true).
Proof.
  split; intros [v t vo c] e ml Hbase; rewrite adjust_weights_run, Hbase.
  - regime_cases v t vo; destruct ml;
      (eexists; eexists; split; [vm_compute; reflexivity|];
       split; [vm_compute; reflexivity|];
       split; [vm_compute; reflexivity|];
       split; [vm_compute; repeat constructor; discriminate
              | vm_compute; reflexivity]).
  - regime_cases v t vo; destruct ml;
      (eexists; eexists; split; [vm_compute; reflexivity|];
       split; [vm_compute; reflexivity|];
       split; [vm_compute; reflexivity|];
       split; vm_compute; reflexivity).
Qed.

Lemma C3_weights_normalized_witness :
  exists e' : Engine Q,
    adjust_weights_for_regime busy_regime
      (new_engine 30%Q 70%Q true true) = (Ok tt, e') /\
    (py_sum (dict_values (current_weights e')) == 1)%Q.
Proof.
  destruct (proj1 C3_weights_normalized busy_regime
              (new_engine 30%Q 70%Q true true) true eq_refl)
    as (rules & e' & Hrun & _ & _ & _ & Hsum).
  exists e'. split; assumption.
Defined.

(** ** Kelly sizing *)

(** With a win rate of 1 and non-zero averages the Kelly formula is
    evaluated: with the defaults it gives 25%, clamped to the maximum 10%,
    which is not the half-maximum 5%. *)
Lemma C8_kelly_win_rate_one_counterexample :
  (calculate_kelly_position_size (default_manager (F := Q)) 1 100 50 == 10)%Q
  /\ ~ (calculate_kelly_position_size (default_manager (F := Q)) 1 100 50
        == max_position_size_pct (default_manager (F := Q)) / 2)%Q.
Proof. vm_compute. split; [reflexivity | discriminate]. Qed.

(** C8, amended.  [calculate_kelly_position_size] returns exactly half the
    configured maximum when [avg_loss == 0] or [win_rate == 0], and also
    whenever its formula divides by zero (the error is caught, none escapes);
    for [win_rate = 1] with non-zero averages it returns the Kelly
    percentage, 100 x kelly_fraction clamped to [1, max_position_size_pct]. *)
Theorem C8_kelly_degenerate_inputs :
  (forall (F : Type) (N : PyNum F) (rm : RiskManager F)
          (win_rate avg_win avg_loss : F),
      ((avg_loss == lit 0) || (win_rate == lit 0))%py = true ->
      calculate_kelly_position_size rm win_rate avg_win avg_loss
      = (max_position_size_pct rm / lit 2)%py) /\
  (forall (F : Type) (N : PyNum F) (rm : RiskManager F)
          (win_rate avg_win avg_loss : F) (e : exn),
      kelly_formula rm win_rate avg_win avg_loss = Raise e ->
      calculate_kelly_position_size rm win_rate avg_win avg_loss
      = (max_position_size_pct rm / lit 2)%py) /\
  (forall (rm : RiskManager Q) (win_rate avg_win avg_loss : Q),
      (win_rate == 1)%Q -> ~ (avg_win == 0)%Q -> ~ (avg_loss == 0)%Q ->
      (calculate_kelly_position_size rm win_rate avg_win avg_loss
       == Qmax 1 (Qmin (kelly_fraction rm * 100)
                       (max_position_size_pct rm)))%Q).
Proof.
  split; [|split].
  - intros F N rm w a l Hguard.
    unfold calculate_kelly_position_size, kelly_formula.
    rewrite Hguard. reflexivity.
  - intros F N rm w a l e Hraise.
    unfold calculate_kelly_position_size. rewrite Hraise. reflexivity.
  - intros rm win_rate avg_win avg_loss Hw Ha Hl.
    unfold calculate_kelly_position_size, kelly_formula, py_div.
    assert (E1 : eqb avg_loss (lit 0) = false)
      by (apply Q_eqb_false; exact Hl).
    assert (E2 : eqb win_rate (lit 0) = false)
      by (apply Q_eqb_false; cbn; lra).
    rewrite E1, E2. cbn [orb rbind].
    assert (E3 : eqb (div avg_win avg_loss) (lit 0) = false).
    { apply Q_eqb_false. cbn. intro H. apply Ha.
      rewrite <- (Qmult_div_r avg_win avg_loss Hl). rewrite H. ring. }
    rewrite E3. cbn [rbind].
    rewrite py_max_Q, py_min_Q. cbn [lit QNum mul sub div].
    assert (K : ((avg_win / avg_loss * win_rate - (1 - win_rate))
                 / (avg_win / avg_loss) == 1)%Q).
    { rewrite Hw. field. split; assumption. }
    rewrite K. apply Q.max_compat; [reflexivity|].
    apply Q.min_compat; [|reflexivity]. ring.
Qed.

Lemma C8_kelly_degenerate_inputs_witness :
  (calculate_kelly_position_size (default_manager (F := Q)) (3 # 5) 100 0
   = max_position_size_pct (default_manager (F := Q)) / 2)%Q /\
  (calculate_kelly_position_size (default_manager (F := Q)) (1 # 2) 0 50
   = max_position_size_pct (default_manager (F := Q)) / 2)%Q /\
  (calculate_kelly_position_size (default_manager (F := Q)) 1 100 50
   == Qmax 1 (Qmin (kelly_fraction (default_manager (F := Q)) * 100)
                   (max_position_size_pct (default_manager (F := Q)))))%Q.
Proof.
  destruct C8_kelly_degenerate_inputs as (Hguard & Hraise & Hone).
  split; [|split].
  - apply (Hguard Q QNum default_manager (3 # 5) 100 0)%Q. reflexivity.
  - apply (Hraise Q QNum default_manager (1 # 2) 0 50 ZeroDivisionError)%Q.
    reflexivity.
  - apply (Hone default_manager 1 100 50)%Q.
    + reflexivity.
    + discriminate.
    + discriminate.
Defined.

Lemma filter_full_length {A} (f : A -> bool) (l : list A) :
  length (List.filter f l) = length l -> forall x, In x l -> f x = true.
Proof.
  induction l as [|a l IH]; cbn; [tauto|].
  destruct (f a) eqn:E; cbn.
  - intros H x [<-|Hx]; [exact E|]. apply IH; [lia|exact Hx].
  - intros H. pose proof (List.filter_length_le f l) as Hle. lia.
Qed.

Lemma filter_none {A} (f : A -> bool) (l : list A) :
  (forall x, In x l -> f x = false) -> List.filter f l = [].
Proof.
  induction l as [|a l IH]; cbn; [reflexivity|].
  intros H. rewrite (H a (or_introl eq_refl)). apply IH.
  intros x Hx. apply H. right. exact Hx.
Qed.

Lemma ratio_one (n m : nat) :
  (0 < m)%nat ->
  (inject_Z (Z.of_nat n) / inject_Z (Z.of_nat m) == 1)%Q -> n = m.
Proof.
  intros Hm H.
  assert (Hm' : ~ (inject_Z (Z.of_nat m) == 0)%Q).
  { unfold Qeq. cbn. lia. }
  assert (E : (inject_Z (Z.of_nat n) == inject_Z (Z.of_nat m))%Q).
  { rewrite <- (Qmult_div_r (inject_Z (Z.of_nat n)) _ Hm'), H. ring. }
  unfold Qeq in E. cbn in E. lia.
Qed.

(** The statistics of a trade history give a win rate of 1 only when no
    trade lost, and then the average loss is 0: sizing from the history, as
    [calculate_dynamic_position_size] does, falls back to half the maximum
    at a win rate of 1. *)
Lemma kelly_from_statistics_all_wins (L : PyMath Q) (rm : RiskManager Q) :
  (fst (fst (calculate_win_statistics rm)) == 1)%Q ->
  calculate_kelly_position_size rm
    (fst (fst (calculate_win_statistics rm)))
    (snd (fst (calculate_win_statistics rm)))
    (snd (calculate_win_statistics rm))
  = (max_position_size_pct rm / 2)%Q.
Proof.
  unfold calculate_win_statistics.
  destruct (closed_positions rm) as [|p0 rest] eqn:Eclosed.
  - cbn. discriminate.
  - set (closed := p0 :: rest). cbn [fst snd]. intros Hrate.
    unfold of_nat in Hrate. cbn [lit QNum div] in Hrate.
    rewrite length_map in Hrate.
    apply ratio_one in Hrate; [|cbn; lia].
    pose proof (filter_full_length _ _ Hrate) as Hwins.
    assert (Hlosses :
              List.filter (fun p => ltb (realized_pnl p) (lit 0)) closed = []).
    { apply filter_none. intros p Hp. specialize (Hwins p Hp).
      cbn beta in Hwins. apply Q_ltb_iff in Hwins. apply Q_ltb_false.
      cbn [lit QNum] in *. lra. }
    rewrite Hlosses. cbn [map].
    unfold calculate_kelly_position_size, kelly_formula.
    change (eqb (lit 0.0) (lit 0)) with true. reflexivity.
Qed.

(** ** Position sizing (PositionSizer) *)

Section SizingExact.
Local Open Scope Q_scope.

(** [max(lo, min(x, hi))] lies between [lo] and [hi] when [lo <= hi]. *)
Lemma clamp_bounds (lo hi x : Q) :
  lo <= hi -> lo <= py_max lo (py_min x hi) /\ py_max lo (py_min x hi) <= hi.
Proof.
  intros Hle. unfold py_max, py_min.
  destruct (ltb hi x) eqn:E1.
  - destruct (ltb lo hi) eqn:E2; split; lra.
  - apply Q_ltb_false in E1.
    destruct (ltb lo x) eqn:E2.
    + apply Q_ltb_iff in E2. split; lra.
    + split; lra.
Qed.

Lemma size_limits (capital pct price : Q) :
  0 < price -> 0 <= capital -> 1 <= pct ->
  0 <= capital * 0.01 / price /\
  capital * 0.01 / price <= capital * pct / 100 / price /\
  capital * pct / 100 / price * price == pct / 100 * capital /\
  capital * (pct / 100) / price == capital * pct / 100 / price.
Proof.
  intros Hp Hc Hm.
  assert (Hinv : 0 <= / price)
    by (apply Qlt_le_weak, Qinv_lt_0_compat; exact Hp).
  assert (Hprod : 0 <= capital * (pct - 1))
    by (apply Qmult_le_0_compat; lra).
  unfold Qdiv. repeat split.
  - apply Qmult_le_0_compat; [clear - Hc; lra | exact Hinv].
  - apply Qmult_le_compat_r; [|exact Hinv].
    assert (E : capital * pct * / 100
                == capital * 0.01 + capital * (pct - 1) * 0.01) by field.
    rewrite E. clear - Hprod. lra.
  - field. lra.
  - field. lra.
Qed.
End SizingExact.

(** C2, amended.  In exact arithmetic, for a frame whose last close is a
    positive price, a non-negative capital and a configured maximum of at
    least 1% (the range the configuration accepts; the constructor checks
    nothing), for every signal strength in [0,100] and confidence in [0,1]:
    [calculate_dynamic_position_size] returns a size that is non-negative,
    whose value at the current price is at most max_position_size_pct
    percent of the capital, and that is at least 1% of the capital divided
    by the price. *)
Theorem C2_position_size_bounds :
  forall (L : PyMath Q) (rm : RiskManager Q) (df : DataFrame Q)
         (close : list Q) (price strength conf : Q),
    df !! "close" = Some close ->
    iloc_last close = Ok price ->
    (0 < price)%Q ->
    (0 <= current_capital rm)%Q ->
    (1 <= max_position_size_pct rm)%Q ->
    (0 <= strength <= 100)%Q ->
    (0 <= conf <= 1)%Q ->
    exists size : Q,
      calculate_dynamic_position_size rm df (PyFloat strength) (PyFloat conf)
      = Ok size /\
      (0 <= size)%Q /\
      (size * price
       <= max_position_size_pct rm / 100 * current_capital rm)%Q /\
      (current_capital rm * 0.01 / price <= size)%Q.
Proof.
  intros L rm df close price strength conf Hclose Hlast Hprice Hcap Hpct _ _.
  destruct (size_limits (current_capital rm) (max_position_size_pct rm) price
              Hprice Hcap Hpct) as (Hlo & Hlohi & Hhi & Hfixed).
  assert (Hbound : forall size : Q,
             (current_capital rm * 0.01 / price <= size)%Q ->
             (size <= current_capital rm * max_position_size_pct rm / 100
                    / price)%Q ->
             (0 <= size)%Q /\
             (size * price
              <= max_position_size_pct rm / 100 * current_capital rm)%Q /\
             (current_capital rm * 0.01 / price <= size)%Q).
  { intros size H1 H2. split; [lra|]. split; [|exact H1].
    rewrite <- Hhi. apply Qmult_le_compat_r; lra. }
  unfold calculate_dynamic_position_size, dynamic_size, col.
  rewrite Hclose. cbn [rbind]. rewrite Hlast. cbn [rbind as_float].
  match goal with
  | |- context [rbind ?k _] => destruct k as [kelly_multiplier|ex]
  end; cbn [rbind rtry].
  - eexists. split; [reflexivity|].
    apply Hbound; apply clamp_bounds; exact Hlohi.
  - eexists. split; [reflexivity|].
    unfold calculate_fixed_position_size. cbn [lit QNum mul div].
    apply Hbound; rewrite Hfixed; lra.
Qed.

Lemma C2_position_size_bounds_witness :
  exists size : Q,
    calculate_dynamic_position_size default_manager priced_frame
      (PyFloat 75%Q) (PyFloat 0.8%Q) = Ok size /\
    (0 <= size)%Q /\
    (size * 104 <= max_position_size_pct (default_manager (F := Q)) / 100
                   * current_capital (default_manager (F := Q)))%Q /\
    (current_capital (default_manager (F := Q)) * 0.01 / 104 <= size)%Q.
Proof.
  apply (C2_position_size_bounds QMath default_manager priced_frame
           [100; 101; 102; 103; 104]%Q 104%Q 75%Q 0.8%Q).
  - reflexivity.
  - reflexivity.
  - reflexivity.
  - discriminate.
  - discriminate.
  - split; discriminate.
  - split; discriminate.
Defined.

(** The bound on the maximum is needed: below 1% the floor of 1% of the
    capital is above the cap and wins (here a value of 100 against a cap of
    50).  The configuration (config_models.py) accepts 1% to 100%. *)
Lemma floor_wins_below_one_percent :
  exists size : Q,
    calculate_dynamic_position_size tight_manager priced_frame
      (PyFloat 50%Q) (PyFloat 0.5%Q) = Ok size /\
    (size * 104 == 100)%Q /\
    (max_position_size_pct (tight_manager (F := Q)) / 100
     * current_capital (tight_manager (F := Q)) == 50)%Q.
Proof.
  eexists. split; [vm_compute; reflexivity|]. split; reflexivity.
Qed.

(** Inputs within the ranges of the unamended statement for which a bound
    fails.  With a maximum of 0.5% the floor of 1% of the capital is above
    the cap: the position is worth 100 against a cap of 50.  In binary64,
    with the default manager: at a close of 15 the size is the cap divided
    by the price, rounded, and its value 1000.0000000000001 (the binary64
    number after 1000) is above the cap of 1000; at a close of 0, a price that can be read, the floor is a
    division by zero and the size is infinite. *)
Lemma C2_position_size_counterexample :
  (exists size : Q,
      calculate_dynamic_position_size tight_manager priced_frame
        (PyFloat 50%Q) (PyFloat 0.5%Q) = Ok size /\
      (size * 104 == 100)%Q /\
      ~ (size * 104
         <= max_position_size_pct (tight_manager (F := Q)) / 100
            * current_capital (tight_manager (F := Q)))%Q) /\
  (exists size : float,
      calculate_dynamic_position_size default_manager
        {[ "close" := [15%float] ]} (PyFloat 75%float) (PyFloat (lit 0.8))
      = Ok size /\
      PrimFloat.mul size 15 = 0x1.f400000000001p+9%float /\
      PrimFloat.leb (PrimFloat.mul size 15)
        (PrimFloat.mul
           (PrimFloat.div
              (max_position_size_pct (default_manager (F := float))) 100)
           (current_capital (default_manager (F := float))))
      = false) /\
  calculate_dynamic_position_size default_manager
    {[ "close" := [0%float] ]} (PyFloat 75%float) (PyFloat (lit 0.8))
  = Ok PrimFloat.infinity.
Proof.
  split; [|split].
  - eexists. split; [vm_compute; reflexivity|].
    split; [reflexivity|]. vm_compute. intros H. apply H. reflexivity.
  - eexists. split; [vm_compute; reflexivity|].
    split; vm_compute; reflexivity.
  - vm_compute. reflexivity.
Qed.

(** ** Circuit breaker and entry gate *)

Section BreakerFacts.
Context {F : Type} {N : PyNum F}.
Local Open Scope py_scope.

(** When the breaker already holds, the check answers [True] and changes
    nothing: the expiry and the logged reason stay those of the earlier
    activation. *)
Lemma check_circuit_breaker_holds now (rm : RiskManager F) :
  breaker_holds now rm = true ->
  check_circuit_breaker now rm = (Ok true, rm).
Proof.
  unfold breaker_holds, check_circuit_breaker, bindM, getM, retM, modifyM.
  destruct (circuit_breaker_active rm); [|discriminate].
  destruct (circuit_breaker_until rm) as [until|]; cbn; [|reflexivity].
  destruct (until <? now)%Z; [discriminate|reflexivity].
Qed.

(** The check never raises, leaves the positions alone, and answers
    [False] only when neither capital limit is reached. *)
Lemma check_circuit_breaker_total now (rm : RiskManager F) :
  exists b rm',
    check_circuit_breaker now rm = (Ok b, rm') /\
    positions rm' = positions rm /\
    (b = false ->
     (get_daily_pnl_pct rm' <= - max_daily_loss_pct rm') = false /\
     (get_current_drawdown_pct rm' >= max_drawdown_pct rm') = false).
Proof.
  unfold check_circuit_breaker, activate_circuit_breaker,
    bindM, getM, retM, modifyM.
  destruct (circuit_breaker_active rm);
    [destruct (circuit_breaker_until rm) as [until|];
     [destruct (until <? now)%Z|]|]; cbn;
    split_ifs; eexists; eexists;
    (split; [reflexivity|]); (split; [reflexivity|]);
    try discriminate; intros _; split; assumption.
Qed.

Lemma can_open_position_refused (s : RiskManager F) (t : Z)
    (symbol : string) :
  breaker_holds t s = true ->
  can_open_position t symbol s
  = (Ok (false, "Circuit breaker active"), s).
Proof.
  intros Hs. unfold can_open_position, bindM.
  rewrite (check_circuit_breaker_holds t s Hs). reflexivity.
Qed.
End BreakerFacts.

(** C1.  When the daily P&L percentage is at or below minus the daily-loss
    limit (equality included) and the breaker is not already holding,
    [check_circuit_breaker] returns [True], sets the breaker active until
    now + 24 hours and logs the reason "Daily loss limit reached"; every
    [can_open_position] request up to that expiry, and more generally every
    request made while a breaker is active and unexpired, returns
    [(False, "Circuit breaker active")]. *)
Theorem C1_daily_loss_breaker :
  forall (F : Type) (N : PyNum F) (now : Z) (rm : RiskManager F),
    breaker_holds now rm = false ->
    (get_daily_pnl_pct rm <= - max_daily_loss_pct rm)%py = true ->
    exists rm',
      check_circuit_breaker now rm = (Ok true, rm') /\
      circuit_breaker_active rm' = true /\
      circuit_breaker_until rm' = Some (now + hours 24)%Z /\
      (exists earlier,
          log rm' = (earlier ++ [BreakerActivated "Daily loss limit reached"
                                   (now + hours 24)%Z])%list) /\
      (forall (t : Z) (symbol : string),
          (t <= now + hours 24)%Z ->
          can_open_position t symbol rm'
          = (Ok (false, "Circuit breaker active"), rm')) /\
      (forall (s : RiskManager F) (t : Z) (symbol : string),
          breaker_holds t s = true ->
          can_open_position t symbol s
          = (Ok (false, "Circuit breaker active"), s)).
Proof.
  intros F N now rm Hclear Hloss.
  unfold breaker_holds in Hclear.
  unfold check_circuit_breaker, activate_circuit_breaker,
    bindM, getM, retM, modifyM.
  destruct (circuit_breaker_active rm) eqn:Eactive;
    [destruct (circuit_breaker_until rm) as [until|] eqn:Euntil;
     [destruct (until <? now)%Z eqn:Eexp; [|discriminate]|discriminate]|];
    cbn;
    change (get_daily_pnl_pct (set_breaker false None BreakerDeactivated rm))
      with (get_daily_pnl_pct rm) || idtac;
    rewrite Hloss;
    (eexists; split; [reflexivity|]; split; [reflexivity|];
     split; [reflexivity|]; split; [eexists; reflexivity|];
     split; [|apply can_open_position_refused]);
    intros t symbol Ht; apply can_open_position_refused;
    unfold breaker_holds; cbn; apply negb_true_iff, Z.ltb_ge; exact Ht.
Qed.

(** A day that lost exactly the limit, 5%: the breaker trips, and an entry
    requested at once is refused. *)
Lemma C1_daily_loss_breaker_witness :
  exists rm' : RiskManager Q,
    check_circuit_breaker 1000 losing_manager = (Ok true, rm') /\
    circuit_breaker_until rm' = Some (1000 + hours 24)%Z /\
    can_open_position 1000 "BTC/USDT" rm'
    = (Ok (false, "Circuit breaker active"), rm').
Proof.
  destruct (C1_daily_loss_breaker Q QNum 1000 losing_manager)
    as (rm' & Hcheck & _ & Huntil & _ & Hrefuse & _).
  - reflexivity.
  - reflexivity.
  - exists rm'. split; [exact Hcheck|]. split; [exact Huntil|].
    apply Hrefuse. unfold hours. lia.
Defined.

(** C10.  When a position is already open for the symbol, or 5 or more
    positions are open, [can_open_position] returns [False] with a reason;
    when the circuit-breaker check passes (which includes the daily-loss and
    drawdown limits) the reason is the one of the position gate. *)
Theorem C10_position_limits :
  forall (F : Type) (N : PyNum F) (now : Z) (symbol : string)
         (rm : RiskManager F),
    is_Some (positions rm !! symbol) \/ 5 <= base.size (positions rm) ->
    exists reason rm',
      can_open_position now symbol rm = (Ok (false, reason), rm') /\
      reason <> "OK" /\
      (check_circuit_breaker now rm = (Ok false, rm') ->
       reason = if bool_decide (is_Some (positions rm !! symbol))
                then "Position already open for this symbol"
                else "Maximum 5 positions already open").
Proof.
  intros F N now symbol rm Hfull.
  destruct (check_circuit_breaker_total now rm)
    as (b & rm' & Hcheck & Hpos & Hclear).
  unfold can_open_position, bindM, getM, retM. rewrite Hcheck.
  destruct b.
  - eexists; eexists; split; [reflexivity|]. split; [discriminate|].
    intros H; discriminate H.
  - destruct (Hclear eq_refl) as [Hd Hdd]. rewrite Hd, Hdd, Hpos.
    destruct (bool_decide (is_Some (positions rm !! symbol))) eqn:Eopen.
    + eexists; eexists; split; [reflexivity|].
      split; [discriminate|]. reflexivity.
    + assert (Hsize : (5 <=? base.size (positions rm))%nat = true).
      { apply Nat.leb_le. destruct Hfull as [Hopen|Hsize]; [|exact Hsize].
        apply bool_decide_eq_false in Eopen. contradiction. }
      rewrite Hsize.
      eexists; eexists; split; [reflexivity|].
      split; [discriminate|]. reflexivity.
Qed.

Lemma C10_position_limits_witness :
  exists reason (rm' : RiskManager Q),
    can_open_position 1000 "BTC/USDT" holding_manager
    = (Ok (false, reason), rm') /\ reason <> "OK".
Proof.
  destruct (C10_position_limits Q QNum 1000 "BTC/USDT" holding_manager)
    as (reason & rm' & Hrun & Hreason & _).
  - left. exists winning_long. reflexivity.
  - exists reason, rm'. split; assumption.
Defined.

(** ** Trailing stop (TrailingStopTracker) *)

Section TrailingFacts.
Context {F : Type} {N : PyNum F}.
Local Open Scope py_scope.

(** One call of [update_trailing_stop] on an open position, whatever it
    returns or raises, is a [trailing_step]. *)
Lemma update_trailing_stop_step symbol price (rm : RiskManager F) p :
  positions rm !! symbol = Some p ->
  exists r rm' p',
    update_trailing_stop symbol price rm = (r, rm') /\
    positions rm' !! symbol = Some p' /\
    trailing_step p p'.
Proof.
  intros Hp.
  unfold update_trailing_stop, store_position,
    bindM, getM, retM, modifyM, liftM.
  rewrite Hp. unfold trailing_step.
  destruct (enable_trailing_stop rm); cbn;
    [|exists (Ok None), rm, p; repeat split; auto].
  destruct (trailing_stop_active p) eqn:Eact; cbn.
  - rewrite Eact.
    destruct (String.eqb (side p) "long") eqn:Eside;
      split_ifs; cbn; eexists; eexists; eexists;
      (split; [reflexivity|]); cbn; rewrite ?lookup_insert_eq;
      (split; [first [reflexivity | exact Hp]|]); cbn;
      rewrite ?Eside; repeat split; auto; congruence.
  - destruct (get_pnl_pct p) as [profit|ex]; cbn;
      [|exists (Raise ex), rm, p; repeat split; auto; congruence].
    destruct (lit 2.0 <= profit); cbn.
    + destruct (String.eqb (side p) "long") eqn:Eside;
        split_ifs; cbn; eexists; eexists; eexists;
        (split; [reflexivity|]); cbn; rewrite ?lookup_insert_eq;
        (split; [first [reflexivity | exact Hp]|]); cbn;
        rewrite ?Eside; repeat split; auto; congruence.
    + rewrite Eact.
      exists (Ok None), rm, p; repeat split; auto; congruence.
Qed.

Lemma trailing_step_update_pnl price (p p' : Position F) :
  trailing_step (update_pnl price p) p' -> trailing_step p p'.
Proof.
  unfold trailing_step, update_pnl.
  destruct (String.eqb (side p) "long") eqn:E; cbn; rewrite ?E; auto.
Qed.

Lemma tick_step symbol price (rm : RiskManager F) p :
  positions rm !! symbol = Some p ->
  exists p', positions (tick symbol price rm) !! symbol = Some p' /\
             trailing_step p p'.
Proof.
  intros Hp. unfold tick. rewrite Hp.
  destruct (update_trailing_stop_step symbol price
              (set_positions (<[symbol := update_pnl price p]> (positions rm))
                             rm)
              (update_pnl price p)) as (r & rm' & p' & Hrun & Hp' & Hstep).
  { cbn. apply lookup_insert_eq. }
  rewrite Hrun. exists p'. split; [exact Hp'|].
  eapply trailing_step_update_pnl; eassumption.
Qed.

(** Along any sequence of price updates the position stays open, and each
    update is a [trailing_step]: in every arithmetic, binary64 included,
    the stop is kept or moves strictly in the favourable direction. *)
Lemma position_trace_steps symbol :
  forall prices (rm : RiskManager F) p,
    positions rm !! symbol = Some p ->
    length (position_trace symbol prices rm) = length prices /\
    chain trailing_step p (position_trace symbol prices rm).
Proof.
  induction prices as [|price rest IH]; intros rm p Hp; cbn.
  - split; [reflexivity|exact I].
  - destruct (tick_step symbol price rm p Hp) as (p' & Hp' & Hstep).
    rewrite Hp'. cbn. destruct (IH _ _ Hp') as [Hlen Hchain].
    split; [congruence|]. split; assumption.
Qed.
End TrailingFacts.

Section TrailingExact.
Local Open Scope Q_scope.

Lemma trailing_step_long (p p' : Position Q) :
  trailing_step p p' -> side p = "long" ->
  stop_loss p <= stop_loss p' /\ side p' = "long".
Proof.
  intros (Hside & _ & _ & Hstop) Hlong. rewrite Hlong in Hstop.
  split; [|congruence]. cbn in Hstop.
  destruct Hstop as [-> | Hup]; [lra|].
  apply Q_ltb_iff in Hup. lra.
Qed.

Lemma trailing_step_short (p p' : Position Q) :
  trailing_step p p' -> side p <> "long" ->
  stop_loss p' <= stop_loss p /\ side p' <> "long".
Proof.
  intros (Hside & _ & _ & Hstop) Hshort.
  split; [|congruence].
  destruct (String.eqb (side p) "long") eqn:E.
  - apply String.eqb_eq in E. contradiction.
  - destruct Hstop as [-> | Hdown]; [lra|].
    apply Q_ltb_iff in Hdown. lra.
Qed.

Lemma chain_long (l : list (Position Q)) :
  forall p, chain trailing_step p l -> side p = "long" ->
            chain (fun a b => stop_loss a <= stop_loss b) p l.
Proof.
  induction l as [|p' rest IH]; intros p Hchain Hlong; cbn; [exact I|].
  destruct Hchain as [Hstep Hrest].
  destruct (trailing_step_long p p' Hstep Hlong) as [Hle Hlong'].
  split; [exact Hle|]. apply IH; assumption.
Qed.

Lemma chain_short (l : list (Position Q)) :
  forall p, chain trailing_step p l -> side p <> "long" ->
            chain (fun a b => stop_loss b <= stop_loss a) p l.
Proof.
  induction l as [|p' rest IH]; intros p Hchain Hshort; cbn; [exact I|].
  destruct Hchain as [Hstep Hrest].
  destruct (trailing_step_short p p' Hstep Hshort) as [Hle Hshort'].
  split; [exact Hle|]. apply IH; assumption.
Qed.
End TrailingExact.

(** A call made while the trailing stop is inactive activates it at 3% of
    profit and moves the stop in the same call, from 95 to 103 x 0.99. *)
Lemma C6_inactive_call_moves_stop_counterexample :
  positions (holding_manager (F := Q)) !! "BTC/USDT" = Some winning_long /\
  trailing_stop_active (winning_long (F := Q)) = false /\
  exists (new_stop : Q) (rm' : RiskManager Q) (p' : Position Q),
    update_trailing_stop "BTC/USDT" 103%Q holding_manager
    = (Ok (Some new_stop), rm') /\
    positions rm' !! "BTC/USDT" = Some p' /\
    (stop_loss p' == 10197 # 100)%Q /\
    ~ (stop_loss p' == stop_loss (winning_long (F := Q)))%Q.
Proof.
  split; [reflexivity|]. split; [reflexivity|].
  eexists; eexists; eexists.
  split; [vm_compute; reflexivity|].
  split; [vm_compute; reflexivity|].
  split; [vm_compute; reflexivity | vm_compute; discriminate].
Qed.

(** C6, amended.  For every open position and every sequence of price
    updates, the position stays open and its [stop_loss] after each update is
    greater than or equal to the previous value when the position is long,
    and less than or equal to it otherwise; a call of [update_trailing_stop]
    after which the trailing stop is still inactive leaves [stop_loss]
    unchanged. *)
Theorem C6_trailing_stop_monotone :
  forall (symbol : string) (prices : list Q) (rm : RiskManager Q)
         (p : Position Q),
    positions rm !! symbol = Some p ->
    length (position_trace symbol prices rm) = length prices /\
    (side p = "long" ->
     chain (fun a b => (stop_loss a <= stop_loss b)%Q) p
           (position_trace symbol prices rm)) /\
    (side p <> "long" ->
     chain (fun a b => (stop_loss b <= stop_loss a)%Q) p
           (position_trace symbol prices rm)) /\
    (forall price : Q,
        exists r rm' p',
          update_trailing_stop symbol price rm = (r, rm') /\
          positions rm' !! symbol = Some p' /\
          (side p = "long" -> (stop_loss p <= stop_loss p')%Q) /\
          (side p <> "long" -> (stop_loss p' <= stop_loss p)%Q) /\
          (trailing_stop_active p' = false -> stop_loss p' = stop_loss p)).
Proof.
  intros symbol prices rm p Hp.
  destruct (position_trace_steps symbol prices rm p Hp) as [Hlen Hchain].
  split; [exact Hlen|].
  split; [intros Hlong; apply chain_long; assumption|].
  split; [intros Hshort; apply chain_short; assumption|].
  intros price.
  destruct (update_trailing_stop_step symbol price rm p Hp)
    as (r & rm' & p' & Hrun & Hp' & Hstep).
  exists r, rm', p'. split; [exact Hrun|]. split; [exact Hp'|].
  split; [intros Hlong; apply (trailing_step_long p p' Hstep Hlong)|].
  split; [intros Hshort; apply (trailing_step_short p p' Hstep Hshort)|].
  destruct Hstep as (_ & _ & Hinactive & _). exact Hinactive.
Qed.

Lemma C6_trailing_stop_monotone_witness :
  chain (fun a b : Position Q => (stop_loss a <= stop_loss b)%Q) winning_long
        (position_trace "BTC/USDT" [104%Q; 101%Q; 106%Q] holding_manager).
Proof.
  apply (C6_trailing_stop_monotone "BTC/USDT" [104%Q; 101%Q; 106%Q]
           holding_manager winning_long);
    reflexivity.
Defined.

(** ** The ensemble signal (SignalEnsembler) *)

Section Determinism.
Context {F : Type} {N : PyNum F} {P : Pandas F}.
Local Open Scope py_scope.

Lemma detect_market_regime_run df (e : Engine F) :
  exists rg e',
    detect_market_regime df e = (Ok rg, e') /\
    same_config e e' /\
    current_weights e' = current_weights e /\
    rg = match classify_regime df with
         | Ok r => r
         | Raise _ => default_regime
         end.
Proof.
  unfold detect_market_regime, try_except, bindM, liftM, modifyM, retM.
  destruct (classify_regime df) as [r|ex]; cbn [fst snd];
    eexists; eexists; (split; [reflexivity|]); repeat split.
Qed.

(** [combine_signals] reads the configuration and [current_weights]. *)
Lemma combine_signals_config (e1 e2 : Engine F) rg df ml :
  same_config e1 e2 -> current_weights e1 = current_weights e2 ->
  combine_signals e1 rg df ml = combine_signals e2 rg df ml.
Proof.
  intros (H1 & H2 & H3 & H4 & _) Hw.
  unfold combine_signals, adjust_thresholds_for_volatility.
  rewrite H1, H2, H3, H4, Hw. reflexivity.
Qed.

Lemma combine_signals_ok (self : Engine F) rg df ml sig :
  combine_signals self rg df ml = Ok sig ->
  regime sig = rg /\
  action sig = determine_action (strength sig) /\
  strength sig
  = (weighted_score (current_weights self) (components sig) + lit 1)
    * lit 50.
Proof.
  unfold combine_signals.
  repeat match goal with
    | |- context [rbind ?x _] => destruct x; cbn [rbind]
    end; try discriminate.
  intros [= <-]. repeat split.
Qed.

(** The outcome of the [try] block: its result is computed from the frame,
    the prediction and the configuration; [current_weights] is overwritten
    before it is read, and [regime_history] is never read. *)
Lemma ensemble_run df ml (e : Engine F) :
  exists e',
    same_config e e' /\
    ensemble df ml e =
    (let rg := match classify_regime df with
               | Ok r => r
               | Raise _ => default_regime
               end in
     let? rules := regime_rules rg (base_weights e) in
     let? weights := normalize (py_sum (dict_values rules)) rules in
     combine_signals (set_current_weights weights e) rg df ml,
     e') /\
    (forall sig, fst (ensemble df ml e) = Ok sig ->
                 combine_signals e' (regime sig) df ml = Ok sig).
Proof.
  unfold ensemble, bindM.
  destruct (detect_market_regime_run df e) as (r & e1 & -> & Hc & Hw & ->).
  set (rg := match classify_regime df with
             | Ok r => r | Raise _ => default_regime end).
  rewrite adjust_weights_run.
  destruct Hc as (A1 & A2 & A3 & A4 & A5). rewrite <- A5.
  cbv zeta.
  destruct (regime_rules rg (base_weights e)) as [rules|ex];
    cbn [rbind fst snd];
    [|exists e1; split; [repeat split; assumption|]; split; [reflexivity|];
      intros sig H; discriminate H].
  destruct (normalize _ rules) as [cw|ex]; cbn [rbind fst snd];
    [|exists e1; split; [repeat split; assumption|]; split; [reflexivity|];
      intros sig H; discriminate H].
  unfold getM, liftM.
  exists (set_current_weights cw e1). split; [repeat split; assumption|].
  split.
  - f_equal. apply combine_signals_config; repeat split; auto.
  - cbn [fst]. intros sig Hsig.
    destruct (combine_signals_ok _ _ _ _ _ Hsig) as (-> & _). exact Hsig.
Qed.

Lemma ensemble_same_config df ml (e1 e2 : Engine F) :
  same_config e1 e2 ->
  fst (ensemble df ml e1) = fst (ensemble df ml e2).
Proof.
  intros (H1 & H2 & H3 & H4 & H5).
  destruct (ensemble_run df ml e1) as (e1' & _ & -> & _).
  destruct (ensemble_run df ml e2) as (e2' & _ & -> & _).
  cbn [fst]. rewrite <- H5.
  destruct (regime_rules _ (base_weights e1)) as [rules|ex]; cbn [rbind];
    [|reflexivity].
  destruct (normalize _ rules) as [cw|ex]; cbn [rbind]; [|reflexivity].
  apply combine_signals_config; repeat split; assumption.
Qed.

(** [generate_ensemble_signal] always returns a signal. *)
Lemma generate_ensemble_signal_run df ml (e : Engine F) :
  generate_ensemble_signal df ml e =
  (Ok match fst (ensemble df ml e) with
      | Ok sig => sig
      | Raise ex => error_signal ex
      end,
   snd (ensemble df ml e)).
Proof.
  unfold generate_ensemble_signal, try_except, retM.
  destruct (ensemble df ml e) as [[sig|ex] e']; reflexivity.
Qed.

Lemma generate_same_config df ml (e : Engine F) :
  same_config e (snd (generate_ensemble_signal df ml e)).
Proof.
  rewrite generate_ensemble_signal_run. cbn [snd].
  destruct (ensemble_run df ml e) as (e' & Hc & -> & _). exact Hc.
Qed.

Lemma determine_action_cases (x : F) :
  (determine_action x = "BUY" <-> (x >= lit 65) = true) /\
  (determine_action x = "SELL"
   <-> (x >= lit 65) = false /\ (x <= lit 35) = true) /\
  (determine_action x = "HOLD"
   <-> (x >= lit 65) = false /\ (x <= lit 35) = false).
Proof.
  unfold determine_action.
  destruct (x >= lit 65), (x <= lit 35);
    repeat split; try discriminate; try tauto;
    intros [? ?]; discriminate.
Qed.
End Determinism.

(** The boundary values themselves: 65 is a BUY and 35 a SELL, in both
    arithmetics. *)
Lemma determine_action_boundaries :
  determine_action 65%Q = "BUY" /\ determine_action 35%Q = "SELL" /\
  determine_action 65%float = "BUY" /\ determine_action 35%float = "SELL" /\
  determine_action (64.99)%Q = "HOLD" /\ determine_action (35.01)%Q = "HOLD".
Proof. vm_compute. repeat split. Qed.

(** No binary64 number is both at least 65 and at most 35. *)
Lemma float_thresholds_disjoint (x : float) :
  PrimFloat.leb (float_lit 65) x = true ->
  PrimFloat.leb x (float_lit 35) = false.
Proof.
  rewrite !FloatAxioms.leb_spec.
  let a := eval vm_compute in (Prim2SF (float_lit 65)) in
  change (Prim2SF (float_lit 65)) with a.
  let b := eval vm_compute in (Prim2SF (float_lit 35)) in
  change (Prim2SF (float_lit 35)) with b.
  destruct (Prim2SF x) as [s| s | |s m e]; unfold SFleb, SFcompare;
    try (destruct s); try discriminate; try reflexivity.
  destruct (Z.compare_spec (-46) e); destruct (Z.compare_spec e (-47));
    try lia; try discriminate; try reflexivity.
Qed.

(** C9.  Two engines with the same configuration (the attributes that
    [__init__] sets and no method assigns), whatever their [current_weights]
    and [regime_history], return the same signal for the same frame and
    prediction; a call keeps the configuration, so this holds after any
    earlier calls, and a second call with the same inputs returns the signal
    of the first.  Proved for every arithmetic and every instance of the
    pandas functions. *)
Theorem C9_signal_is_function_of_inputs :
  forall (F : Type) (N : PyNum F) (P : Pandas F) (df : DataFrame F)
         (ml : option (dict F)) (e1 e2 : Engine F),
    same_config e1 e2 ->
    fst (generate_ensemble_signal df ml e1)
    = fst (generate_ensemble_signal df ml e2) /\
    same_config e1 (snd (generate_ensemble_signal df ml e1)) /\
    (forall (df' : DataFrame F) (ml' : option (dict F)),
        fst (generate_ensemble_signal df ml
               (snd (generate_ensemble_signal df' ml' e1)))
        = fst (generate_ensemble_signal df ml e2)).
Proof.
  intros F N P df ml e1 e2 Hcfg.
  assert (Hsame : forall a b : Engine F,
             same_config a b ->
             fst (generate_ensemble_signal df ml a)
             = fst (generate_ensemble_signal df ml b)).
  { intros a b Hab. rewrite !generate_ensemble_signal_run. cbn [fst].
    rewrite (ensemble_same_config df ml a b Hab). reflexivity. }
  split; [apply Hsame; exact Hcfg|].
  split; [apply generate_same_config|].
  intros df' ml'. apply Hsame.
  destruct (generate_same_config df' ml' e1) as (A1 & A2 & A3 & A4 & A5).
  destruct Hcfg as (B1 & B2 & B3 & B4 & B5).
  repeat split; congruence.
Qed.

Lemma C9_signal_is_function_of_inputs_witness :
  fst (generate_ensemble_signal sparse_frame model_prediction
         (new_engine (lit 30) (lit 70) true true : Engine float))
  = fst (generate_ensemble_signal sparse_frame model_prediction
           (used_engine : Engine float)).
Proof.
  refine (proj1 (C9_signal_is_function_of_inputs float FloatNum FloatPandas
                   sparse_frame model_prediction
                   (new_engine (lit 30) (lit 70) true true) used_engine _)).
  repeat split.
Defined.

(** C4.  When the [try] block of [generate_ensemble_signal] completes
    without an exception, the signal returned has
    strength = (weighted score + 1) x 50 and its action is BUY exactly when
    strength >= 65, SELL exactly when strength <= 35, and HOLD otherwise: in
    exact arithmetic and in binary64 (where "otherwise" includes a NaN
    strength), for every instance of the pandas functions. *)
Theorem C4_action_thresholds :
  (forall (P : Pandas Q) (df : DataFrame Q) (ml : option (dict Q))
          (e e' : Engine Q) (sig : AdaptiveSignal Q),
      ensemble df ml e = (Ok sig, e') ->
      generate_ensemble_signal df ml e = (Ok sig, e') /\
      strength sig
      = ((weighted_score (current_weights e') (components sig) + 1) * 50)%Q /\
      (action sig = "BUY" <-> (65 <= strength sig)%Q) /\
      (action sig = "SELL" <-> (strength sig <= 35)%Q) /\
      (action sig = "HOLD" <-> (35 < strength sig < 65)%Q)) /\
  (forall (P : Pandas float) (df : DataFrame float)
          (ml : option (dict float)) (e e' : Engine float)
          (sig : AdaptiveSignal float),
      ensemble df ml e = (Ok sig, e') ->
      generate_ensemble_signal df ml e = (Ok sig, e') /\
      strength sig
      = ((weighted_score (current_weights e') (components sig) + lit 1)
         * lit 50)%py /\
      (action sig = "BUY" <-> (strength sig >= lit 65)%py = true) /\
      (action sig = "SELL" <-> (strength sig <= lit 35)%py = true) /\
      (action sig = "HOLD"
       <-> (strength sig >= lit 65)%py = false /\
           (strength sig <= lit 35)%py = false)).
Proof.
  split; intros P df ml e e' sig Hrun.
  - assert (Hgen : generate_ensemble_signal df ml e = (Ok sig, e')).
    { rewrite generate_ensemble_signal_run, Hrun. reflexivity. }
    split; [exact Hgen|].
    destruct (ensemble_run df ml e) as (e1 & _ & Heq & Hok).
    rewrite Hrun in Heq. injection Heq as Hsig He. subst e1.
    specialize (Hok sig). rewrite Hrun in Hok. specialize (Hok eq_refl).
    destruct (combine_signals_ok _ _ _ _ _ Hok) as (_ & Haction & Hstrength).
    split; [exact Hstrength|].
    destruct (determine_action_cases (strength sig)) as (Hbuy & Hsell & Hhold).
    rewrite Haction.
    split; [rewrite Hbuy; apply Q_leb_iff|].
    split.
    + rewrite Hsell. rewrite Q_leb_false, Q_leb_iff. cbn [lit QNum].
      split; [tauto | intros H; split; [lra | exact H]].
    + rewrite Hhold. rewrite !Q_leb_false. cbn [lit QNum]. tauto.
  - assert (Hgen : generate_ensemble_signal df ml e = (Ok sig, e')).
    { rewrite generate_ensemble_signal_run, Hrun. reflexivity. }
    split; [exact Hgen|].
    destruct (ensemble_run df ml e) as (e1 & _ & Heq & Hok).
    rewrite Hrun in Heq. injection Heq as Hsig He. subst e1.
    specialize (Hok sig). rewrite Hrun in Hok. specialize (Hok eq_refl).
    destruct (combine_signals_ok _ _ _ _ _ Hok) as (_ & Haction & Hstrength).
    split; [exact Hstrength|].
    destruct (determine_action_cases (strength sig)) as (Hbuy & Hsell & Hhold).
    rewrite Haction.
    split; [exact Hbuy|]. split; [|exact Hhold].
    rewrite Hsell. split; [tauto|]. intros H. split; [|exact H].
    destruct (lit 65 <= strength sig)%py eqn:E; [|reflexivity].
    apply float_thresholds_disjoint in E.
    change (PrimFloat.leb (strength sig) (float_lit 35) = true) in H.
    congruence.
Qed.

Lemma C4_action_thresholds_witness :
  exists (sig : AdaptiveSignal float) (e' : Engine float),
    ensemble sparse_frame model_prediction
      (new_engine (lit 30) (lit 70) true true) = (Ok sig, e') /\
    action sig = "HOLD" /\
    (strength sig >= lit 65)%py = false /\
    (strength sig <= lit 35)%py = false.
Proof.
  eexists; eexists.
  split; [vm_compute; reflexivity|].
  split; [|split]; [|vm_compute; reflexivity|vm_compute; reflexivity].
  eapply (proj2 C4_action_thresholds FloatPandas sparse_frame
            model_prediction (new_engine (lit 30) (lit 70) true true)).
  - vm_compute. reflexivity.
  - vm_compute. split; reflexivity.
Defined.

(** ** Failures *)

(** Position sizing on a frame without a [close] column: the [except] clause
    reads the column again and the [KeyError] escapes.  And when the failure
    is a [None] confidence on a priced frame, the size returned is the fixed
    one, 10% of 10000 at the price 104, not zero. *)
Lemma C5_position_sizing_failures_counterexample :
  calculate_dynamic_position_size (default_manager (F := Q)) ∅
    (PyFloat 50%Q) (PyFloat 0.5%Q) = Raise (KeyError "close") /\
  dynamic_size (default_manager (F := Q)) priced_frame (PyFloat 50%Q) PyNone
  = Raise TypeError /\
  exists size : Q,
    calculate_dynamic_position_size (default_manager (F := Q)) priced_frame
      (PyFloat 50%Q) PyNone = Ok size /\
    (size == 1000 / 104)%Q /\ ~ (size == 0)%Q.
Proof.
  split; [vm_compute; reflexivity|].
  split; [vm_compute; reflexivity|].
  eexists. split; [vm_compute; reflexivity|].
  split; [reflexivity | discriminate].
Qed.

(** C5, amended.  No exception escapes [generate_ensemble_signal]: it always
    returns a signal, and when its [try] block raises, the signal is exactly
    HOLD with strength 50, confidence 0 and the error as its reasoning.  In
    [calculate_dynamic_position_size], when the last close of the frame can
    be read, no exception escapes either, and an internal failure yields the
    fixed size, current_capital x max_position_size_pct / 100, divided by
    that price. *)
Theorem C5_failures_degrade :
  forall (F : Type) (N : PyNum F),
    (forall (P : Pandas F) (df : DataFrame F) (ml : option (dict F))
            (e : Engine F),
        exists sig e',
          generate_ensemble_signal df ml e = (Ok sig, e') /\
          (forall ex e'',
              ensemble df ml e = (Raise ex, e'') ->
              e' = e'' /\
              action sig = "HOLD" /\
              strength sig = lit 50.0 /\
              sig_confidence sig = lit 0.0 /\
              components sig = [] /\
              reasoning sig = [ErrorReason ex])) /\
    (forall (L : PyMath F) (rm : RiskManager F) (df : DataFrame F)
            (signal_strength signal_confidence : pyval F)
            (close : list F) (price : F),
        df !! "close" = Some close ->
        iloc_last close = Ok price ->
        exists size,
          calculate_dynamic_position_size rm df signal_strength
                                          signal_confidence = Ok size /\
          (forall ex,
              dynamic_size rm df signal_strength signal_confidence
              = Raise ex ->
              size = (calculate_fixed_position_size rm / price)%py)).
Proof.
  intros F N. split.
  - intros P df ml e. rewrite generate_ensemble_signal_run.
    eexists; eexists. split; [reflexivity|].
    intros ex e'' Hraise. rewrite Hraise. cbn [fst snd].
    repeat split.
  - intros L rm df s c close price Hclose Hlast.
    unfold calculate_dynamic_position_size.
    destruct (dynamic_size rm df s c) as [size|ex0]; cbn [rtry].
    + exists size. split; [reflexivity|]. intros ex H; discriminate H.
    + unfold col. rewrite Hclose. cbn [rbind]. rewrite Hlast. cbn [rbind].
      eexists. split; [reflexivity|]. intros ex _. reflexivity.
Qed.

Lemma C5_failures_degrade_witness :
  (exists (sig : AdaptiveSignal float) (e' : Engine float),
      generate_ensemble_signal short_frame model_prediction
        (new_engine (lit 30) (lit 70) true true) = (Ok sig, e') /\
      action sig = "HOLD" /\ reasoning sig = [ErrorReason IndexError]) /\
  (exists size : Q,
      calculate_dynamic_position_size (default_manager (F := Q)) priced_frame
        (PyFloat 50%Q) PyNone = Ok size /\
      size = (calculate_fixed_position_size (default_manager (F := Q))
              / 104)%Q).
Proof.
  split.
  - destruct (proj1 (C5_failures_degrade float FloatNum) FloatPandas
                short_frame model_prediction
                (new_engine (lit 30) (lit 70) true true))
      as (sig & e' & Hrun & Hfail).
    exists sig, e'. split; [exact Hrun|].
    edestruct Hfail as (_ & Haction & _ & _ & _ & Hreason).
    + vm_compute. reflexivity.
    + split; [exact Haction | exact Hreason].
  - destruct (proj2 (C5_failures_degrade Q QNum) QMath
                default_manager priced_frame (PyFloat 50%Q) PyNone
                [100; 101; 102; 103; 104]%Q 104%Q)
      as (size & Hrun & Hfail).
    + reflexivity.
    + reflexivity.
    + exists size. split; [exact Hrun|].
      apply (Hfail TypeError). vm_compute. reflexivity.
Defined.

(** * Further properties of the code

    Properties read off the source beyond the statements above; X1 to X30. *)

(** ** Tools *)

(** Decides a closed comparison of rationals or integers. *)
Ltac decide_closed :=
  vm_compute;
  first [ reflexivity | discriminate | exact I
        | let H := fresh in intro H; discriminate H ].

(** The cases of [check_circuit_breaker]. *)
Ltac breaker_cases now rm :=
  unfold check_circuit_breaker, activate_circuit_breaker,
    bindM, getM, retM, modifyM, breaker_holds,
    daily_loss_hit, drawdown_hit, losing_streak;
  (destruct (circuit_breaker_active rm) eqn:Eactive;
    [destruct (circuit_breaker_until rm) as [until|] eqn:Euntil;
     [destruct (until <? now)%Z eqn:Eexp|]|]); cbv beta iota;
  change (get_daily_pnl_pct (set_breaker false None BreakerDeactivated rm))
    with (get_daily_pnl_pct rm);
  change (max_daily_loss_pct (set_breaker false None BreakerDeactivated rm))
    with (max_daily_loss_pct rm);
  change (max_drawdown_pct (set_breaker false None BreakerDeactivated rm))
    with (max_drawdown_pct rm);
  change (get_current_drawdown_pct
            (set_breaker false None BreakerDeactivated rm))
    with (get_current_drawdown_pct rm);
  change (closed_positions (set_breaker false None BreakerDeactivated rm))
    with (closed_positions rm);
  change (consecutive_losses (set_breaker false None BreakerDeactivated rm))
    with (consecutive_losses rm);
  (destruct (leb (get_daily_pnl_pct rm) (opp (max_daily_loss_pct rm)))
     eqn:Edaily;
   [|destruct (leb (max_drawdown_pct rm) (get_current_drawdown_pct rm))
       eqn:Edd;
     [|destruct ((5 <=? length (closed_positions rm))%nat
                 && consecutive_losses rm) eqn:Estreak]]); cbv beta iota.

Lemma Ok_inv {A} (a b : A) : Ok a = Ok b -> a = b.
Proof. intros H. inversion H. reflexivity. Qed.

Lemma Ok_pair_inv {A B} (a s : A) (b r : B) :
  Ok (a, b) = Ok (s, r) -> a = s /\ b = r.
Proof. intros H. inversion H. split; reflexivity. Qed.

Ltac ok_inv :=
  let H := fresh "H" in
  intros H; apply Ok_pair_inv in H; destruct H as [<- <-].

Section ExactTools.
Local Open Scope Q_scope.

Lemma Qdiv_bounds (a b lo hi : Q) :
  0 < b -> lo * b <= a -> a <= hi * b -> lo <= a / b <= hi.
Proof.
  intros Hb Hlo Hhi. split.
  - apply Qle_shift_div_l; assumption.
  - apply Qle_shift_div_r; assumption.
Qed.

Lemma py_min_cap (cap x : Q) : 0 <= cap -> 0 <= x -> 0 <= py_min cap x <= cap.
Proof.
  intros Hc Hx. unfold py_min. destruct (ltb x cap) eqn:E.
  - apply Q_ltb_iff in E. lra.
  - lra.
Qed.

Lemma clamp_range (lo hi x : Q) :
  lo <= hi ->
  py_max lo (py_min hi x) == Qmax lo (Qmin hi x) /\
  lo <= py_max lo (py_min hi x) <= hi.
Proof.
  intros Hle. rewrite py_max_Q, py_min_Q. split; [reflexivity|].
  split; [apply Q.le_max_l|].
  apply Q.max_lub; [exact Hle | apply Q.le_min_l].
Qed.

Lemma product_range (s c : Q) : -1 <= s <= 1 -> 0 <= c <= 1 -> -1 <= s * c <= 1.
Proof.
  intros Hs Hc.
  assert (0 <= (1 - s) * c) by (apply Qmult_le_0_compat; lra).
  assert (0 <= (1 + s) * c) by (apply Qmult_le_0_compat; lra).
  lra.
Qed.

Lemma Qabs_pos_of_neq (a b : Q) : ~ a == b -> 0 < Qabs (a - b).
Proof.
  intros Hne. destruct (Qlt_le_dec 0 (a - b)) as [Hpos|Hneg].
  - rewrite Qabs_pos; lra.
  - rewrite Qabs_neg; [|exact Hneg].
    destruct (Qeq_dec a b); [contradiction|lra].
Qed.

Lemma py_sum_fold_right (xs : list Q) :
  py_sum xs == fold_right Qplus 0 xs.
Proof.
  destruct xs as [|x rest]; [reflexivity|]. cbn [py_sum fold_right].
  revert x. induction rest as [|y rest IH]; intros x; cbn [fold_left fold_right].
  - cbn [add QNum]. ring.
  - rewrite IH. cbn [add QNum]. ring.
Qed.

Lemma of_nat_pos (n : nat) : (0 < n)%nat -> 0 < of_nat (F := Q) n.
Proof.
  intros H. unfold of_nat. cbn [lit QNum]. change 0 with (inject_Z 0).
  rewrite <- Zlt_Qlt. lia.
Qed.

Lemma of_nat_nonneg (n : nat) : 0 <= of_nat (F := Q) n.
Proof.
  unfold of_nat. cbn [lit QNum]. change 0 with (inject_Z 0).
  rewrite <- Zle_Qle. lia.
Qed.

Lemma of_nat_le (n m : nat) :
  (n <= m)%nat -> of_nat (F := Q) n <= of_nat m.
Proof.
  intros H. unfold of_nat. cbn [lit QNum]. rewrite <- Zle_Qle. lia.
Qed.
End ExactTools.

(** ** Stops and targets *)

Section StopsExact.
Local Open Scope Q_scope.

(** X1.  The stop of [calculate_stop_loss] is 1% to 5% away from a positive
    entry price, below it for a long position and above it otherwise, for
    every frame: with an ATR, without the column, or with an empty column. *)
Theorem stop_loss_within_one_to_five_percent :
  forall (entry_price : Q) (df : DataFrame Q) (side : string),
    0 < entry_price ->
    (side = "long" ->
     entry_price * 0.95 <= calculate_stop_loss entry_price df side
     <= entry_price * 0.99) /\
    (side <> "long" ->
     entry_price * 1.01 <= calculate_stop_loss entry_price df side
     <= entry_price * 1.05).
Proof.
  intros entry df side Hentry.
  assert (Hclamp : forall d : Q,
             entry * 0.01 <= py_max (entry * 0.01) (py_min d (entry * 0.05))
             <= entry * 0.05)
    by (intros d; apply clamp_bounds; lra).
  unfold calculate_stop_loss.
  destruct (String.eqb side "long") eqn:Eside.
  - apply String.eqb_eq in Eside. split; [intros _|intros H; contradiction].
    destruct (has_col df "atr"); cbn [rbind lit QNum mul sub add];
      [destruct (col df "atr") as [atr_col|]; cbn [rbind];
       [destruct (iloc_last atr_col) as [atr|]; cbn [rbind]|]|];
      try (pose proof (Hclamp (atr * 2)) as Hc);
      try (pose proof (Hclamp (entry * 0.02)) as Hc);
      cbn [lit QNum mul sub add] in *; lra.
  - apply String.eqb_neq in Eside. split; [intros H; contradiction|intros _].
    destruct (has_col df "atr"); cbn [rbind lit QNum mul sub add];
      [destruct (col df "atr") as [atr_col|]; cbn [rbind];
       [destruct (iloc_last atr_col) as [atr|]; cbn [rbind]|]|];
      try (pose proof (Hclamp (atr * 2)) as Hc);
      try (pose proof (Hclamp (entry * 0.02)) as Hc);
      cbn [lit QNum mul sub add] in *; lra.
Qed.
End StopsExact.

Lemma stop_loss_within_one_to_five_percent_witness :
  (50000 * 0.95 <= calculate_stop_loss 50000 atr_frame "long"
   <= 50000 * 0.99)%Q.
Proof.
  pose proof (stop_loss_within_one_to_five_percent 50000%Q atr_frame "long")
    as H.
  specialize (H ltac:(decide_closed)). apply (proj1 H). reflexivity.
Defined.

Section TargetsExact.
Local Open Scope Q_scope.

(** X2.  [calculate_take_profit_levels] returns [min levels 3] targets, at 2, 3
    and 5 times the distance between entry and stop; when the stop differs
    from the entry they are strictly ordered away from the entry, upwards for
    a long position and downwards otherwise. *)
Theorem take_profit_ladder :
  forall (entry_price stop_loss : Q) (side : string) (levels : nat),
    let risk := Qabs (entry_price - stop_loss) in
    let targets :=
      calculate_take_profit_levels entry_price stop_loss side levels in
    length targets = Nat.min levels 3 /\
    (side = "long" ->
     targets = firstn levels [entry_price + risk * 2; entry_price + risk * 3;
                              entry_price + risk * 5]) /\
    (side <> "long" ->
     targets = firstn levels [entry_price - risk * 2; entry_price - risk * 3;
                              entry_price - risk * 5]) /\
    (~ entry_price == stop_loss ->
     (side = "long" -> chain Qlt entry_price targets) /\
     (side <> "long" -> chain (fun a b => b < a) entry_price targets)).
Proof.
  intros entry stop side levels risk targets. subst targets.
  unfold calculate_take_profit_levels. fold risk.
  destruct (String.eqb side "long") eqn:Eside;
    [apply String.eqb_eq in Eside|apply String.eqb_neq in Eside].
  - split; [rewrite length_map, length_firstn; reflexivity|].
    split; [intros _; destruct levels as [|[|[|n]]]; cbn; rewrite ?firstn_nil; reflexivity|].
    split; [intros H; contradiction|].
    intros Hne. pose proof (Qabs_pos_of_neq _ _ Hne) as Hrisk.
    split; [intros _|intros H; contradiction].
    cbn [pabs sub QNum]. clear risk.
    set (r := Qabs (entry - stop)) in *. clearbody r.
    destruct levels as [|[|[|n]]]; cbn; rewrite ?firstn_nil;
      cbn [map chain lit QNum mul add]; repeat split; lra.
  - split; [rewrite length_map, length_firstn; reflexivity|].
    split; [intros H; contradiction|].
    split; [intros _; destruct levels as [|[|[|n]]]; cbn; rewrite ?firstn_nil; reflexivity|].
    intros Hne. pose proof (Qabs_pos_of_neq _ _ Hne) as Hrisk.
    split; [intros H; contradiction|intros _].
    cbn [pabs sub QNum]. clear risk.
    set (r := Qabs (entry - stop)) in *. clearbody r.
    destruct levels as [|[|[|n]]]; cbn; rewrite ?firstn_nil;
      cbn [map chain lit QNum mul sub]; repeat split; lra.
Qed.

End TargetsExact.

Lemma take_profit_ladder_witness :
  chain Qlt 100%Q (calculate_take_profit_levels 100%Q 95%Q "long" 3).
Proof.
  pose proof (take_profit_ladder 100%Q 95%Q "long" 3) as H. cbv zeta in H.
  destruct H as (_ & _ & _ & H).
  specialize (H ltac:(decide_closed)). apply (proj1 H). reflexivity.
Defined.


Section PnlExact.
Local Open Scope Q_scope.

End PnlExact.


(** ** Position sizing *)

Section SizingMore.
Local Open Scope Q_scope.


(** X6.  Without a readable, non-zero ATR and price (no [atr] or [close] column,
    an empty column, a zero ATR or a zero price) the volatility size is the
    fixed size, current_capital x max_position_size_pct / 100: an amount in
    the quote currency, not divided by the price. *)
Theorem volatility_size_fallback :
  forall (F : Type) (N : PyNum F) (rm : RiskManager F) (df : DataFrame F)
         (risk_pct : F),
    match rbind (col df "close") iloc_last, rbind (col df "atr") iloc_last with
    | Ok price, Ok atr => ((atr == lit 0) || (price == lit 0))%py = true
    | _, _ => True
    end ->
    calculate_position_size_volatility rm df risk_pct
    = calculate_fixed_position_size rm.
Proof.
  intros F N rm df risk. unfold calculate_position_size_volatility, has_col, col.
  destruct (df !! "atr") as [atr_col|]; cbn [negb rbind]; [|reflexivity].
  destruct (df !! "close") as [close|]; cbn [rbind]; [|reflexivity].
  destruct (iloc_last close) as [price|]; cbn [rbind]; [|reflexivity].
  destruct (iloc_last atr_col) as [atr|]; cbn [rbind]; [|reflexivity].
  intros ->. reflexivity.
Qed.
End SizingMore.


Lemma volatility_size_fallback_witness :
  calculate_position_size_volatility (default_manager (F := Q)) atr_frame 2%Q
  = calculate_fixed_position_size default_manager.
Proof.
  pose proof (volatility_size_fallback Q QNum default_manager atr_frame 2%Q)
    as H.
  apply H. vm_compute. exact I.
Defined.

Section KellyMore.
Local Open Scope Q_scope.

(** X7.  When the Kelly formula is evaluated (non-zero win rate and averages),
    the percentage returned is at least 1, and at most the configured
    maximum when that is at least 1; with a non-negative Kelly fraction and
    no edge (win_rate x avg_win <= (1 - win_rate) x avg_loss, averages
    positive) it is exactly 1: a losing record still sizes a position at 1%
    of the capital. *)
Theorem kelly_percentage_clamped :
  forall (rm : RiskManager Q) (win_rate avg_win avg_loss : Q),
    ~ win_rate == 0 -> ~ avg_win == 0 -> ~ avg_loss == 0 ->
    let kelly := calculate_kelly_position_size rm win_rate avg_win avg_loss in
    1 <= kelly /\
    (1 <= max_position_size_pct rm -> kelly <= max_position_size_pct rm) /\
    (0 <= kelly_fraction rm -> 0 < avg_win -> 0 < avg_loss ->
     win_rate * avg_win <= (1 - win_rate) * avg_loss -> kelly == 1).
Proof.
  intros rm w a l Hw Ha Hl kelly. subst kelly.
  unfold calculate_kelly_position_size, kelly_formula, py_div.
  assert (E1 : eqb l (lit 0) = false) by (apply Q_eqb_false; exact Hl).
  assert (E2 : eqb w (lit 0) = false) by (apply Q_eqb_false; exact Hw).
  rewrite E1, E2. cbn [orb rbind].
  assert (E3 : eqb (div a l) (lit 0) = false).
  { apply Q_eqb_false. cbn. intro H. apply Ha.
    rewrite <- (Qmult_div_r a l Hl). rewrite H. ring. }
  rewrite E3. cbn [rbind lit QNum mul sub div].
  set (k := (a / l * w - (1 - w)) / (a / l) * kelly_fraction rm * 100).
  rewrite py_max_Q, py_min_Q.
  split; [pose proof (Q.le_max_l 1.0 (Qmin k (max_position_size_pct rm)));
          lra|].
  split.
  - intros Hmax. apply Q.max_lub; [lra | apply Q.le_min_r].
  - intros Hkf Hap Hlp Hedge.
    assert (Hk : k <= 0).
    { unfold k.
      assert (Hratio : 0 < a / l) by (apply Qlt_shift_div_l; lra).
      assert (Hnum : a / l * w - (1 - w) <= 0).
      { assert (E : a / l * w - (1 - w) == (w * a - (1 - w) * l) / l)
          by (field; exact Hl).
        rewrite E. apply Qle_shift_div_r; lra. }
      assert (Hq : (a / l * w - (1 - w)) / (a / l) <= 0).
      { apply Qle_shift_div_r; lra. }
      assert (H1 : (a / l * w - (1 - w)) / (a / l) * kelly_fraction rm <= 0).
      { rewrite <- (Qmult_0_l (kelly_fraction rm)).
        apply Qmult_le_compat_r; assumption. }
      lra. }
    rewrite Q.max_l; [reflexivity|]. apply Q.min_le_iff. left. lra.
Qed.
End KellyMore.

Lemma kelly_percentage_clamped_witness :
  (calculate_kelly_position_size (default_manager (F := Q)) 0.4 100 100
   == 1)%Q.
Proof.
  pose proof (kelly_percentage_clamped default_manager 0.4%Q 100%Q 100%Q)
    as H.
  specialize (H ltac:(decide_closed) ltac:(decide_closed)
                ltac:(decide_closed)).
  cbv zeta in H. apply (proj2 (proj2 H)); decide_closed.
Defined.

Section WinStatistics.
Local Open Scope Q_scope.

Lemma mean_positive (xs : list Q) :
  xs <> [] -> Forall (fun x => 0 < x) xs -> 0 < mean xs.
Proof.
  intros Hne Hpos. unfold mean. cbn [div QNum].
  apply Qlt_shift_div_l.
  - apply of_nat_pos. destruct xs; [congruence | cbn; lia].
  - rewrite Qmult_0_l, py_sum_fold_right.
    destruct xs as [|x rest]; [congruence|].
    inversion Hpos as [|? ? Hx Hrest]; subst. cbn [fold_right].
    assert (H0 : 0 <= fold_right Qplus 0 rest).
    { clear - Hrest. induction Hrest; cbn [fold_right]; lra. }
    lra.
Qed.

(** X8.  The statistics that feed the Kelly sizing, for a closed-position list
    that is not empty: the win rate is the number of positions with a
    positive realized P&L over the number of all closed positions, so it is
    between 0 and 1 and positions closed at exactly zero count against it;
    the average win is positive when there is a win and 0.0 otherwise, and
    the average loss is a positive magnitude when there is a loss and 0.0
    otherwise.  For an empty list the statistics are 0.5, 0.0 and 0.0. *)
Theorem win_statistics_ranges :
  forall (rm : RiskManager Q),
    let wins := List.filter (fun p => ltb 0 (realized_pnl p))
                            (closed_positions rm) in
    let losses := List.filter (fun p => ltb (realized_pnl p) 0)
                              (closed_positions rm) in
    let stats := calculate_win_statistics rm in
    (closed_positions rm = [] -> stats = (0.5, 0.0, 0.0)) /\
    (closed_positions rm <> [] ->
     fst (fst stats)
     = of_nat (length wins) / of_nat (length (closed_positions rm)) /\
     0 <= fst (fst stats) <= 1 /\
     (length wins + length losses <= length (closed_positions rm))%nat /\
     (wins = [] -> snd (fst stats) = 0.0) /\
     (wins <> [] -> 0 < snd (fst stats)) /\
     (losses = [] -> snd stats = 0.0) /\
     (losses <> [] -> 0 < snd stats)).
Proof.
  intros rm wins losses stats. subst stats. unfold calculate_win_statistics.
  destruct (closed_positions rm) as [|c rest] eqn:Hclosed.
  - split; [reflexivity | intros H; congruence].
  - split; [intros H; discriminate H | intros _].
    fold wins. fold losses.
    change (List.filter (fun p : Position Q => (realized_pnl p > lit 0)%py)
              (c :: rest)) with wins.
    change (List.filter (fun p : Position Q => (realized_pnl p < lit 0)%py)
              (c :: rest)) with losses.
    cbn [fst snd]. rewrite !length_map.
    split; [reflexivity|].
    assert (Hlen : (length wins <= length (c :: rest))%nat)
      by apply List.filter_length_le.
    assert (Htotal : 0 < of_nat (F := Q) (length (c :: rest)))
      by (apply of_nat_pos; cbn; lia).
    split.
    { cbn [div QNum]. split.
      - apply Qle_shift_div_l; [exact Htotal|]. rewrite Qmult_0_l.
        apply of_nat_nonneg.
      - apply Qle_shift_div_r; [exact Htotal|]. rewrite Qmult_1_l.
        apply of_nat_le. exact Hlen. }
    split.
    { subst wins losses. clear.
      induction (c :: rest) as [|x l IH]; cbn [List.filter length];
        [lia|].
      destruct (ltb 0 (realized_pnl x)) eqn:E1;
        destruct (ltb (realized_pnl x) 0) eqn:E2; cbn [length]; try lia.
      apply Q_ltb_iff in E1. apply Q_ltb_iff in E2. lra. }
    split; [intros ->; reflexivity|].
    split.
    { intros Hne. destruct (map realized_pnl wins) as [|w ws] eqn:Ew.
      - destruct wins; [congruence | discriminate Ew].
      - rewrite <- Ew. cbn [np_mean QMath]. apply mean_positive.
        + rewrite Ew. discriminate.
        + apply List.Forall_map. apply List.Forall_forall. intros p Hin.
          apply List.filter_In in Hin. destruct Hin as [_ Hin].
          apply Q_ltb_iff in Hin. exact Hin. }
    split; [intros ->; reflexivity|].
    intros Hne.
    destruct (map (fun p => pabs (realized_pnl p)) losses) as [|w ws] eqn:Ew.
    + destruct losses; [congruence | discriminate Ew].
    + rewrite <- Ew. cbn [np_mean QMath]. apply mean_positive.
      * rewrite Ew. discriminate.
      * apply List.Forall_map. apply List.Forall_forall. intros p Hin.
        apply List.filter_In in Hin. destruct Hin as [_ Hin].
        apply Q_ltb_iff in Hin. cbn [pabs QNum lit] in *.
        rewrite Qabs_neg by lra. lra.
Qed.
End WinStatistics.

Lemma win_statistics_ranges_witness :
  (0 <= fst (fst (calculate_win_statistics (streak_manager (F := Q))))
   <= 1)%Q /\
  (0 < snd (calculate_win_statistics (streak_manager (F := Q))))%Q.
Proof.
  pose proof (win_statistics_ranges streak_manager) as H. cbv zeta in H.
  destruct H as [_ H]. specialize (H ltac:(decide_closed)).
  destruct H as (_ & Hrate & _ & _ & _ & _ & Hloss).
  split; [exact Hrate|]. apply Hloss. decide_closed.
Defined.

(** ** Circuit breaker and entry gate, continued *)

Section BreakerMore.
Context {F : Type} {N : PyNum F}.
Local Open Scope py_scope.

(** X9.  [check_circuit_breaker] never raises; the breaker is active afterwards
    exactly when the check returns [True]; the check returns [True] exactly
    when the breaker holds (active and not expired), or the daily loss limit
    is reached, or the drawdown limit is reached, or the last five closed
    positions all lost; and it changes nothing of the manager but the
    breaker and the log. *)
Theorem check_circuit_breaker_verdict :
  forall (now : Z) (rm : RiskManager F),
    exists (b : bool) (rm' : RiskManager F),
      check_circuit_breaker now rm = (Ok b, rm') /\
      circuit_breaker_active rm' = b /\
      book rm' = book rm /\
      b = breaker_holds now rm || daily_loss_hit rm || drawdown_hit rm
          || losing_streak rm.
Proof.
  intros now rm. breaker_cases now rm;
    eexists; eexists; (split; [reflexivity|]);
    rewrite ?Eactive; repeat split.
Qed.

(** X10.  An active breaker is cleared by the expiry of its timer and by nothing
    else: while it holds, the check changes nothing; when the check finds it
    active and leaves it inactive, the expiry has passed, the deactivation is
    logged and the expiry is reset. *)
Theorem breaker_cleared_only_by_expiry :
  forall (now : Z) (rm rm' : RiskManager F) (b : bool),
    check_circuit_breaker now rm = (Ok b, rm') ->
    circuit_breaker_active rm = true ->
    (breaker_holds now rm = true -> b = true /\ rm' = rm) /\
    (circuit_breaker_active rm' = false ->
     exists until,
       circuit_breaker_until rm = Some until /\ (until < now)%Z /\
       b = false /\
       circuit_breaker_until rm' = None /\
       log rm' = (log rm ++ [BreakerDeactivated])%list) /\
    (breaker_holds now rm = false ->
     exists until later,
       circuit_breaker_until rm = Some until /\ (until < now)%Z /\
       log rm' = (log rm ++ BreakerDeactivated :: later)%list).
Proof.
  intros now rm rm' b Hrun Hactive. revert Hrun.
  breaker_cases now rm; try discriminate; intros [= <- <-]; cbn;
    repeat split; try discriminate; try (intros; congruence);
    intros _;
    first [ eexists; repeat split; try reflexivity;
            apply Z.ltb_lt; exact Eexp
          | eexists; eexists; repeat split;
            [apply Z.ltb_lt; exact Eexp
            | rewrite <- ?app_assoc; reflexivity]
          | eexists; eexists; repeat split; apply Z.ltb_lt; exact Eexp ].
Qed.

(** X11.  The drawdown and losing-streak triggers: with the breaker not holding
    and the daily loss limit not reached, a drawdown at or above the maximum
    activates the breaker for 48 hours; failing that, five closed positions
    in a row with a negative realized P&L activate it for 12 hours. *)
Theorem drawdown_and_streak_triggers :
  forall (now : Z) (rm : RiskManager F),
    breaker_holds now rm = false ->
    daily_loss_hit rm = false ->
    (drawdown_hit rm = true ->
     exists rm' earlier,
       check_circuit_breaker now rm = (Ok true, rm') /\
       circuit_breaker_until rm' = Some (now + hours 48)%Z /\
       log rm' = (earlier ++ [BreakerActivated "Maximum drawdown reached"
                                (now + hours 48)%Z])%list) /\
    (drawdown_hit rm = false -> losing_streak rm = true ->
     exists rm' earlier,
       check_circuit_breaker now rm = (Ok true, rm') /\
       circuit_breaker_until rm' = Some (now + hours 12)%Z /\
       log rm' = (earlier ++ [BreakerActivated "5 consecutive losses"
                                (now + hours 12)%Z])%list) /\
    (drawdown_hit rm = false -> losing_streak rm = false ->
     exists rm',
       check_circuit_breaker now rm = (Ok false, rm') /\
       circuit_breaker_active rm' = false).
Proof.
  intros now rm. breaker_cases now rm; intros Hhold Hdaily;
    try discriminate;
    (split; [|split]); intros; try discriminate;
    first [ eexists; eexists; split; [reflexivity|]; split; [reflexivity|];
            cbn; reflexivity
          | eexists; split; [reflexivity|]; cbn; first [reflexivity|assumption] ].
Qed.

(** X12.  The verdict of [can_open_position]: refused with "Circuit breaker
    active" when the check answers [True]; otherwise refused for a symbol
    already open, then for five or more open positions, and accepted with
    "OK" in the remaining case.  The reasons "Daily loss limit reached" and
    "Maximum drawdown reached" are never returned: the check has already
    tripped the breaker for them. *)
Theorem can_open_position_verdict :
  forall (now : Z) (symbol : string) (rm : RiskManager F),
    exists (b : bool) (rm' : RiskManager F),
      check_circuit_breaker now rm = (Ok b, rm') /\
      can_open_position now symbol rm =
      (Ok (if b then (false, "Circuit breaker active")
           else if bool_decide (is_Some (positions rm !! symbol))
                then (false, "Position already open for this symbol")
                else if (5 <=? base.size (positions rm))%nat
                     then (false, "Maximum 5 positions already open")
                     else (true, "OK")),
       rm') /\
      (forall (ok : bool) (reason : string) (rm'' : RiskManager F),
          can_open_position now symbol rm = (Ok (ok, reason), rm'') ->
          reason <> "Daily loss limit reached" /\
          reason <> "Maximum drawdown reached" /\
          (ok = true <-> reason = "OK")).
Proof.
  intros now symbol rm.
  destruct (check_circuit_breaker_total now rm)
    as (b & rm' & Hcheck & Hpos & Hclear).
  exists b, rm'. split; [exact Hcheck|].
  assert (Hrun : can_open_position now symbol rm =
      (Ok (if b then (false, "Circuit breaker active")
           else if bool_decide (is_Some (positions rm !! symbol))
                then (false, "Position already open for this symbol")
                else if (5 <=? base.size (positions rm))%nat
                     then (false, "Maximum 5 positions already open")
                     else (true, "OK")),
       rm')).
  { unfold can_open_position, bindM, getM, retM. rewrite Hcheck.
    destruct b; [reflexivity|].
    destruct (Hclear eq_refl) as [Hd Hdd]. rewrite Hd, Hdd, Hpos.
    destruct (bool_decide (is_Some (positions rm !! symbol)));
      [reflexivity|].
    destruct (5 <=? base.size (positions rm))%nat; reflexivity. }
  split; [exact Hrun|].
  intros ok reason rm'' Hres. rewrite Hrun in Hres.
  destruct b;
    [|destruct (bool_decide (is_Some (positions rm !! symbol)));
      [|destruct (5 <=? base.size (positions rm))%nat]];
    injection Hres as <- <- _;
    (split; [discriminate|]); (split; [discriminate|]);
    split; intros H; try reflexivity; discriminate H.
Qed.
End BreakerMore.

Lemma breaker_cleared_only_by_expiry_witness :
  exists until later,
    circuit_breaker_until (tripped_manager (F := Q)) = Some until /\
    (until < 2000)%Z /\
    log (snd (check_circuit_breaker 2000 (tripped_manager (F := Q))))
    = (log (tripped_manager (F := Q)) ++ BreakerDeactivated :: later)%list.
Proof.
  pose proof (breaker_cleared_only_by_expiry 2000
                (tripped_manager (F := Q))
                (snd (check_circuit_breaker 2000 tripped_manager)) false)
    as H.
  specialize (H ltac:(vm_compute; reflexivity) ltac:(reflexivity)).
  apply (proj2 (proj2 H)). vm_compute. reflexivity.
Defined.

Lemma drawdown_and_streak_triggers_witness :
  exists rm' : RiskManager Q,
    check_circuit_breaker 0 default_manager = (Ok false, rm') /\
    circuit_breaker_active rm' = false.
Proof.
  pose proof (drawdown_and_streak_triggers 0 (default_manager (F := Q)))
    as H.
  specialize (H ltac:(vm_compute; reflexivity)
                ltac:(vm_compute; reflexivity)).
  apply (proj2 (proj2 H)); vm_compute; reflexivity.
Defined.

(** ** Trailing stop, continued *)

Section TrailingMore.
Context {F : Type} {N : PyNum F}.
Local Open Scope py_scope.

(** X13.  What a call of [update_trailing_stop] returns and touches: nothing when
    the symbol has no open position or trailing stops are disabled; otherwise
    only the [stop_loss] and [trailing_stop_active] attributes of that
    position can change, the value returned is the new stop exactly when the
    stop has been moved, and the only exception is the division by zero of
    [get_pnl_pct], which leaves the manager as it was. *)
Theorem update_trailing_stop_outcome :
  forall (symbol : string) (price : F) (rm : RiskManager F),
    (positions rm !! symbol = None ->
     update_trailing_stop symbol price rm = (Ok None, rm)) /\
    (enable_trailing_stop rm = false ->
     update_trailing_stop symbol price rm = (Ok None, rm)) /\
    (forall p, positions rm !! symbol = Some p ->
     exists r rm' p',
       update_trailing_stop symbol price rm = (r, rm') /\
       rm' = set_positions (<[symbol := p']> (positions rm)) rm /\
       p' = set_stop_loss (stop_loss p')
              (set_trailing_stop_active (trailing_stop_active p') p) /\
       match r with
       | Ok (Some new_stop) =>
           stop_loss p' = new_stop /\ trailing_stop_active p' = true
       | Ok None => stop_loss p' = stop_loss p
       | Raise ex =>
           ex = ZeroDivisionError /\ p' = p /\
           trailing_stop_active p = false
       end).
Proof.
  intros symbol price rm.
  assert (Hid : forall p : Position F,
             p = set_stop_loss (stop_loss p)
                   (set_trailing_stop_active (trailing_stop_active p) p))
    by (intros []; reflexivity).
  assert (Hsame : forall p, positions rm !! symbol = Some p ->
             rm = set_positions (<[symbol := p]> (positions rm)) rm).
  { intros p Hp. rewrite insert_id by exact Hp. destruct rm; reflexivity. }
  split; [|split].
  - intros Hnone. unfold update_trailing_stop, bindM, getM, retM.
    rewrite Hnone. reflexivity.
  - intros Hoff. unfold update_trailing_stop, bindM, getM, retM.
    rewrite Hoff. destruct (positions rm !! symbol); reflexivity.
  - intros p Hp.
    unfold update_trailing_stop, store_position,
      bindM, getM, retM, modifyM, liftM.
    rewrite Hp.
    destruct (enable_trailing_stop rm); cbn [negb];
      [|exists (Ok None), rm, p; repeat split; auto].
    destruct (trailing_stop_active p) eqn:Eact; cbn [negb].
    + rewrite Eact.
      destruct (String.eqb (side p) "long") eqn:Eside; split_ifs;
        first
          [ solve [exists (Ok None), rm, p; repeat split; auto]
          | eexists; eexists; eexists; split; [reflexivity|];
            split; [cbn; rewrite ?insert_insert_eq; reflexivity|];
            split; [destruct p; cbn in *; subst; reflexivity|];
            cbn; split; [reflexivity | exact Eact] ].
    + unfold get_pnl_pct, py_div.
      destruct (entry_price p == lit 0); cbn [rbind].
      * destruct (lit 2.0 <= lit 0.0) eqn:E2; cbn.
        -- destruct (String.eqb (side p) "long") eqn:Eside; split_ifs;
             eexists; eexists; eexists; (split; [reflexivity|]);
             (split; [cbn; rewrite ?insert_insert_eq; reflexivity|]);
             (split; [destruct p; cbn in *; subst; reflexivity|]);
             cbn; repeat split; reflexivity.
        -- rewrite Eact. exists (Ok None), rm, p; repeat split; auto.
      * destruct (entry_price p * size p == lit 0); cbn [rbind].
        -- exists (Raise ZeroDivisionError), rm, p. repeat split; auto.
        -- destruct (lit 2.0 <= _) eqn:E2; cbn.
           ++ destruct (String.eqb (side p) "long") eqn:Eside; split_ifs;
                eexists; eexists; eexists; (split; [reflexivity|]);
                (split; [cbn; rewrite ?insert_insert_eq; reflexivity|]);
                (split; [destruct p; cbn in *; subst; reflexivity|]);
                cbn; repeat split; reflexivity.
           ++ rewrite Eact. exists (Ok None), rm, p; repeat split; auto.
Qed.
End TrailingMore.

Section TrailingTick.
Local Open Scope Q_scope.

Lemma update_pnl_long (price : Q) (p : Position Q) :
  side p = "long" ->
  update_pnl price p
  = {| symbol := symbol p; side := side p; entry_price := entry_price p;
       size := size p; stop_loss := stop_loss p;
       take_profit := take_profit p; entry_time := entry_time p;
       unrealized_pnl := (price - entry_price p) * size p;
       realized_pnl := realized_pnl p;
       trailing_stop_active := trailing_stop_active p;
       highest_price :=
         if ltb (highest_price p) price then price else highest_price p;
       lowest_price := lowest_price p |}.
Proof. intros Hlong. unfold update_pnl. rewrite Hlong. reflexivity. Qed.

Lemma pnl_pct_long (price : Q) (p : Position Q) :
  side p = "long" -> ~ entry_price p == 0 -> ~ size p == 0 ->
  exists pct,
    get_pnl_pct (update_pnl price p) = Ok pct /\
    pct == (price - entry_price p) / entry_price p * 100.
Proof.
  intros Hlong He Hs. rewrite update_pnl_long by exact Hlong.
  unfold get_pnl_pct, py_div. cbn [entry_price size unrealized_pnl].
  assert (E0 : eqb (entry_price p) (lit 0) = false)
    by (apply Q_eqb_false; exact He).
  assert (E1 : eqb (mul (entry_price p) (size p)) (lit 0) = false).
  { apply Q_eqb_false. cbn [lit QNum mul]. intros H.
    apply Qmult_integral in H. tauto. }
  rewrite E0, E1. cbn [rbind]. eexists. split; [reflexivity|].
  cbn [lit QNum mul div]. field. split; assumption.
Qed.

End TrailingTick.


(** ** Market regime *)

Section RegimeFacts.
Context {F : Type} {N : PyNum F} {P : Pandas F}.
Local Open Scope py_scope.

Lemma classify_regime_labels df (rg : MarketRegime F) :
  classify_regime df = Ok rg ->
  In (volatility rg) ["high"; "low"; "medium"] /\
  In (trend rg) ["bullish"; "bearish"; "ranging"] /\
  In (volume rg) ["high"; "low"; "normal"] /\
  confidence rg
  = of_nat (Nat.b2n (has_col df "atr") + Nat.b2n (has_col df "ema_12") +
            Nat.b2n (has_col df "volume") + Nat.b2n (has_col df "rsi"))
    / lit 4.0.
Proof.
  unfold classify_regime.
  repeat match goal with
    | |- context [rbind (if ?c then _ else _) _] => destruct c
    | |- context [rbind (rbind ?x _) _] => destruct x; cbn [rbind]
    | |- context [rbind (Ok _) _] => cbn [rbind]
    | |- context [rbind (Raise _) _] => cbn [rbind]
    end; try discriminate;
  intros [= <-]; cbn [volatility trend volume confidence];
  split_ifs; cbn [In]; tauto.
Qed.

(** X15.  [detect_market_regime] never raises and always returns a regime made of
    the known labels; on success the confidence is a quarter of the number of
    the columns atr, ema_12, volume and rsi that the frame has, and the regime
    is appended to the history, which is cut to its last 100 entries; on any
    failure the regime is medium / ranging / normal with confidence 0.5 and
    the engine is left as it was. *)
Theorem detect_market_regime_total :
  forall (df : DataFrame F) (e : Engine F),
    exists (rg : MarketRegime F) (e' : Engine F),
      detect_market_regime df e = (Ok rg, e') /\
      In (volatility rg) ["high"; "low"; "medium"] /\
      In (trend rg) ["bullish"; "bearish"; "ranging"] /\
      In (volume rg) ["high"; "low"; "normal"] /\
      (classify_regime df = Ok rg ->
       confidence rg
       = of_nat (Nat.b2n (has_col df "atr") + Nat.b2n (has_col df "ema_12") +
                 Nat.b2n (has_col df "volume") + Nat.b2n (has_col df "rsi"))
         / lit 4.0 /\
       regime_history e' = tail_n 100 (regime_history e ++ [rg]) /\
       last (regime_history e') = Some rg /\
       (length (regime_history e') <= 100)%nat) /\
      (forall ex, classify_regime df = Raise ex ->
                  rg = default_regime /\ e' = e).
Proof.
  intros df e.
  unfold detect_market_regime, try_except, bindM, liftM, modifyM, retM.
  destruct (classify_regime df) as [rg|ex] eqn:Hc; cbn [fst snd].
  - destruct (classify_regime_labels df rg Hc) as (Hv & Ht & Hvo & Hconf).
    exists rg. eexists. split; [reflexivity|].
    split; [exact Hv|]. split; [exact Ht|]. split; [exact Hvo|].
    split; [|intros ex H; discriminate H].
    intros _. split; [exact Hconf|]. cbn [regime_history set_regime_history].
    assert (Hwin : (if (100 <? length (regime_history e ++ [rg]))%nat
                    then tail_n 100 (regime_history e ++ [rg])
                    else (regime_history e ++ [rg])%list)
                   = tail_n 100 (regime_history e ++ [rg])).
    { destruct (100 <? length (regime_history e ++ [rg]))%nat eqn:E;
        [reflexivity|].
      apply Nat.ltb_ge in E. unfold tail_n.
      replace (length (regime_history e ++ [rg]) - 100)%nat with 0%nat by lia.
      reflexivity. }
    rewrite Hwin. split; [reflexivity|]. unfold tail_n. split.
    + set (h := (regime_history e ++ [rg])%list).
      assert (Hlast : last h = Some rg) by (unfold h; apply last_snoc).
      assert (Hlen : (0 < length h)%nat)
        by (unfold h; rewrite length_app; cbn; lia).
      destruct (last (skipn (length h - 100) h)) as [y|] eqn:Es.
      * rewrite <- (firstn_skipn (length h - 100) h) in Hlast.
        rewrite last_app, Es in Hlast. exact Hlast.
      * apply last_None in Es. apply (f_equal length) in Es.
        rewrite length_skipn in Es. cbn in Es. lia.
    + rewrite length_skipn. lia.
  - exists default_regime, e. split; [reflexivity|].
    cbn [default_regime volatility trend volume In].
    split; [tauto|]. split; [tauto|]. split; [tauto|].
    split; [intros H; discriminate H|]. intros ex0 _. split; reflexivity.
Qed.
End RegimeFacts.

Section Thresholds.
Local Open Scope Q_scope.

(** X16.  The RSI thresholds after the volatility adjustment, for base thresholds
    with 20 <= oversold <= 35 and 65 <= overbought <= 80 (the defaults are 30
    and 70): in high volatility the band widens, by at most 10 on each side
    and never beyond 20 and 80; in low volatility it narrows, by at most 5 on
    each side and never beyond 35 and 65; otherwise, and when the adjustment
    is switched off, the base thresholds are used. *)
Theorem adjusted_thresholds_band :
  forall (e : Engine Q) (rg : MarketRegime Q),
    20 <= base_rsi_oversold e <= 35 ->
    65 <= base_rsi_overbought e <= 80 ->
    let thresholds := adjust_thresholds_for_volatility e rg in
    let oversold := fst thresholds in
    let overbought := snd thresholds in
    20 <= oversold <= 35 /\ 65 <= overbought <= 80 /\
    (volatility_adjustment e = false ->
     thresholds = (base_rsi_oversold e, base_rsi_overbought e)) /\
    (volatility_adjustment e = true ->
     (volatility rg = "high" ->
      oversold == Qmax 20 (base_rsi_oversold e - 10) /\
      overbought == Qmin 80 (base_rsi_overbought e + 10) /\
      oversold <= base_rsi_oversold e /\
      base_rsi_overbought e <= overbought) /\
     (volatility rg = "low" ->
      oversold == Qmin 35 (base_rsi_oversold e + 5) /\
      overbought == Qmax 65 (base_rsi_overbought e - 5) /\
      base_rsi_oversold e <= oversold /\
      overbought <= base_rsi_overbought e) /\
     (volatility rg <> "high" -> volatility rg <> "low" ->
      thresholds = (base_rsi_oversold e, base_rsi_overbought e))).
Proof.
  intros e rg Hos Hob thresholds oversold overbought.
  subst oversold overbought thresholds.
  unfold adjust_thresholds_for_volatility.
  pose proof (py_max_Q 20 (base_rsi_oversold e - 10)) as M1.
  pose proof (py_min_Q 80 (base_rsi_overbought e + 10)) as M2.
  pose proof (py_min_Q 35 (base_rsi_oversold e + 5)) as M3.
  pose proof (py_max_Q 65 (base_rsi_overbought e - 5)) as M4.
  pose proof (Q.max_spec 20 (base_rsi_oversold e - 10)) as S1.
  pose proof (Q.min_spec 80 (base_rsi_overbought e + 10)) as S2.
  pose proof (Q.min_spec 35 (base_rsi_oversold e + 5)) as S3.
  pose proof (Q.max_spec 65 (base_rsi_overbought e - 5)) as S4.
  destruct (volatility_adjustment e); cbn [negb].
  - destruct (String.eqb_spec (volatility rg) "high") as [Hhigh|Hhigh];
      [|destruct (String.eqb_spec (volatility rg) "low") as [Hlow|Hlow]];
      cbn [fst snd lit QNum add sub] in *.
    + split; [lra|]. split; [lra|]. split; [intros H; discriminate H|].
      intros _. split; [intros _; repeat split; lra|].
      split; [intros H; rewrite Hhigh in H; discriminate H|].
      intros H; contradiction.
    + split; [lra|]. split; [lra|]. split; [intros H; discriminate H|].
      intros _. split; [intros H; contradiction|].
      split; [intros _; repeat split; lra|].
      intros _ H; contradiction.
    + split; [lra|]. split; [lra|]. split; [intros H; discriminate H|].
      intros _. split; [intros H; contradiction|].
      split; [intros H; contradiction|]. reflexivity.
  - cbn [fst snd]. split; [lra|]. split; [lra|].
    split; [reflexivity | intros H; discriminate H].
Qed.
End Thresholds.

Lemma adjusted_thresholds_band_witness :
  (20 <= fst (adjust_thresholds_for_volatility
                (new_engine 30 70 true true) busy_regime) <= 35)%Q.
Proof.
  pose proof (adjusted_thresholds_band (new_engine 30%Q 70%Q true true)
                busy_regime) as H.
  specialize (H ltac:(split; decide_closed) ltac:(split; decide_closed)).
  cbv zeta in H. exact (proj1 H).
Defined.

(** ** Regime statistics *)

Section CountFacts.

Lemma dict_get_keys {V} (k : string) (d : dict V) :
  dict_get k d = None <-> ~ In k (map fst d).
Proof.
  induction d as [|[k' v'] rest IH]; cbn; [tauto|].
  destruct (String.eqb_spec k k') as [->|Hne].
  - split; [discriminate | intros H; exfalso; apply H; left; reflexivity].
  - rewrite IH. split.
    + intros H [Heq|Hin]; [congruence | tauto].
    + intros H Hin. apply H. right. exact Hin.
Qed.

Lemma dict_set_total (k : string) (d : dict nat) :
  total_count (dict_set k (default 0 (dict_get k d) + 1) d)%nat
  = S (total_count d).
Proof.
  unfold total_count, dict_values.
  induction d as [|[k' v'] rest IH]; cbn; [reflexivity|].
  destruct (String.eqb k k'); cbn; [lia | rewrite IH; lia].
Qed.

Lemma dict_set_keys {V} (k : string) (v : V) (d : dict V) :
  map fst (dict_set k v d)
  = match dict_get k d with
    | Some _ => map fst d
    | None => (map fst d ++ [k])%list
    end.
Proof.
  induction d as [|[k' v'] rest IH]; cbn; [reflexivity|].
  destruct (String.eqb k k'); cbn; [reflexivity|].
  rewrite IH. destruct (dict_get k rest); reflexivity.
Qed.

Lemma dict_set_positive (k : string) (d : dict nat) :
  Forall (fun v => 1 <= v)%nat (dict_values d) ->
  Forall (fun v => 1 <= v)%nat
    (dict_values (dict_set k (default 0 (dict_get k d) + 1) d)%nat).
Proof.
  unfold dict_values.
  induction d as [|[k' v'] rest IH]; cbn; intros HF.
  - repeat constructor.
  - inversion HF as [|? ? Hv Hrest]; subst.
    destruct (String.eqb k k'); cbn.
    + constructor; [lia | exact Hrest].
    + constructor; [exact Hv | apply IH; exact Hrest].
Qed.

(** What the counting loop keeps: the counts add up to the number of labels
    read, every count is positive, and the keys are the distinct labels. *)
Lemma count_labels_spec (labels : list string) :
  total_count (count_labels labels) = length labels /\
  Forall (fun v => 1 <= v)%nat (dict_values (count_labels labels)) /\
  NoDup (map fst (count_labels labels)) /\
  (forall k, In k (map fst (count_labels labels)) <-> In k labels).
Proof.
  unfold count_labels.
  assert (G : forall (acc : dict nat) (seen : list string),
             total_count acc = length seen ->
             Forall (fun v => 1 <= v)%nat (dict_values acc) ->
             NoDup (map fst acc) ->
             (forall k, In k (map fst acc) <-> In k seen) ->
             let counts :=
               fold_left
                 (fun counts label =>
                    dict_set label
                      (default 0%nat (dict_get label counts) + 1)%nat counts)
                 labels acc in
             total_count counts = length (seen ++ labels) /\
             Forall (fun v => 1 <= v)%nat (dict_values counts) /\
             NoDup (map fst counts) /\
             (forall k, In k (map fst counts) <-> In k (seen ++ labels))).
  { induction labels as [|label rest IH]; intros acc seen Ht Hp Hn Hk; cbn.
    - rewrite app_nil_r. repeat split; try assumption; apply Hk.
    - replace (seen ++ label :: rest)%list
        with ((seen ++ [label]) ++ rest)%list
        by (rewrite <- app_assoc; reflexivity).
      apply IH.
      + rewrite dict_set_total, length_app, Ht. cbn. lia.
      + apply dict_set_positive. exact Hp.
      + rewrite dict_set_keys.
        destruct (dict_get label acc) eqn:E; [exact Hn|].
        apply dict_get_keys in E.
        apply NoDup_app. split; [exact Hn|]. split.
        * intros x Hx Hin. apply list_elem_of_singleton in Hin. subst x.
          apply E. apply list_elem_of_In. exact Hx.
        * apply NoDup_singleton.
      + intros k. rewrite dict_set_keys, in_app_iff. cbn [In].
        destruct (dict_get label acc) eqn:E.
        * assert (Hin : In label (map fst acc)).
          { destruct (in_dec String.string_dec label (map fst acc))
              as [H|H]; [exact H|].
            apply dict_get_keys in H. congruence. }
          rewrite Hk. split; [tauto|].
          intros [H|[<-|[]]]; [exact H | apply Hk; exact Hin].
        * rewrite in_app_iff, Hk. cbn [In]. tauto. }
  destruct (G [] [] eq_refl (List.Forall_nil _) (NoDup_nil_2) (fun k => iff_refl _))
    as (H1 & H2 & H3 & H4).
  repeat split; try assumption; apply H4.
Qed.
End CountFacts.

Section StatisticsExact.
Local Open Scope Q_scope.

Lemma shares_sum (total : nat) (vs : list nat) :
  (0 < total)%nat ->
  fold_right Qplus 0
    (map (fun v : nat => of_nat v / of_nat total) vs)
  == inject_Z (Z.of_nat (fold_right Nat.add 0%nat vs))
     / inject_Z (Z.of_nat total).
Proof.
  intros Hpos.
  assert (HT : ~ inject_Z (Z.of_nat total) == 0).
  { intros H. assert (Hlt : inject_Z 0 < inject_Z (Z.of_nat total))
      by (rewrite <- Zlt_Qlt; lia).
    change (inject_Z 0) with 0 in Hlt. lra. }
  induction vs as [|v rest IH]; cbn [map fold_right].
  - cbn. field. exact HT.
  - rewrite IH. unfold of_nat. cbn [lit QNum div].
    rewrite Nat2Z.inj_add, inject_Z_plus. field. exact HT.
Qed.

Lemma counts_below_total (vs : list nat) :
  Forall (fun v => v <= fold_right Nat.add 0 vs)%nat vs.
Proof.
  induction vs as [|v rest IH]; constructor; cbn [fold_right]; [lia|].
  eapply List.Forall_impl; [|exact IH]. cbn. intros; lia.
Qed.

Lemma distribution_spec (labels : list string) :
  labels <> [] ->
  distribution_of labels (distribution (length labels) (count_labels labels)).
Proof.
  intros Hne.
  assert (Hpos : (0 < length labels)%nat)
    by (destruct labels; [congruence | cbn; lia]).
  destruct (count_labels_spec labels) as (Htotal & Hone & Hnodup & Hkeys).
  assert (HT : 0 < inject_Z (Z.of_nat (length labels))).
  { change 0 with (inject_Z 0). rewrite <- Zlt_Qlt. lia. }
  assert (Hvalues : dict_values (distribution (length labels)
                                   (count_labels labels))
                    = map (fun v : nat => of_nat v / of_nat (length labels))
                          (dict_values (count_labels labels))).
  { unfold distribution, dict_values. rewrite !map_map. reflexivity. }
  assert (Hfst : map fst (distribution (F := Q) (length labels)
                             (count_labels labels))
                 = map fst (count_labels labels)).
  { unfold distribution. rewrite map_map. reflexivity. }
  unfold distribution_of. rewrite Hvalues, Hfst.
  split; [|split; [|split]].
  - rewrite py_sum_fold_right, shares_sum by exact Hpos.
    unfold total_count in Htotal. rewrite Htotal. field. lra.
  - pose proof (counts_below_total (dict_values (count_labels labels)))
      as Hle.
    unfold total_count in Htotal. rewrite Htotal in Hle.
    apply List.Forall_map.
    eapply List.Forall_impl; [|apply List.Forall_and; [exact Hone | exact Hle]].
    cbn beta. intros v [H1 H2]. unfold of_nat. cbn [lit QNum div].
    assert (Hv : inject_Z 1 <= inject_Z (Z.of_nat v))
      by (rewrite <- Zle_Qle; lia).
    assert (Hv' : inject_Z (Z.of_nat v) <= inject_Z (Z.of_nat (length labels)))
      by (rewrite <- Zle_Qle; lia).
    change (inject_Z 1) with 1 in Hv.
    split; [apply Qlt_shift_div_l; lra | apply Qle_shift_div_r; lra].
  - apply NoDup_ListNoDup. exact Hnodup.
  - exact Hkeys.
Qed.

End StatisticsExact.

(** ** Component signals and strength *)

Section SignalRanges.
Context {P : Pandas Q}.
Local Open Scope Q_scope.

Lemma rsi_signal_range (df : DataFrame Q) (oversold overbought s : Q)
    (r : reason Q) :
  0 < oversold -> oversold < overbought -> overbought < 100 ->
  (forall rsi_col rsi, df !! "rsi" = Some rsi_col ->
                       iloc_last rsi_col = Ok rsi -> 0 <= rsi <= 100) ->
  calculate_rsi_signal df oversold overbought = Ok (s, r) ->
  -1 <= s <= 1 /\
  (forall rsi, r = RsiOversold rsi oversold -> 0 < s) /\
  (forall rsi, r = RsiOverbought rsi overbought -> s < 0) /\
  (forall rsi, r = RsiNeutral rsi -> -(1#4) <= s <= 1#4).
Proof.
  intros Hos Hlt Hob Hrsi. unfold calculate_rsi_signal, has_col, col.
  destruct (df !! "rsi") as [rsi_col|] eqn:Hcol; cbn [negb rbind].
  2:{ intros [= <- <-]. cbn [lit QNum]. repeat split; try lra;
      intros; discriminate. }
  destruct (iloc_last rsi_col) as [rsi|] eqn:Hlast; cbn [rbind];
    [|discriminate].
  specialize (Hrsi rsi_col rsi eq_refl Hlast).
  destruct (ltb rsi oversold) eqn:E1.
  - apply Q_ltb_iff in E1. intros [= <- <-]. cbn [sub div QNum].
    assert (B : 0 <= (oversold - rsi) / oversold <= 1)
      by (apply Qdiv_bounds; lra).
    assert (B' : 0 < (oversold - rsi) / oversold)
      by (apply Qlt_shift_div_l; lra).
    repeat split; try lra; intros; try discriminate; assumption.
  - apply Q_ltb_false in E1. destruct (ltb overbought rsi) eqn:E2.
    + apply Q_ltb_iff in E2. intros [= <- <-].
      cbn [sub div opp lit QNum].
      assert (B : -1 <= - (rsi - overbought) / (100 - overbought) <= 0)
        by (apply Qdiv_bounds; lra).
      assert (B' : 0 < (rsi - overbought) / (100 - overbought))
        by (apply Qlt_shift_div_l; lra).
      assert (E : - (rsi - overbought) / (100 - overbought)
                  == - ((rsi - overbought) / (100 - overbought)))
        by (field; lra).
      repeat split; try lra; intros; try discriminate. rewrite E. lra.
    + apply Q_ltb_false in E2. intros [= <- <-].
      cbn [sub div add mul lit QNum].
      assert (B : -(1#2) <= ((oversold + overbought) / 2 - rsi)
                            / (overbought - oversold) <= 1#2).
      { apply Qdiv_bounds; [lra| |].
        - assert (E : (oversold + overbought) / 2
                      == (oversold + overbought) * (1#2)) by field.
          rewrite E. lra.
        - assert (E : (oversold + overbought) / 2
                      == (oversold + overbought) * (1#2)) by field.
          rewrite E. lra. }
      repeat split; intros; try discriminate; lra.
Qed.

Lemma macd_magnitude (d : Q) :
  0 <= py_min (lit 0.6) (mul (pabs d) (lit 10)) <= 0.6.
Proof.
  change (0 <= py_min 0.6 (Qabs d * 10) <= 0.6).
  apply py_min_cap; [lra|]. pose proof (Qabs_nonneg d). lra.
Qed.

Lemma macd_signal_range (df : DataFrame Q) (s : Q) (r : reason Q) :
  calculate_macd_signal df = Ok (s, r) -> -(8#10) <= s <= 8#10.
Proof.
  unfold calculate_macd_signal, has_col, col.
  destruct (df !! "macd") as [macd_col|]; cbn [negb orb rbind];
    [|ok_inv; cbn [lit QNum]; lra].
  destruct (df !! "macd_signal") as [signal_col|]; cbn [negb orb rbind];
    [|ok_inv; cbn [lit QNum]; lra].
  destruct (iloc_last macd_col) as [macd|]; cbn [rbind]; [|discriminate].
  destruct (iloc_last signal_col) as [macd_signal|]; cbn [rbind];
    [|discriminate].
  destruct (iloc_prev macd_col); cbn [rbind]; [|discriminate].
  destruct (iloc_prev signal_col); cbn [rbind]; [|discriminate].
  split_ifs; cbv zeta; ok_inv;
    try (cbn [lit QNum opp]; lra);
    pose proof (macd_magnitude (sub macd macd_signal));
    cbn [opp QNum]; lra.
Qed.

Lemma bollinger_signal_range (df : DataFrame Q) (s : Q) (r : reason Q) :
  calculate_bollinger_signal df = Ok (s, r) ->
  In s [0.7; -0.7; 0.3; -0.3; 0.0] /\ -(7#10) <= s <= 7#10.
Proof.
  unfold calculate_bollinger_signal, has_col, col.
  destruct (df !! "bb_upper") as [upper_col|]; cbn [negb orb rbind];
    [|ok_inv; cbn [lit QNum In]; split; [tauto|lra]].
  destruct (df !! "bb_lower") as [lower_col|]; cbn [negb orb rbind];
    [|ok_inv; cbn [lit QNum In]; split; [tauto|lra]].
  destruct (df !! "close") as [close_col|]; cbn [rbind]; [|discriminate].
  destruct (iloc_last close_col); cbn [rbind]; [|discriminate].
  destruct (iloc_last upper_col); cbn [rbind]; [|discriminate].
  destruct (df !! "bb_middle") as [middle_col|]; cbn [rbind];
    [|discriminate].
  destruct (iloc_last middle_col); cbn [rbind]; [|discriminate].
  destruct (iloc_last lower_col); cbn [rbind]; [|discriminate].
  split_ifs; cbv zeta; ok_inv; cbn [lit QNum opp In]; (split; [tauto|lra]).
Qed.

Lemma ema_signal_range (df : DataFrame Q) (s : Q) (r : reason Q) :
  (forall slow_col ema_slow, df !! "ema_26" = Some slow_col ->
                             iloc_last slow_col = Ok ema_slow ->
                             0 < ema_slow) ->
  calculate_ema_trend_signal df = Ok (s, r) -> -(9#10) <= s <= 9#10.
Proof.
  intros Hslow. unfold calculate_ema_trend_signal, has_col, col.
  destruct (df !! "ema_12") as [fast_col|] eqn:Hf; cbn [negb orb rbind];
    [|ok_inv; cbn [lit QNum]; lra].
  destruct (df !! "ema_26") as [slow_col|] eqn:Hs; cbn [negb orb rbind];
    [|ok_inv; cbn [lit QNum]; lra].
  destruct (iloc_last fast_col) as [ema_fast|]; cbn [rbind]; [|discriminate].
  destruct (iloc_last slow_col) as [ema_slow|] eqn:Hl; cbn [rbind];
    [|discriminate].
  specialize (Hslow slow_col ema_slow eq_refl Hl).
  destruct (df !! "close") as [close_col|]; cbn [rbind]; [|discriminate].
  destruct (iloc_last close_col); cbn [rbind]; [|discriminate].
  destruct (iloc_prev fast_col); cbn [rbind]; [|discriminate].
  destruct (iloc_prev slow_col); cbn [rbind]; [|discriminate].
  destruct (ltb ema_slow ema_fast && leb _ _) eqn:E1;
    [ok_inv; cbn [lit QNum]; lra|].
  destruct (ltb ema_fast ema_slow && leb _ _) eqn:E2;
    [ok_inv; cbn [lit QNum opp]; lra|].
  destruct (ltb ema_slow ema_fast) eqn:E3.
  - apply Q_ltb_iff in E3. ok_inv.
    cbn [lit QNum sub mul div].
    assert (B : 0 <= py_min 0.7 ((ema_fast - ema_slow) / ema_slow * 100 / 5)
                <= 0.7).
    { apply py_min_cap; [lra|].
      assert (0 <= (ema_fast - ema_slow) / ema_slow)
        by (apply Qle_shift_div_l; lra).
      assert (E : (ema_fast - ema_slow) / ema_slow * 100 / 5
                  == (ema_fast - ema_slow) / ema_slow * 20) by (field; lra).
      rewrite E. lra. }
    lra.
  - apply Q_ltb_false in E3. ok_inv.
    cbn [lit QNum sub mul div opp].
    assert (B : 0 <= py_min 0.7 ((ema_slow - ema_fast) / ema_slow * 100 / 5)
                <= 0.7).
    { apply py_min_cap; [lra|].
      assert (0 <= (ema_slow - ema_fast) / ema_slow)
        by (apply Qle_shift_div_l; lra).
      assert (E : (ema_slow - ema_fast) / ema_slow * 100 / 5
                  == (ema_slow - ema_fast) / ema_slow * 20) by (field; lra).
      rewrite E. lra. }
    lra.
Qed.

Lemma volume_signal_range (df : DataFrame Q) (s : Q) (r : reason Q) :
  calculate_volume_signal df = Ok (s, r) -> -(8#10) <= s <= 8#10.
Proof.
  unfold calculate_volume_signal, has_col, col.
  destruct (df !! "volume") as [volume_col|]; cbn [negb rbind];
    [|ok_inv; cbn [lit QNum]; lra].
  destruct (iloc_last volume_col) as [v|]; cbn [rbind]; [|discriminate].
  destruct (iloc_last (rolling_mean 20 volume_col)) as [avg|]; cbn [rbind];
    [|discriminate].
  destruct (eqb avg (lit 0)); [ok_inv; cbn [lit QNum]; lra|].
  destruct (df !! "close") as [close_col|]; cbn [rbind]; [|discriminate].
  destruct (iloc_last (pct_change close_col)) as [change|]; cbn [rbind];
    [|discriminate].
  destruct (ltb (lit 1.5) (div v avg)) eqn:E1.
  - apply Q_ltb_iff in E1. cbn [lit QNum div] in E1.
    assert (B : 0 <= py_min 0.8 (v / avg * 0.3) <= 0.8)
      by (apply py_min_cap; lra).
    destruct (ltb (lit 0) change); ok_inv;
      cbn [lit QNum div mul opp]; lra.
  - destruct (ltb (div v avg) (lit 0.7)); ok_inv;
      cbn [lit QNum]; lra.
Qed.

(** The accumulation of [weighted_sums] keeps the score within the total
    weight. *)
Lemma weighted_sums_range (weights signals : dict Q) (acc : Q * Q) :
  (forall k, 0 <= default 0 (dict_get k weights)) ->
  Forall (fun cs : string * Q => -1 <= snd cs <= 1) signals ->
  - snd acc <= fst acc <= snd acc ->
  let sums :=
    fold_left
      (fun (acc : Q * Q) (cs : string * Q) =>
         let weight := default (lit 0) (dict_get (fst cs) weights) in
         (add (fst acc) (mul (snd cs) weight), add (snd acc) weight))
      signals acc in
  - snd sums <= fst sums <= snd sums.
Proof.
  intros Hw Hs. revert acc.
  induction Hs as [|[k s] rest Hk Hrest IH]; intros acc Hacc; cbn [fold_left].
  - exact Hacc.
  - apply IH. cbn [fst snd add mul lit QNum] in *.
    pose proof (Hw k) as Hwk.
    set (w := default 0 (dict_get k weights)) in *.
    assert (0 <= (1 - s) * w) by (apply Qmult_le_0_compat; lra).
    assert (0 <= (1 + s) * w) by (apply Qmult_le_0_compat; lra).
    lra.
Qed.

Lemma weighted_score_range (weights signals : dict Q) :
  (forall k, 0 <= default 0 (dict_get k weights)) ->
  Forall (fun cs : string * Q => -1 <= snd cs <= 1) signals ->
  -1 <= weighted_score weights signals <= 1.
Proof.
  intros Hw Hs. unfold weighted_score, weighted_sums.
  pose proof (weighted_sums_range weights signals (lit 0.0, lit 0.0) Hw Hs)
    as H.
  cbv zeta in H.
  set (sums := fold_left _ signals (lit 0.0, lit 0.0)) in *.
  assert (H0 : - snd sums <= fst sums <= snd sums)
    by (apply H; cbn; lra).
  clear H. destruct (ltb (lit 0) (snd sums)) eqn:E.
  - apply Q_ltb_iff in E. cbn [lit QNum] in E. cbn [div QNum].
    apply Qdiv_bounds; lra.
  - apply Q_ltb_false in E. cbn [lit QNum] in E. lra.
Qed.

(** The thresholds handed to [calculate_rsi_signal]. *)
Lemma adjusted_thresholds_ordered (e : Engine Q) (rg : MarketRegime Q) :
  0 < base_rsi_oversold e -> base_rsi_oversold e < base_rsi_overbought e ->
  base_rsi_overbought e < 100 ->
  10 < base_rsi_overbought e -> base_rsi_oversold e < 90 ->
  let thresholds := adjust_thresholds_for_volatility e rg in
  0 < fst thresholds /\ fst thresholds < snd thresholds /\
  snd thresholds < 100.
Proof.
  intros H0 Hlt H100 H10 H90. unfold adjust_thresholds_for_volatility.
  destruct (negb (volatility_adjustment e)); [cbn [fst snd]; lra|].
  destruct (String.eqb (volatility rg) "high");
    [|destruct (String.eqb (volatility rg) "low")];
    cbn [fst snd lit QNum add sub]; rewrite ?py_max_Q, ?py_min_Q;
    [| |lra].
  - pose proof (Q.le_max_l 20 (base_rsi_oversold e - 10)).
    pose proof (Q.le_min_l 80 (base_rsi_overbought e + 10)).
    split; [lra|]. split; [|lra].
    apply Q.max_lub_lt; apply Q.min_glb_lt; lra.
  - pose proof (Q.le_min_l 35 (base_rsi_oversold e + 5)).
    pose proof (Q.le_max_l 65 (base_rsi_overbought e - 5)).
    split; [apply Q.min_glb_lt; lra|]. split; [lra|].
    apply Q.max_lub_lt; lra.
Qed.

Lemma dict_get_Forall {V} (R : V -> Prop) (d : dict V) (k : string) (v : V) :
  Forall R (dict_values d) -> dict_get k d = Some v -> R v.
Proof.
  induction d as [|[k' v'] rest IH]; cbn; [discriminate|].
  intros HF. inversion HF as [|? ? Hv Hrest]; subst.
  destruct (String.eqb k k'); [intros [= <-]; exact Hv | apply IH; exact Hrest].
Qed.

(** The weights the engine works with are never negative. *)
Lemma adjusted_weights_nonneg (rg : MarketRegime Q) (ml : bool)
    (rules weights : dict Q) :
  regime_rules rg (initial_weights ml) = Ok rules ->
  normalize (py_sum (dict_values rules)) rules = Ok weights ->
  forall k, 0 <= default 0 (dict_get k weights).
Proof.
  intros Hrules Hnorm.
  assert (HF : Forall (fun w => 0 <= w) (dict_values weights)).
  { destruct rg as [v t vo c]. revert Hrules Hnorm.
    regime_cases v t vo; destruct ml;
      intros Hrules Hnorm; vm_compute in Hrules;
      apply Ok_inv in Hrules; subst rules;
      vm_compute in Hnorm; apply Ok_inv in Hnorm; subst weights;
      repeat constructor; discriminate. }
  intros k. destruct (dict_get k weights) as [w|] eqn:Hk; cbn [default].
  - exact (dict_get_Forall _ _ _ _ HF Hk).
  - lra.
Qed.

Lemma combine_signals_components (self : Engine Q) (rg : MarketRegime Q)
    (df : DataFrame Q) (ml : option (dict Q)) (sig : AdaptiveSignal Q) :
  (let thresholds := adjust_thresholds_for_volatility self rg in
   0 < fst thresholds /\ fst thresholds < snd thresholds /\
   snd thresholds < 100) ->
  (forall rsi_col rsi, df !! "rsi" = Some rsi_col ->
                       iloc_last rsi_col = Ok rsi -> 0 <= rsi <= 100) ->
  (forall slow_col ema_slow, df !! "ema_26" = Some slow_col ->
                             iloc_last slow_col = Ok ema_slow ->
                             0 < ema_slow) ->
  (forall d, ml = Some d ->
             -1 <= default 0 (dict_get "signal" d) <= 1 /\
             0 <= default 0.5 (dict_get "confidence" d) <= 1) ->
  combine_signals self rg df ml = Ok sig ->
  map fst (components sig)
  = ["rsi"; "macd"; "bollinger"; "ema_trend"; "volume"; "ml_prediction"] /\
  Forall (fun cs : string * Q => -1 <= snd cs <= 1) (components sig).
Proof.
  intros (T0 & Tlt & T100) Hrsi Hslow Hml. unfold combine_signals.
  destruct (calculate_rsi_signal df _ _) as [[s1 r1]|] eqn:E1; cbn [rbind];
    [|discriminate].
  destruct (calculate_macd_signal df) as [[s2 r2]|] eqn:E2; cbn [rbind];
    [|discriminate].
  destruct (calculate_bollinger_signal df) as [[s3 r3]|] eqn:E3;
    cbn [rbind]; [|discriminate].
  destruct (calculate_ema_trend_signal df) as [[s4 r4]|] eqn:E4;
    cbn [rbind]; [|discriminate].
  destruct (calculate_volume_signal df) as [[s5 r5]|] eqn:E5; cbn [rbind];
    [|discriminate].
  intros H. apply Ok_inv in H. subst sig. cbn [components map fst snd].
  split; [reflexivity|].
  pose proof (proj1 (rsi_signal_range _ _ _ _ _ T0 Tlt T100 Hrsi E1)) as B1.
  pose proof (macd_signal_range _ _ _ E2) as B2.
  pose proof (proj2 (bollinger_signal_range _ _ _ E3)) as B3.
  pose proof (ema_signal_range _ _ _ Hslow E4) as B4.
  pose proof (volume_signal_range _ _ _ E5) as B5.
  repeat constructor; cbn [snd]; try lra.
  - destruct ml as [[|entry rest]|]; cbn [fst lit QNum]; try lra.
    destruct (ml_enabled self); cbn [fst lit QNum]; try lra.
    destruct (Hml _ eq_refl) as [Hs Hc].
    pose proof (product_range _ _ Hs Hc) as B. cbn [lit QNum mul] in *. lra.
  - destruct ml as [[|entry rest]|]; cbn [fst lit QNum]; try lra.
    destruct (ml_enabled self); cbn [fst lit QNum]; try lra.
    destruct (Hml _ eq_refl) as [Hs Hc].
    pose proof (product_range _ _ Hs Hc) as B. cbn [lit QNum mul] in *. lra.
Qed.
End SignalRanges.

Section SignalTheorems.
Local Open Scope Q_scope.



(** X19.  The strength of the signal that [generate_ensemble_signal] returns is
    between 0 and 100, for an engine built by [__init__] with thresholds
    0 < oversold < overbought < 100 (oversold below 90 and overbought above
    10), a frame whose RSI is between 0 and 100 and whose slow EMA is
    positive, and a model prediction with a signal in [-1, 1] and a confidence
    in [0, 1]. *)
Theorem signal_strength_between_0_and_100 :
  forall (df : DataFrame Q) (ml : option (dict Q)) (e : Engine Q)
         (ml_on : bool),
    base_weights e = initial_weights ml_on ->
    0 < base_rsi_oversold e -> base_rsi_oversold e < base_rsi_overbought e ->
    base_rsi_overbought e < 100 ->
    10 < base_rsi_overbought e -> base_rsi_oversold e < 90 ->
    (forall rsi_col rsi, df !! "rsi" = Some rsi_col ->
                         iloc_last rsi_col = Ok rsi -> 0 <= rsi <= 100) ->
    (forall slow_col ema_slow, df !! "ema_26" = Some slow_col ->
                               iloc_last slow_col = Ok ema_slow ->
                               0 < ema_slow) ->
    (forall d, ml = Some d ->
               -1 <= default 0 (dict_get "signal" d) <= 1 /\
               0 <= default 0.5 (dict_get "confidence" d) <= 1) ->
    forall P : Pandas Q,
    exists sig e',
      generate_ensemble_signal df ml e = (Ok sig, e') /\
      0 <= strength sig <= 100.
Proof.
  intros df ml e ml_on Hbase H0 Hlt H100 H10 H90 Hrsi Hslow Hml P.
  rewrite generate_ensemble_signal_run.
  eexists; eexists. split; [reflexivity|].
  destruct (ensemble_run df ml e) as (e1 & _ & -> & _). cbn [fst].
  set (rg := match classify_regime df with
             | Ok r => r | Raise _ => default_regime end).
  cbv zeta. rewrite Hbase.
  destruct (regime_rules rg (initial_weights ml_on)) as [rules|ex] eqn:Hrules;
    cbn [rbind]; [|cbn; lra].
  destruct (normalize (py_sum (dict_values rules)) rules) as [weights|ex]
    eqn:Hnorm; cbn [rbind]; [|cbn; lra].
  destruct (combine_signals (set_current_weights weights e) rg df ml)
    as [sig|ex] eqn:Hsig; [|cbn; lra].
  destruct (combine_signals_ok _ _ _ _ _ Hsig) as (_ & _ & ->).
  assert (Hthr : let thresholds :=
                   adjust_thresholds_for_volatility
                     (set_current_weights weights e) rg in
                 0 < fst thresholds /\ fst thresholds < snd thresholds /\
                 snd thresholds < 100)
    by (apply adjusted_thresholds_ordered; assumption).
  destruct (combine_signals_components _ _ _ _ _ Hthr Hrsi Hslow Hml Hsig)
    as [_ Hcomp].
  pose proof (weighted_score_range
                (current_weights (set_current_weights weights e))
                (components sig)
                (adjusted_weights_nonneg rg ml_on rules weights Hrules Hnorm)
                Hcomp) as B.
  cbn [add mul lit QNum]. lra.
Qed.

End SignalTheorems.


Lemma signal_strength_between_0_and_100_witness :
  exists (P : Pandas Q) (sig : AdaptiveSignal Q) (e' : Engine Q),
    generate_ensemble_signal sparse_frame model_prediction
      (new_engine 30%Q 70%Q true true) = (Ok sig, e') /\
    (0 <= strength sig <= 100)%Q.
Proof.
  pose proof (signal_strength_between_0_and_100 sparse_frame model_prediction
                (new_engine 30%Q 70%Q true true) true) as H.
  specialize (H ltac:(reflexivity) ltac:(decide_closed) ltac:(decide_closed)
                ltac:(decide_closed) ltac:(decide_closed)
                ltac:(decide_closed)).
  assert (Hrsi : forall rsi_col rsi,
             sparse_frame (F := Q) !! "rsi" = Some rsi_col ->
             iloc_last rsi_col = Ok rsi -> (0 <= rsi <= 100)%Q).
  { intros c v H1 H2. vm_compute in H1. injection H1 as <-.
    vm_compute in H2. injection H2 as <-. split; decide_closed. }
  assert (Hslow : forall slow_col ema_slow,
             sparse_frame (F := Q) !! "ema_26" = Some slow_col ->
             iloc_last slow_col = Ok ema_slow -> (0 < ema_slow)%Q).
  { intros c v H1. vm_compute in H1. discriminate H1. }
  assert (Hml : forall d, model_prediction (F := Q) = Some d ->
             (-1 <= default 0 (dict_get "signal" d) <= 1)%Q /\
             (0 <= default 0.5 (dict_get "confidence" d) <= 1)%Q).
  { intros d Hd. injection Hd as <-. split; split; decide_closed. }
  exists {| rolling_mean := fun _ xs => xs; pct_change := fun xs => xs;
            series_std := fun _ => 0%Q; np_std := fun _ => 0%Q |}.
  exact (H Hrsi Hslow Hml _).
Defined.

(** ** The trading bot: sales and position updates *)

Section BotFacts.
Local Open Scope Q_scope.

Lemma update_pnl_twice (price : Q) (p : Position Q) :
  update_pnl price (update_pnl price p) = update_pnl price p.
Proof.
  unfold update_pnl.
  destruct (String.eqb (side p) "long") eqn:Eside;
    cbn [symbol side entry_price size stop_loss take_profit entry_time
         unrealized_pnl realized_pnl trailing_stop_active highest_price
         lowest_price];
    rewrite Eside.
  - destruct (ltb (highest_price p) price) eqn:E.
    + assert (E' : ltb price price = false) by (apply Q_ltb_false; lra).
      rewrite E'. reflexivity.
    + rewrite E. reflexivity.
  - destruct (ltb price (lowest_price p)) eqn:E.
    + assert (E' : ltb price price = false) by (apply Q_ltb_false; lra).
      rewrite E'. reflexivity.
    + rewrite E. reflexivity.
Qed.

Lemma unrealized_after_update (price : Q) (p : Position Q) :
  unrealized_pnl (update_pnl price p) = pnl_at price p.
Proof.
  unfold update_pnl, pnl_at. destruct (String.eqb (side p) "long"); reflexivity.
Qed.

Lemma get_pnl_pct_defined (price : Q) (p : Position Q) :
  entry_price p == 0 \/ ~ size p == 0 ->
  exists pct, get_pnl_pct (update_pnl price p) = Ok pct.
Proof.
  intros Hok. unfold get_pnl_pct, py_div.
  assert (He : entry_price (update_pnl price p) = entry_price p)
    by (unfold update_pnl; destruct (String.eqb (side p) "long"); reflexivity).
  assert (Hs : size (update_pnl price p) = size p)
    by (unfold update_pnl; destruct (String.eqb (side p) "long"); reflexivity).
  rewrite He, Hs.
  destruct (eqb (entry_price p) (lit 0)) eqn:E0; [eexists; reflexivity|].
  apply Q_eqb_false in E0. destruct Hok as [H|Hsize]; [contradiction|].
  assert (E1 : eqb (mul (entry_price p) (size p)) (lit 0) = false).
  { apply Q_eqb_false. cbn [lit QNum mul]. intros H.
    apply Qmult_integral in H. tauto. }
  rewrite E1. cbn [rbind]. eexists. reflexivity.
Qed.

Lemma execute_sell_books (symbol : string) (price : Q) (rm : RiskManager Q)
    (p : Position Q) :
  positions rm !! symbol = Some p ->
  entry_price p == 0 \/ ~ size p == 0 ->
  execute_sell "paper" symbol price rm
  = (Ok tt,
     book_sale symbol (update_pnl price p)
       (set_positions (<[symbol := update_pnl price p]> (positions rm)) rm)).
Proof.
  intros Hp Hok.
  destruct (get_pnl_pct_defined price p Hok) as (pct & Hpct).
  unfold execute_sell, try_except, store_position,
    bindM, getM, retM, modifyM, liftM.
  rewrite Hp, Hpct. reflexivity.
Qed.

(** X20.  A sale in paper mode of a position whose P&L percentage is defined (a
    zero entry price or a non-zero size): the position leaves the open
    positions and is appended to the closed ones with its realized P&L, the
    P&L at the sale price; the capital grows by that amount; the peak capital
    becomes the maximum of the old peak and the new capital, so the capital
    never exceeds the peak; the daily start capital and the circuit breaker
    are not touched. *)
Theorem execute_sell_accounting :
  forall (symbol : string) (price : Q) (rm : RiskManager Q) (p : Position Q),
    positions rm !! symbol = Some p ->
    entry_price p == 0 \/ ~ size p == 0 ->
    exists rm',
      execute_sell "paper" symbol price rm = (Ok tt, rm') /\
      positions rm' = delete symbol (positions rm) /\
      closed_positions rm'
      = (closed_positions rm
         ++ [set_realized_pnl (pnl_at price p) (update_pnl price p)])%list /\
      current_capital rm' = current_capital rm + pnl_at price p /\
      peak_capital rm' == Qmax (peak_capital rm) (current_capital rm') /\
      current_capital rm' <= peak_capital rm' /\
      daily_start_capital rm' = daily_start_capital rm /\
      circuit_breaker_active rm' = circuit_breaker_active rm /\
      circuit_breaker_until rm' = circuit_breaker_until rm /\
      log rm' = log rm.
Proof.
  intros symbol price rm p Hp Hok.
  rewrite (execute_sell_books symbol price rm p Hp Hok).
  eexists. split; [reflexivity|].
  unfold book_sale.
  cbn [positions closed_positions current_capital peak_capital
       daily_start_capital circuit_breaker_active circuit_breaker_until log
       set_positions realized_pnl set_realized_pnl].
  rewrite unrealized_after_update.
  split; [apply delete_insert_eq|].
  split; [reflexivity|]. split; [reflexivity|].
  cbn [add QNum].
  assert (Hpeak : (if ltb (peak_capital rm) (current_capital rm + pnl_at price p)
                   then current_capital rm + pnl_at price p
                   else peak_capital rm)
                  == Qmax (peak_capital rm)
                          (current_capital rm + pnl_at price p)).
  { destruct (ltb _ _) eqn:E.
    - apply Q_ltb_iff in E. symmetry. apply Q.max_r. lra.
    - apply Q_ltb_false in E. symmetry. apply Q.max_l. lra. }
  split; [exact Hpeak|].
  split; [rewrite Hpeak; apply Q.le_max_r|].
  repeat split.
Qed.


Lemma execute_sell_ok (mode symbol : string) (price : Q)
    (rm : RiskManager Q) :
  exists rm', execute_sell mode symbol price rm = (Ok tt, rm').
Proof.
  unfold execute_sell, try_except, store_position,
    bindM, getM, retM, modifyM, liftM.
  destruct (positions rm !! symbol) as [p|]; [|eexists; reflexivity].
  destruct (get_pnl_pct (update_pnl price p)); cbn;
    [destruct (String.eqb mode "paper")|]; eexists; reflexivity.
Qed.

Lemma targets_reached (price : Q) (targets : list Q) :
  existsb (fun tp => leb tp price) targets = true
  <-> Exists (fun tp => tp <= price) targets.
Proof.
  rewrite existsb_exists, List.Exists_exists.
  split; intros (tp & Hin & H); exists tp; (split; [exact Hin|]);
    apply Q_leb_iff; exact H.
Qed.

Lemma update_pnl_keeps (price : Q) (p : Position Q) :
  side (update_pnl price p) = side p /\
  stop_loss (update_pnl price p) = stop_loss p /\
  take_profit (update_pnl price p) = take_profit p /\
  entry_price (update_pnl price p) = entry_price p /\
  size (update_pnl price p) = size p.
Proof.
  unfold update_pnl. destruct (String.eqb (side p) "long"); cbn; auto.
Qed.

Lemma update_position_sells (mode symbol : string) (price : Q)
    (rm : RiskManager Q) (p : Position Q) :
  positions rm !! symbol = Some p ->
  side p = "long" ->
  price <= stop_loss p \/ Exists (fun tp => tp <= price) (take_profit p) ->
  update_position mode symbol price rm = execute_sell mode symbol price rm.
Proof.
  intros Hp Hlong Hexit.
  destruct (update_pnl_keeps price p) as (Hs & Hst & Htp & _).
  assert (Hrun : execute_sell mode symbol price
                   (set_positions
                      (<[symbol := update_pnl price p]> (positions rm)) rm)
                 = execute_sell mode symbol price rm).
  { set (s1 := set_positions
                 (<[symbol := update_pnl price p]> (positions rm)) rm).
    assert (Hs1 : positions s1 !! symbol = Some (update_pnl price p))
      by apply lookup_insert_eq.
    assert (Hstore : set_positions
                       (<[symbol := update_pnl price p]> (positions s1)) s1
                     = s1).
    { unfold s1, set_positions.
      cbn [initial_capital current_capital peak_capital
           max_position_size_pct max_daily_loss_pct max_drawdown_pct
           use_kelly_criterion kelly_fraction enable_trailing_stop
           trailing_stop_pct positions closed_positions daily_start_capital
           circuit_breaker_active circuit_breaker_until log].
      rewrite insert_insert_eq. reflexivity. }
    unfold execute_sell, try_except, store_position,
      bindM, getM, retM, modifyM, liftM.
    rewrite Hs1, Hp, update_pnl_twice, Hstore. reflexivity. }
  destruct (execute_sell_ok mode symbol price rm) as [rm' Hok].
  unfold update_position, try_except, store_position,
    bindM, getM, retM, modifyM.
  rewrite Hp, Hs, Hst, Htp, Hlong.
  change (String.eqb "long" "long") with true. cbn [andb].
  destruct (leb price (stop_loss p)) eqn:Estop.
  - rewrite Hrun, Hok. reflexivity.
  - apply Q_leb_false in Estop.
    destruct Hexit as [Hstop|Htarget]; [lra|].
    apply targets_reached in Htarget. rewrite Htarget.
    rewrite Hrun, Hok. reflexivity.
Qed.

Lemma update_position_ticks (mode symbol : string) (price : Q)
    (rm : RiskManager Q) (p : Position Q) :
  positions rm !! symbol = Some p ->
  side p <> "long" \/
  (stop_loss p < price /\ Forall (fun tp => price < tp) (take_profit p)) ->
  update_position mode symbol price rm = (Ok tt, tick symbol price rm).
Proof.
  intros Hp Hhold.
  destruct (update_pnl_keeps price p) as (Hs & Hst & Htp & _).
  unfold update_position, tick, try_except, store_position,
    bindM, getM, retM, modifyM.
  rewrite Hp, Hs, Hst, Htp.
  assert (Hcond1 : String.eqb (side p) "long" && leb price (stop_loss p)
                   = false).
  { destruct Hhold as [Hside|[Hstop _]].
    - apply String.eqb_neq in Hside. rewrite Hside. reflexivity.
    - apply andb_false_iff. right. apply Q_leb_false. exact Hstop. }
  assert (Hcond2 : String.eqb (side p) "long"
                   && existsb (fun tp => leb tp price) (take_profit p)
                   = false).
  { destruct Hhold as [Hside|[_ Htargets]].
    - apply String.eqb_neq in Hside. rewrite Hside. reflexivity.
    - apply andb_false_iff. right. apply not_true_iff_false.
      rewrite targets_reached, List.Exists_exists.
      intros (tp & Hin & Hle).
      rewrite List.Forall_forall in Htargets. specialize (Htargets tp Hin).
      lra. }
  rewrite Hcond1, Hcond2.
  destruct (update_trailing_stop symbol price _) as [[r|ex] s]; reflexivity.
Qed.

(** X22.  [update_position] never raises.  It changes nothing when no position is
    open for the symbol.  For a long position it is [execute_sell] at the
    current price as soon as the price is at or below the stop or at or above
    any of the targets; otherwise, and for every position that is not long,
    it is one price update: the P&L, then the trailing stop. *)
Theorem update_position_outcome :
  forall (mode symbol : string) (price : Q) (rm : RiskManager Q),
    (exists rm', update_position mode symbol price rm = (Ok tt, rm')) /\
    (positions rm !! symbol = None ->
     update_position mode symbol price rm = (Ok tt, rm)) /\
    (forall p,
        positions rm !! symbol = Some p ->
        (side p = "long" ->
         price <= stop_loss p \/
         Exists (fun tp => tp <= price) (take_profit p) ->
         update_position mode symbol price rm
         = execute_sell mode symbol price rm) /\
        (side p <> "long" \/
         (stop_loss p < price /\
          Forall (fun tp => price < tp) (take_profit p)) ->
         update_position mode symbol price rm
         = (Ok tt, tick symbol price rm))).
Proof.
  intros mode symbol price rm.
  destruct (positions rm !! symbol) as [p|] eqn:Hp.
  - assert (Hcases : side p <> "long" \/
             (side p = "long" /\
              ((stop_loss p < price /\
                Forall (fun tp => price < tp) (take_profit p)) \/
               (price <= stop_loss p \/
                Exists (fun tp => tp <= price) (take_profit p))))).
    { destruct (String.eqb_spec (side p) "long") as [Hlong|Hside];
        [right; split; [exact Hlong|] | left; exact Hside].
      destruct (Qlt_le_dec (stop_loss p) price) as [Hlt|Hle];
        [|right; left; exact Hle].
      assert (Hdec : forall tp, {price < tp} + {~ price < tp}).
      { intros tp. destruct (Qlt_le_dec price tp); [left|right]; lra. }
      destruct (List.Forall_Exists_dec (fun tp => price < tp) Hdec
                  (take_profit p)) as [Hall|Hsome].
      - left. split; assumption.
      - right. right. rewrite List.Exists_exists in *.
        destruct Hsome as (tp & Hin & Hn). exists tp. split; [exact Hin|].
        lra. }
    split; [|split; [intros H; discriminate H|]].
    + destruct Hcases as [Hside|[Hlong [Hhold|Hexit]]].
      * rewrite (update_position_ticks mode symbol price rm p Hp
                   (or_introl Hside)). eexists; reflexivity.
      * rewrite (update_position_ticks mode symbol price rm p Hp
                   (or_intror Hhold)). eexists; reflexivity.
      * rewrite (update_position_sells mode symbol price rm p Hp Hlong Hexit).
        apply execute_sell_ok.
    + intros p0 [= <-]. split.
      * intros Hlong Hexit. apply (update_position_sells _ _ _ _ p);
          assumption.
      * intros Hhold. apply (update_position_ticks _ _ _ _ p); assumption.
  - split; [|split; [|intros p H; discriminate H]].
    + unfold update_position, try_except, bindM, getM, retM.
      rewrite Hp. eexists; reflexivity.
    + intros _. unfold update_position, try_except, bindM, getM, retM.
      rewrite Hp. reflexivity.
Qed.

(** X23.  A long position, in paper mode, with a P&L percentage that is defined:
    when the price is at or below the stop, or at or above any target,
    [update_position] closes the whole position at the current price; the
    realized P&L is (price - entry) x size, which for a size that is not
    negative is at most the loss planned at the stop when the stop is hit,
    and at least the profit planned at every target that has been reached. *)
Theorem long_position_exits :
  forall (symbol : string) (price : Q) (rm : RiskManager Q) (p : Position Q),
    positions rm !! symbol = Some p ->
    side p = "long" ->
    entry_price p == 0 \/ ~ size p == 0 ->
    price <= stop_loss p \/ Exists (fun tp => tp <= price) (take_profit p) ->
    exists rm' closed,
      update_position "paper" symbol price rm = (Ok tt, rm') /\
      positions rm' !! symbol = None /\
      closed_positions rm' = (closed_positions rm ++ [closed])%list /\
      realized_pnl closed = (price - entry_price p) * size p /\
      current_capital rm'
      = current_capital rm + (price - entry_price p) * size p /\
      (0 <= size p -> price <= stop_loss p ->
       realized_pnl closed <= (stop_loss p - entry_price p) * size p) /\
      (0 <= size p ->
       forall tp, In tp (take_profit p) -> tp <= price ->
                  (tp - entry_price p) * size p <= realized_pnl closed).
Proof.
  intros symbol price rm p Hp Hlong Hok Hexit.
  rewrite (update_position_sells "paper" symbol price rm p Hp Hlong Hexit).
  rewrite (execute_sell_books symbol price rm p Hp Hok).
  eexists; eexists. split; [reflexivity|].
  unfold book_sale.
  cbn [positions closed_positions current_capital set_positions
       realized_pnl set_realized_pnl].
  rewrite unrealized_after_update. unfold pnl_at. rewrite Hlong.
  change (String.eqb "long" "long") with true. cbv iota.
  split; [rewrite delete_insert_eq; apply lookup_delete_eq|].
  split; [reflexivity|]. split; [reflexivity|]. split; [reflexivity|].
  split.
  - intros Hsize Hstop. apply Qmult_le_compat_r; [lra | exact Hsize].
  - intros Hsize tp _ Htp. apply Qmult_le_compat_r; [lra | exact Hsize].
Qed.
End BotFacts.

Lemma execute_sell_accounting_witness :
  exists rm' : RiskManager Q,
    execute_sell "paper" "BTC/USDT" 104%Q holding_manager = (Ok tt, rm') /\
    positions rm' = delete "BTC/USDT" (positions (holding_manager (F := Q)))
    /\
    current_capital rm'
    = (current_capital (holding_manager (F := Q))
       + pnl_at 104 winning_long)%Q.
Proof.
  pose proof (execute_sell_accounting "BTC/USDT" 104%Q holding_manager
                winning_long) as H.
  specialize (H ltac:(reflexivity) ltac:(right; decide_closed)).
  destruct H as (rm' & Hrun & Hopen & _ & Hcapital & _).
  exists rm'. split; [exact Hrun|]. split; [exact Hopen | exact Hcapital].
Defined.

Lemma long_position_exits_witness :
  exists (rm' : RiskManager Q) (closed : Position Q),
    update_position "paper" "BTC/USDT" 110%Q holding_manager = (Ok tt, rm')
    /\
    positions rm' !! "BTC/USDT" = None /\
    realized_pnl closed
    = ((110 - entry_price (winning_long (F := Q)))
       * size (winning_long (F := Q)))%Q.
Proof.
  pose proof (long_position_exits "BTC/USDT" 110%Q holding_manager
                winning_long) as H.
  specialize (H ltac:(reflexivity) ltac:(reflexivity)
                ltac:(right; decide_closed)
                ltac:(right; apply List.Exists_cons_hd; decide_closed)).
  destruct H as (rm' & closed & Hrun & Hgone & _ & Hpnl & _).
  exists rm', closed. split; [exact Hrun|]. split; [exact Hgone | exact Hpnl].
Defined.

Section Streak.
Context {F : Type} {N : PyNum F}.
Local Open Scope py_scope.

Lemma check_true_on_streak (now : Z) (rm : RiskManager F) :
  (5 <=? length (closed_positions rm))%nat && consecutive_losses rm = true ->
  exists rm',
    check_circuit_breaker now rm = (Ok true, rm') /\
    circuit_breaker_active rm' = true.
Proof.
  intros Hstreak. breaker_cases now rm; try congruence;
    eexists; (split; [reflexivity|]); first [reflexivity | exact Eactive].
Qed.
End Streak.

Section StreakExact.
Local Open Scope Q_scope.

Lemma tail_n_snoc {A} (n : nat) (l : list A) (x : A) :
  (n <= length l)%nat -> tail_n (S n) (l ++ [x]) = (tail_n n l ++ [x])%list.
Proof.
  intros Hlen. unfold tail_n. rewrite length_app. cbn [length].
  replace (length l + 1 - S n)%nat with (length l - n)%nat by lia.
  rewrite skipn_app.
  replace (length l - n - length l)%nat with 0%nat by lia.
  reflexivity.
Qed.

(** X24.  A sale in paper mode at a loss, after four closed positions in a row that
    lost, trips the circuit breaker at the next check, whatever the capital
    and the drawdown; no position can be opened then. *)
Theorem fifth_losing_sale_trips_breaker :
  forall (symbol other : string) (price : Q) (now : Z) (rm : RiskManager Q)
         (p : Position Q),
    positions rm !! symbol = Some p ->
    entry_price p == 0 \/ ~ size p == 0 ->
    pnl_at price p < 0 ->
    (4 <= length (closed_positions rm))%nat ->
    Forall (fun c => realized_pnl c < 0) (tail_n 4 (closed_positions rm)) ->
    exists rm1 rm2,
      execute_sell "paper" symbol price rm = (Ok tt, rm1) /\
      check_circuit_breaker now rm1 = (Ok true, rm2) /\
      circuit_breaker_active rm2 = true /\
      can_open_position now other rm1
      = (Ok (false, "Circuit breaker active"), rm2).
Proof.
  intros symbol other price now rm p Hp Hok Hloss Hlen Hlast.
  rewrite (execute_sell_books symbol price rm p Hp Hok).
  set (rm1 := book_sale symbol (update_pnl price p) _).
  assert (Hclosed : closed_positions rm1
                    = (closed_positions rm
                       ++ [set_realized_pnl (pnl_at price p)
                             (update_pnl price p)])%list).
  { unfold rm1, book_sale. cbn [closed_positions set_positions].
    rewrite unrealized_after_update. reflexivity. }
  assert (Hstreak : (5 <=? length (closed_positions rm1))%nat
                    && consecutive_losses rm1 = true).
  { apply andb_true_iff. split.
    - apply Nat.leb_le. rewrite Hclosed, length_app. cbn [length]. lia.
    - unfold consecutive_losses. rewrite Hclosed, tail_n_snoc by exact Hlen.
      rewrite forallb_app. apply andb_true_iff. split.
      + apply forallb_forall. intros c Hin.
        rewrite List.Forall_forall in Hlast. apply Q_ltb_iff.
        exact (Hlast c Hin).
      + cbn [forallb realized_pnl set_realized_pnl]. rewrite andb_true_r.
        apply Q_ltb_iff. exact Hloss. }
  destruct (check_true_on_streak now rm1 Hstreak) as (rm2 & Hcheck & Hactive).
  exists rm1, rm2. split; [reflexivity|]. split; [exact Hcheck|].
  split; [exact Hactive|].
  unfold can_open_position, bindM, retM. rewrite Hcheck. reflexivity.
Qed.
End StreakExact.

Lemma fifth_losing_sale_trips_breaker_witness :
  exists rm1 rm2 : RiskManager Q,
    execute_sell "paper" "BTC/USDT" 90%Q streak_manager = (Ok tt, rm1) /\
    check_circuit_breaker 0 rm1 = (Ok true, rm2) /\
    circuit_breaker_active rm2 = true /\
    can_open_position 0 "ETH/USDT" rm1
    = (Ok (false, "Circuit breaker active"), rm2).
Proof.
  pose proof (fifth_losing_sale_trips_breaker "BTC/USDT" "ETH/USDT" 90%Q 0%Z
                streak_manager winning_long) as H.
  apply H.
  - reflexivity.
  - right. decide_closed.
  - decide_closed.
  - vm_compute. lia.
  - repeat constructor; decide_closed.
Defined.

(** ** [AdvancedRiskManager] *)

Section AdvancedExact.
Local Open Scope Q_scope.

(** X25.  [AdvancedRiskManager.calculate_kelly_position_size]: invalid parameters
    (a zero average loss, a win rate not strictly between 0 and 1) give 2% of
    the balance; a zero average win with valid parameters raises
    [ZeroDivisionError]; otherwise the size is the balance times a fraction
    between 1% and 20%, the fractional Kelly percentage clamped to that
    range, and exactly 1% when there is no edge: less than the 2% given for
    invalid parameters. *)
Theorem advanced_kelly_size :
  forall (rm : AdvancedRisk.Manager Q) (win_rate avg_win avg_loss balance : Q),
    (avg_loss == 0 \/ win_rate <= 0 \/ 1 <= win_rate ->
     AdvancedRisk.calculate_kelly_position_size rm win_rate avg_win avg_loss
       balance = Ok (balance * 0.02)) /\
    (~ avg_loss == 0 -> 0 < win_rate < 1 -> avg_win == 0 ->
     AdvancedRisk.calculate_kelly_position_size rm win_rate avg_win avg_loss
       balance = Raise ZeroDivisionError) /\
    (~ avg_loss == 0 -> 0 < win_rate < 1 -> ~ avg_win == 0 ->
     exists fraction,
       AdvancedRisk.calculate_kelly_position_size rm win_rate avg_win
         avg_loss balance = Ok (balance * fraction) /\
       fraction
       == Qmax 0.01
            (Qmin 0.20
               ((win_rate - (1 - win_rate) / Qabs (avg_win / avg_loss))
                * AdvancedRisk.kelly_fraction rm)) /\
       0.01 <= fraction <= 0.20 /\
       (0 <= balance ->
        balance * 0.01 <= balance * fraction <= balance * 0.20) /\
       (0 <= AdvancedRisk.kelly_fraction rm ->
        win_rate * Qabs avg_win <= (1 - win_rate) * Qabs avg_loss ->
        fraction == 0.01)).
Proof.
  intros rm w a l balance.
  unfold AdvancedRisk.calculate_kelly_position_size, py_div.
  split; [|split].
  - intros Hinvalid.
    assert (E : eqb l (lit 0) || leb w (lit 0) || leb (lit 1) w = true).
    { destruct Hinvalid as [H|[H|H]].
      - assert (H' : eqb l (lit 0) = true) by (apply Q_eqb_iff; exact H).
        rewrite H'. reflexivity.
      - assert (H' : leb w (lit 0) = true) by (apply Q_leb_iff; exact H).
        rewrite H'. apply orb_true_iff. left. apply orb_true_r.
      - assert (H' : leb (lit 1) w = true) by (apply Q_leb_iff; exact H).
        rewrite H'. apply orb_true_r. }
    rewrite E. reflexivity.
  - intros Hl [Hw0 Hw1] Ha.
    assert (E1 : eqb l (lit 0) = false) by (apply Q_eqb_false; exact Hl).
    assert (E2 : leb w (lit 0) = false) by (apply Q_leb_false; exact Hw0).
    assert (E3 : leb (lit 1) w = false) by (apply Q_leb_false; exact Hw1).
    rewrite E1, E2, E3. cbn [orb rbind].
    assert (E4 : eqb (pabs (div a l)) (lit 0) = true).
    { apply Q_eqb_iff. cbn [pabs div lit QNum]. rewrite Ha.
      unfold Qdiv. rewrite Qmult_0_l. reflexivity. }
    rewrite E4. reflexivity.
  - intros Hl [Hw0 Hw1] Ha.
    assert (E1 : eqb l (lit 0) = false) by (apply Q_eqb_false; exact Hl).
    assert (E2 : leb w (lit 0) = false) by (apply Q_leb_false; exact Hw0).
    assert (E3 : leb (lit 1) w = false) by (apply Q_leb_false; exact Hw1).
    rewrite E1, E2, E3. cbn [orb rbind].
    assert (Hratio : 0 < Qabs (a / l)).
    { assert (Hne : ~ a / l == 0).
      { intros H. apply Ha. rewrite <- (Qmult_div_r a l Hl), H. ring. }
      pose proof (Qabs_nonneg (a / l)) as H0.
      destruct (Qeq_dec (Qabs (a / l)) 0) as [Hz|Hz]; [|lra].
      exfalso. apply Hne.
      destruct (Qlt_le_dec (a / l) 0) as [Hneg|Hpos].
      - rewrite Qabs_neg in Hz by lra. lra.
      - rewrite Qabs_pos in Hz by lra. exact Hz. }
    assert (E4 : eqb (pabs (div a l)) (lit 0) = false)
      by (apply Q_eqb_false; cbn [pabs div lit QNum]; lra).
    rewrite E4. cbn [rbind].
    eexists. split; [reflexivity|].
    cbn [pabs div sub mul lit QNum].
    set (k := (w - (1 - w) / Qabs (a / l)) * AdvancedRisk.kelly_fraction rm).
    destruct (clamp_range 0.01 0.20 k ltac:(lra)) as [Hclamp Hrange].
    split; [exact Hclamp|]. split; [exact Hrange|].
    set (f := py_max 0.01 (py_min 0.20 k)) in *.
    split.
    + intros Hb.
      assert (0 <= balance * (f - 0.01)) by (apply Qmult_le_0_compat; lra).
      assert (0 <= balance * (0.20 - f)) by (apply Qmult_le_0_compat; lra).
      lra.
    + intros Hkf Hedge.
      assert (Habs : Qabs a == Qabs (a / l) * Qabs l).
      { rewrite <- Qabs_Qmult.
        assert (E : a / l * l == a) by (field; exact Hl).
        rewrite E. reflexivity. }
      assert (Hl0 : 0 < Qabs l).
      { pose proof (Qabs_nonneg l) as H0.
        destruct (Qeq_dec (Qabs l) 0) as [Hz|Hz]; [|lra].
        exfalso. apply Hl.
        destruct (Qlt_le_dec l 0) as [Hneg|Hpos].
        - rewrite Qabs_neg in Hz by lra. lra.
        - rewrite Qabs_pos in Hz by lra. exact Hz. }
      set (r := Qabs (a / l)) in *.
      assert (Hwr : w * r <= 1 - w).
      { rewrite Habs in Hedge.
        apply (Qmult_le_r _ _ (Qabs l)); [exact Hl0|].
        assert (E : w * r * Qabs l == w * (r * Qabs l)) by ring.
        rewrite E. exact Hedge. }
      assert (Hq : w <= (1 - w) / r)
        by (apply Qle_shift_div_l; assumption).
      assert (Hk : k <= 0).
      { unfold k. fold r.
        assert (0 <= ((1 - w) / r - w) * AdvancedRisk.kelly_fraction rm)
          by (apply Qmult_le_0_compat; lra).
        lra. }
      rewrite Hclamp. rewrite Q.max_l; [reflexivity|].
      apply Q.min_le_iff. right. lra.
Qed.


End AdvancedExact.

Section AdvancedState.
Context {F : Type} {N : PyNum F}.
Local Open Scope py_scope.

Lemma step_keeps_breaker (c : AdvancedRisk.call F)
    (rm : AdvancedRisk.Manager F) :
  AdvancedRisk.circuit_breaker_active rm = true ->
  AdvancedRisk.circuit_breaker_active (AdvancedRisk.step c rm) = true.
Proof.
  intros Hactive. destruct c as [balance|current starting| |trade];
    unfold AdvancedRisk.step.
  - unfold AdvancedRisk.check_daily_loss_limit,
      AdvancedRisk.activate_circuit_breaker,
      bindM, getM, retM, modifyM, liftM.
    destruct (AdvancedRisk.starting_balance_today rm == lit 0);
      cbv beta iota;
      (destruct (py_div _ _) as [loss|ex]; cbn [fst snd];
       [destruct (_ <= loss); cbn [snd]; first [reflexivity|exact Hactive]
       | exact Hactive]).
  - unfold AdvancedRisk.check_circuit_breaker, bindM, getM, retM.
    rewrite Hactive. exact Hactive.
  - exact Hactive.
  - cbn. exact Hactive.
Qed.

(** X28.  Once the circuit breaker of an [AdvancedRiskManager] is active it stays
    active through every sequence of checks, trade updates and calls of
    [reset_circuit_breaker()] with its default argument, which returns
    [False] and resets nothing; [check_circuit_breaker] then refuses trading
    whatever the balances are, a zero starting balance included.  Only
    [reset_circuit_breaker(manual=False)] clears it. *)
Theorem advanced_breaker_latches :
  forall (calls : list (AdvancedRisk.call F)) (rm : AdvancedRisk.Manager F),
    AdvancedRisk.circuit_breaker_active rm = true ->
    AdvancedRisk.circuit_breaker_active (AdvancedRisk.run calls rm) = true /\
    (forall current starting,
        AdvancedRisk.check_circuit_breaker current starting
          (AdvancedRisk.run calls rm)
        = (Ok false, AdvancedRisk.run calls rm)) /\
    AdvancedRisk.reset_circuit_breaker true (AdvancedRisk.run calls rm)
    = (Ok false, AdvancedRisk.run calls rm) /\
    (exists rm',
        AdvancedRisk.reset_circuit_breaker false (AdvancedRisk.run calls rm)
        = (Ok true, rm') /\
        AdvancedRisk.circuit_breaker_active rm' = false).
Proof.
  intros calls rm Hactive.
  assert (Hrun : AdvancedRisk.circuit_breaker_active
                   (AdvancedRisk.run calls rm) = true).
  { unfold AdvancedRisk.run. revert rm Hactive.
    induction calls as [|c rest IH]; intros rm Hactive; cbn [fold_left];
      [exact Hactive|].
    apply IH. apply step_keeps_breaker. exact Hactive. }
  split; [exact Hrun|]. split; [|split].
  - intros current starting.
    unfold AdvancedRisk.check_circuit_breaker, bindM, getM, retM.
    rewrite Hrun. reflexivity.
  - reflexivity.
  - eexists. split; reflexivity.
Qed.

Lemma step_history_bound (c : AdvancedRisk.call F)
    (rm : AdvancedRisk.Manager F) :
  (length (AdvancedRisk.trade_history rm) <= 100)%nat ->
  (length (AdvancedRisk.trade_history (AdvancedRisk.step c rm)) <= 100)%nat.
Proof.
  intros Hlen. destruct c as [balance|current starting| |trade];
    unfold AdvancedRisk.step.
  - unfold AdvancedRisk.check_daily_loss_limit,
      AdvancedRisk.activate_circuit_breaker,
      bindM, getM, retM, modifyM, liftM.
    destruct (AdvancedRisk.starting_balance_today rm == lit 0);
      cbv beta iota;
      (destruct (py_div _ _) as [loss|ex]; cbn [fst snd];
       [destruct (_ <= loss); cbn [snd]|]; exact Hlen).
  - unfold AdvancedRisk.check_circuit_breaker,
      AdvancedRisk.activate_circuit_breaker,
      bindM, getM, retM, modifyM, liftM.
    destruct (AdvancedRisk.circuit_breaker_active rm); [exact Hlen|].
    destruct (py_div _ _) as [loss|ex]; cbn [fst snd]; [|exact Hlen].
    destruct (_ <= loss); cbn [snd]; exact Hlen.
  - exact Hlen.
  - unfold AdvancedRisk.update_trade_statistics, modifyM.
    cbn [snd AdvancedRisk.trade_history AdvancedRisk.set_trade_history].
    destruct (100 <? _)%nat eqn:E.
    + destruct (AdvancedRisk.trade_history rm ++ [trade])%list eqn:Eh;
        cbn [tl length]; [lia|].
      apply (f_equal length) in Eh. rewrite length_app in Eh.
      cbn [length] in Eh. lia.
    + apply Nat.ltb_ge in E. exact E.
Qed.

(** X29.  [update_trade_statistics] keeps the last 100 trades: on a history of at
    most 100 trades the new history is the last 100 entries of the old one
    extended by the new trade, which is its last entry, and the bound of 100
    entries holds after any sequence of calls. *)
Theorem trade_history_window :
  forall (rm : AdvancedRisk.Manager F),
    (length (AdvancedRisk.trade_history rm) <= 100)%nat ->
    (forall trade,
        exists rm',
          AdvancedRisk.update_trade_statistics trade rm = (Ok tt, rm') /\
          AdvancedRisk.trade_history rm'
          = tail_n 100 (AdvancedRisk.trade_history rm ++ [trade]) /\
          last (AdvancedRisk.trade_history rm') = Some trade /\
          length (AdvancedRisk.trade_history rm')
          = Nat.min 100 (S (length (AdvancedRisk.trade_history rm)))) /\
    (forall calls,
        (length (AdvancedRisk.trade_history (AdvancedRisk.run calls rm))
         <= 100)%nat).
Proof.
  intros rm Hlen. split.
  - intros trade. eexists. split; [reflexivity|].
    cbn [AdvancedRisk.trade_history AdvancedRisk.set_trade_history].
    set (h := (AdvancedRisk.trade_history rm ++ [trade])%list).
    assert (Hh : length h = S (length (AdvancedRisk.trade_history rm)))
      by (unfold h; rewrite length_app; cbn [length]; lia).
    assert (Hwin : (if (100 <? length h)%nat then tl h else h)
                   = tail_n 100 h).
    { unfold tail_n. destruct (100 <? length h)%nat eqn:E.
      - apply Nat.ltb_lt in E.
        replace (length h - 100)%nat with 1%nat by lia.
        destruct h; reflexivity.
      - apply Nat.ltb_ge in E.
        replace (length h - 100)%nat with 0%nat by lia. reflexivity. }
    rewrite Hwin. split; [reflexivity|]. split.
    + assert (Hlast : last h = Some trade) by (unfold h; apply last_snoc).
      unfold tail_n.
      destruct (last (skipn (length h - 100) h)) as [y|] eqn:Es.
      * rewrite <- (firstn_skipn (length h - 100) h) in Hlast.
        rewrite last_app, Es in Hlast. exact Hlast.
      * apply last_None in Es. apply (f_equal length) in Es.
        rewrite length_skipn in Es. cbn in Es. lia.
    + unfold tail_n. rewrite length_skipn, Hh. lia.
  - intros calls. unfold AdvancedRisk.run. revert rm Hlen.
    induction calls as [|c rest IH]; intros rm Hlen; cbn [fold_left];
      [exact Hlen|].
    apply IH. apply step_history_bound. exact Hlen.
Qed.
End AdvancedState.

Lemma advanced_breaker_latches_witness :
  AdvancedRisk.circuit_breaker_active
    (AdvancedRisk.run
       [AdvancedRisk.Reset; AdvancedRisk.CheckCircuitBreaker 100%Q 100%Q]
       (AdvancedRisk.set_circuit_breaker_active true
          AdvancedRisk.new_manager))
  = true.
Proof.
  pose proof (advanced_breaker_latches
                [AdvancedRisk.Reset;
                 AdvancedRisk.CheckCircuitBreaker 100%Q 100%Q]
                (AdvancedRisk.set_circuit_breaker_active true
                   AdvancedRisk.new_manager)) as H.
  specialize (H ltac:(reflexivity)). exact (proj1 H).
Defined.

Lemma trade_history_window_witness :
  exists rm' : AdvancedRisk.Manager Q,
    AdvancedRisk.update_trade_statistics [("profit_loss", 12%Q)]
      AdvancedRisk.new_manager = (Ok tt, rm') /\
    last (AdvancedRisk.trade_history rm') = Some [("profit_loss", 12%Q)].
Proof.
  pose proof (trade_history_window (AdvancedRisk.new_manager (F := Q))) as H.
  specialize (H ltac:(vm_compute; lia)).
  destruct (proj1 H [("profit_loss", 12%Q)]) as (rm' & Hrun & _ & Hlast & _).
  exists rm'. split; [exact Hrun | exact Hlast].
Defined.

Section AdvancedDaily.
Local Open Scope Q_scope.

Lemma step_keeps_baseline (c : AdvancedRisk.call Q)
    (rm : AdvancedRisk.Manager Q) :
  ~ AdvancedRisk.starting_balance_today rm == 0 ->
  AdvancedRisk.starting_balance_today (AdvancedRisk.step c rm)
  = AdvancedRisk.starting_balance_today rm.
Proof.
  intros Hstart.
  assert (E : eqb (AdvancedRisk.starting_balance_today rm) (lit 0) = false)
    by (apply Q_eqb_false; exact Hstart).
  destruct c as [balance|current starting| |trade]; unfold AdvancedRisk.step.
  - unfold AdvancedRisk.check_daily_loss_limit,
      AdvancedRisk.activate_circuit_breaker,
      bindM, getM, retM, modifyM, liftM.
    rewrite E. cbv beta iota.
    destruct (py_div _ _) as [loss|ex]; cbn [fst snd]; [|reflexivity].
    destruct (leb _ loss); reflexivity.
  - unfold AdvancedRisk.check_circuit_breaker,
      AdvancedRisk.activate_circuit_breaker,
      bindM, getM, retM, modifyM, liftM.
    destruct (AdvancedRisk.circuit_breaker_active rm); [reflexivity|].
    destruct (py_div _ _) as [loss|ex]; cbn [fst snd]; [|reflexivity].
    destruct (leb _ loss); reflexivity.
  - reflexivity.
  - reflexivity.
Qed.

End AdvancedDaily.
